(** * SceneManager: texture and material registries, model transform,
      light rig and the per-frame draw script of the kitchen-counter scene

    Source: [7-1_FinalProjectMilestones/Source/SceneManager.cpp].

    Conventions of the embedding.
    - C++ [float] data (scales, positions, colours, angles in degrees) is
      embedded as exact rationals [Q]; every finite float is a rational.
      Arithmetic on it is exact: rounding, of relative size 1e-7, is not
      modelled, and the tolerances and ranges proved below keep a margin
      of at least 1e-4.
    - A conversion from [double] to [float] that the code performs (the
      cursor position and the frame time of the view manager) is an
      explicit function; which float it returns is left to the platform.
    - The model matrix is built with [sin] and [cos], so matrices live in
      [R]; identities such as cos(90°) = 0 are those of the reals.
    - [int] and [GLuint] are [Z]; the [GLuint -> int] conversion of
      [FindTextureID] is written out.
    - The shader manager is an external uniform sink: it is embedded as the
      finite map from uniform names to the last value written, and the
      pointer [m_pShaderManager] as an [option] ([None] is [nullptr]).
    - Dereferencing a null shader manager and writing past the end of the
      texture array have no defined behaviour in C++; they are embedded as
      explicit faults. *)

From stdpp Require Import gmap strings list.
From Stdlib Require Import ZArith QArith Reals Qreals Lra Lia Machin.

(* ===================================================================== *)
(** ** glm: vectors, 4x4 column-major matrices, translate / rotate / scale *)
(* ===================================================================== *)

Module Glm.

(** [glm::vec3] as the scene script stores it. *)
Record vec3 : Type := Vec3 { x3 : Q; y3 : Q; z3 : Q }.

(** [glm::vec4] and [glm::mat4] (four columns) as the GPU receives them. *)
Record vec4 : Type := Vec4 { vx : R; vy : R; vz : R; vw : R }.
Record mat4 : Type := Mat4 { col0 : vec4; col1 : vec4; col2 : vec4; col3 : vec4 }.

Local Open Scope R_scope.

Definition vadd (a b : vec4) : vec4 :=
  Vec4 (vx a + vx b) (vy a + vy b) (vz a + vz b) (vw a + vw b).

Definition vscale (a : vec4) (k : R) : vec4 :=
  Vec4 (vx a * k) (vy a * k) (vz a * k) (vw a * k).

(** [mat4(1.0f)] *)
Definition identity : mat4 :=
  Mat4 (Vec4 1 0 0 0) (Vec4 0 1 0 0) (Vec4 0 0 1 0) (Vec4 0 0 0 1).

(** [mat4 * vec4]: the linear combination of the columns. *)
Definition mul_vec (m : mat4) (v : vec4) : vec4 :=
  vadd (vadd (vadd (vscale (col0 m) (vx v)) (vscale (col1 m) (vy v)))
             (vscale (col2 m) (vz v)))
       (vscale (col3 m) (vw v)).

(** [mat4 * mat4]: column j of the product is [a * (column j of b)]. *)
Definition mul (a b : mat4) : mat4 :=
  Mat4 (mul_vec a (col0 b)) (mul_vec a (col1 b))
       (mul_vec a (col2 b)) (mul_vec a (col3 b)).

(** [glm::radians] *)
Definition radians (degrees : R) : R := degrees * PI / 180.

(** [glm::translate(m, v)]: only the last column changes. *)
Definition translate_m (m : mat4) (tx ty tz : R) : mat4 :=
  Mat4 (col0 m) (col1 m) (col2 m)
       (vadd (vadd (vadd (vscale (col0 m) tx) (vscale (col1 m) ty))
                   (vscale (col2 m) tz))
             (col3 m)).

(** [glm::scale(m, v)] *)
Definition scale_m (m : mat4) (sx sy sz : R) : mat4 :=
  Mat4 (vscale (col0 m) sx) (vscale (col1 m) sy) (vscale (col2 m) sz) (col3 m).

(** [glm::rotate(m, angle, v)]: the axis is normalised, then the
    axis-angle matrix is filled entry by entry. *)
Definition rotate_m (m : mat4) (angle : R) (ax ay az : R) : mat4 :=
  let c := cos angle in
  let s := sin angle in
  let len := sqrt (ax * ax + ay * ay + az * az) in
  let a0 := ax / len in
  let a1 := ay / len in
  let a2 := az / len in
  let t0 := (1 - c) * a0 in
  let t1 := (1 - c) * a1 in
  let t2 := (1 - c) * a2 in
  let r00 := c + t0 * a0 in
  let r01 := t0 * a1 + s * a2 in
  let r02 := t0 * a2 - s * a1 in
  let r10 := t1 * a0 - s * a2 in
  let r11 := c + t1 * a1 in
  let r12 := t1 * a2 + s * a0 in
  let r20 := t2 * a0 + s * a1 in
  let r21 := t2 * a1 - s * a0 in
  let r22 := c + t2 * a2 in
  Mat4 (vadd (vadd (vscale (col0 m) r00) (vscale (col1 m) r01)) (vscale (col2 m) r02))
       (vadd (vadd (vscale (col0 m) r10) (vscale (col1 m) r11)) (vscale (col2 m) r12))
       (vadd (vadd (vscale (col0 m) r20) (vscale (col1 m) r21)) (vscale (col2 m) r22))
       (col3 m).

(** The one-argument forms of [<glm/gtx/transform.hpp>] start from the
    identity. *)
Definition translate (tx ty tz : R) : mat4 := translate_m identity tx ty tz.
Definition scale (sx sy sz : R) : mat4 := scale_m identity sx sy sz.
Definition rotate (angle : R) (ax ay az : R) : mat4 := rotate_m identity angle ax ay az.

End Glm.

Export Glm.

(* ===================================================================== *)
(** ** The shader manager: an external sink of named uniform values      *)
(* ===================================================================== *)

Module Shader.

(** One constructor per setter of the shader manager used by the scene. *)
Inductive UniformValue : Type :=
| UBool (b : bool)                  (* setBoolValue      *)
| UInt (i : Z)                      (* setIntValue       *)
| UFloat (f : Q)                    (* setFloatValue     *)
| UVec2 (u v : Q)                   (* setVec2Value      *)
| UVec3 (v : vec3)                  (* setVec3Value      *)
| UVec4 (r g b a : Q)               (* setVec4Value      *)
| UMat4 (m : mat4)                  (* setMat4Value      *)
| USampler2D (slot : Z).            (* setSampler2DValue *)

(** The sink keeps the last value written under each uniform name. *)
Definition set (name : string) (v : UniformValue)
    (u : gmap string UniformValue) : gmap string UniformValue :=
  <[name := v]> u.

(** Uniform names of the anonymous namespace at the top of the file. *)
Definition g_ModelName : string := "model".
Definition g_ColorValueName : string := "objectColor".
Definition g_TextureValueName : string := "objectTexture".
Definition g_UseTextureName : string := "bUseTexture".
Definition g_UseLightingName : string := "bUseLighting".

End Shader.

Export Shader.

(* ===================================================================== *)
(** ** The part of the OpenGL state the scene manager reads and writes   *)
(* ===================================================================== *)

Module GL.

Inductive PixelFormat : Type := GL_RGB8 | GL_RGBA8.

Inductive TexParam : Type :=
| GL_TEXTURE_WRAP_S | GL_TEXTURE_WRAP_T
| GL_TEXTURE_MIN_FILTER | GL_TEXTURE_MAG_FILTER.

Inductive TexParamValue : Type := GL_REPEAT | GL_LINEAR.

(** A 2D texture object: its sampling parameters, its level-0 storage
    (format, width, height) and whether mipmaps were generated. *)
Record TexObject : Type := MkTexObject {
  tex_params : list (TexParam * TexParamValue);
  tex_image : option (PixelFormat * Z * Z);
  tex_mipmaps : bool
}.

Definition empty_texture : TexObject := MkTexObject [] None false.

Record GLState : Type := MkGL {
  cull_face : bool;                  (* GL_CULL_FACE capability        *)
  active_texture : Z;                (* i of GL_TEXTURE0 + i           *)
  binding_2d : gmap Z Z;             (* unit -> bound texture name     *)
  textures : gmap Z TexObject        (* texture objects by name        *)
}.

Definition glIsEnabled_CULL_FACE (g : GLState) : bool := cull_face g.

Definition glDisable_CULL_FACE (g : GLState) : GLState :=
  MkGL false (active_texture g) (binding_2d g) (textures g).

Definition glEnable_CULL_FACE (g : GLState) : GLState :=
  MkGL true (active_texture g) (binding_2d g) (textures g).

Definition glActiveTexture (unit : Z) (g : GLState) : GLState :=
  MkGL (cull_face g) unit (binding_2d g) (textures g).

(** Binding a non-zero name for the first time creates the object. *)
Definition glBindTexture (name : Z) (g : GLState) : GLState :=
  MkGL (cull_face g) (active_texture g)
       (<[active_texture g := name]> (binding_2d g))
       (if (name =? 0)%Z then textures g
        else match textures g !! name with
             | Some _ => textures g
             | None => <[name := empty_texture]> (textures g)
             end).

(** The texture bound to GL_TEXTURE_2D on the active unit (0 if none). *)
Definition bound_texture (g : GLState) : Z :=
  default 0%Z (binding_2d g !! active_texture g).

Definition update_bound (f : TexObject -> TexObject) (g : GLState) : GLState :=
  MkGL (cull_face g) (active_texture g) (binding_2d g)
       (alter f (bound_texture g) (textures g)).

Definition glTexParameteri (p : TexParam) (v : TexParamValue) : GLState -> GLState :=
  update_bound (fun t => MkTexObject ((p, v) :: tex_params t) (tex_image t) (tex_mipmaps t)).

Definition glTexImage2D (fmt : PixelFormat) (width height : Z) : GLState -> GLState :=
  update_bound (fun t => MkTexObject (tex_params t) (Some (fmt, width, height)) (tex_mipmaps t)).

Definition glGenerateMipmap : GLState -> GLState :=
  update_bound (fun t => MkTexObject (tex_params t) (tex_image t) true).

(** Deleting a texture removes the object and resets to 0 every unit it
    was bound to. *)
Definition glDeleteTextures (name : Z) (g : GLState) : GLState :=
  MkGL (cull_face g) (active_texture g)
       ((fun b => if (b =? name)%Z then 0%Z else b) <$> binding_2d g)
       (delete name (textures g)).

End GL.

Export GL.

(* ===================================================================== *)
(** ** Faults and results of calls                                        *)
(* ===================================================================== *)

Inductive Fault : Type :=
| NullShaderManager        (* member call through a null m_pShaderManager *)
| TextureArrayOverflow.    (* store past the end of m_textureIDs          *)

Inductive Outcome (A : Type) : Type :=
| Done (a : A)
| Crash (f : Fault).

Arguments Done {A} a.
Arguments Crash {A} f.

(** Sequencing stops at the first fault; [x ← m; k] is the bind. *)
#[export] Instance Outcome_bind : MBind Outcome := fun A B k m =>
  match m with
  | Done a => k a
  | Crash f => Crash f
  end.

#[export] Instance Outcome_ret : MRet Outcome := fun A a => Done a.

(* ===================================================================== *)
(** ** Scene manager state                                                *)
(* ===================================================================== *)

(** Entry of the texture array: OpenGL name and lookup tag. *)
Record TEXTURE_INFO : Type := MkTextureInfo {
  ID : Z;
  tex_tag : string
}.

(** Phong material preset, with the fields the source assigns and reads. *)
Record OBJECT_MATERIAL : Type := MkMaterial {
  diffuseColor : vec3;
  specularColor : vec3;
  shininess : Q;
  tag : string
}.

(** The primitive meshes of the mesh helper ([m_basicMeshes]); the three
    flags of the cylinder are the arguments of [DrawCylinderMesh]. *)
Inductive Mesh : Type :=
| BoxMesh
| PlaneMesh
| CylinderMesh (drawTop drawBottom drawSides : bool)
| SphereMesh
| TorusMesh.

(** What a draw request consumes: the mesh, the culling capability and the
    uniforms current at the time of the request. *)
Record DrawRecord : Type := MkDraw {
  dr_mesh : Mesh;
  dr_cull : bool;
  dr_uniforms : option (gmap string UniformValue)
}.

(** Lines written to [std::cout] by [CreateGLTexture]. *)
Inductive LogLine : Type :=
| LoadedImage (filename : string) (width height channels : Z)
| UnsupportedChannels (channels : Z)
| CouldNotLoad (filename : string).

(** A decoded image as [stbi_load] reports it (the pixels stay opaque). *)
Record Image : Type := MkImage {
  width : Z;
  height : Z;
  colorChannels : Z
}.

Record State : Type := MkState {
  m_pShaderManager : option (gmap string UniformValue);
  m_textureIDs : list TEXTURE_INFO;     (* fixed-size array               *)
  m_loadedTextures : Z;
  m_objectMaterials : list OBJECT_MATERIAL;
  gl : GLState;
  cout : list LogLine;
  frame : list DrawRecord                (* draw requests issued so far    *)
}.

Definition with_shader (u : option (gmap string UniformValue)) (s : State) : State :=
  MkState u (m_textureIDs s) (m_loadedTextures s) (m_objectMaterials s)
          (gl s) (cout s) (frame s).

Definition with_gl (g : GLState) (s : State) : State :=
  MkState (m_pShaderManager s) (m_textureIDs s) (m_loadedTextures s)
          (m_objectMaterials s) g (cout s) (frame s).

Definition with_cout (l : LogLine) (s : State) : State :=
  MkState (m_pShaderManager s) (m_textureIDs s) (m_loadedTextures s)
          (m_objectMaterials s) (gl s) (cout s ++ [l]) (frame s).

Definition with_materials (ms : list OBJECT_MATERIAL) (s : State) : State :=
  MkState (m_pShaderManager s) (m_textureIDs s) (m_loadedTextures s)
          ms (gl s) (cout s) (frame s).

Definition with_textures (arr : list TEXTURE_INFO) (n : Z) (s : State) : State :=
  MkState (m_pShaderManager s) arr n (m_objectMaterials s)
          (gl s) (cout s) (frame s).

Definition with_draw (d : DrawRecord) (s : State) : State :=
  MkState (m_pShaderManager s) (m_textureIDs s) (m_loadedTextures s)
          (m_objectMaterials s) (gl s) (cout s) (frame s ++ [d]).

(** [SceneManager::SceneManager]: the array has [capacity] default entries
    and no texture is loaded. *)
Definition SceneManager (capacity : nat)
    (pShaderManager : option (gmap string UniformValue)) (g : GLState) : State :=
  MkState pShaderManager (replicate capacity (MkTextureInfo 0 "")) 0 [] g [] [].

(* ===================================================================== *)
(** ** Texture registry                                                   *)
(* ===================================================================== *)

(** The entries [m_textureIDs[0 .. m_loadedTextures-1]] the loops visit. *)
Definition loaded_entries (s : State) : list TEXTURE_INFO :=
  take (Z.to_nat (m_loadedTextures s)) (m_textureIDs s).

(** [CreateGLTexture]. [image] is what [stbi_load] returned ([None] for a
    null pointer) and [textureID] the name [glGenTextures] produced. *)
Definition CreateGLTexture (image : option Image) (textureID : Z)
    (filename : string) (tag : string) (s : State) : Outcome (bool * State) :=
  match image with
  | Some img =>
      let s := with_cout (LoadedImage filename (width img) (height img)
                                      (colorChannels img)) s in
      let g := glBindTexture textureID (gl s) in
      let g := glTexParameteri GL_TEXTURE_WRAP_S GL_REPEAT g in
      let g := glTexParameteri GL_TEXTURE_WRAP_T GL_REPEAT g in
      let g := glTexParameteri GL_TEXTURE_MIN_FILTER GL_LINEAR g in
      let g := glTexParameteri GL_TEXTURE_MAG_FILTER GL_LINEAR g in
      let upload :=
        if (colorChannels img =? 3)%Z then
          Some (glTexImage2D GL_RGB8 (width img) (height img) g)
        else if (colorChannels img =? 4)%Z then
          Some (glTexImage2D GL_RGBA8 (width img) (height img) g)
        else None in
      match upload with
      | None =>
          (* unsupported channel count: log, free the pixels, return false *)
          Done (false, with_cout (UnsupportedChannels (colorChannels img)) (with_gl g s))
      | Some g =>
          let g := glGenerateMipmap g in
          let g := glBindTexture 0 g in
          let s := with_gl g s in
          (* m_textureIDs[m_loadedTextures] = {textureID, tag}; m_loadedTextures++ *)
          if (0 <=? m_loadedTextures s)%Z
               && (m_loadedTextures s <? Z.of_nat (length (m_textureIDs s)))%Z
          then Done (true,
                     with_textures
                       (<[Z.to_nat (m_loadedTextures s) := MkTextureInfo textureID tag]>
                          (m_textureIDs s))
                       (m_loadedTextures s + 1) s)
          else Crash TextureArrayOverflow
      end
  | None =>
      Done (false, with_cout (CouldNotLoad filename) s)
  end.

(** [BindGLTextures]: the loop over [i = 0 .. m_loadedTextures-1]. *)
Fixpoint BindGLTextures_loop (entries : list TEXTURE_INFO) (i : Z) (g : GLState) : GLState :=
  match entries with
  | [] => g
  | e :: rest =>
      BindGLTextures_loop rest (i + 1)%Z (glBindTexture (ID e) (glActiveTexture i g))
  end.

Definition BindGLTextures (s : State) : State :=
  with_gl (BindGLTextures_loop (loaded_entries s) 0 (gl s)) s.

(** [DestroyGLTextures] *)
Definition DestroyGLTextures (s : State) : State :=
  with_gl (foldl (fun g e => glDeleteTextures (ID e) g) (gl s) (loaded_entries s)) s.

(** [GLuint -> int]: names from 2^31 on wrap to negative values. *)
Definition int_of_GLuint (n : Z) : Z :=
  if (n <? 2147483648)%Z then n else (n - 4294967296)%Z.

(** [FindTextureID] *)
Fixpoint FindTextureID_loop (entries : list TEXTURE_INFO) (tag : string) : Z :=
  match entries with
  | [] => (-1)%Z
  | e :: rest =>
      if String.eqb (tex_tag e) tag then int_of_GLuint (ID e)
      else FindTextureID_loop rest tag
  end.

Definition FindTextureID (s : State) (tag : string) : Z :=
  FindTextureID_loop (loaded_entries s) tag.

(** [FindTextureSlot]: [i] is the loop counter. *)
Fixpoint FindTextureSlot_loop (entries : list TEXTURE_INFO) (tag : string) (i : Z) : Z :=
  match entries with
  | [] => (-1)%Z
  | e :: rest =>
      if String.eqb (tex_tag e) tag then i
      else FindTextureSlot_loop rest tag (i + 1)%Z
  end.

Definition FindTextureSlot (s : State) (tag : string) : Z :=
  FindTextureSlot_loop (loaded_entries s) tag 0.

(* ===================================================================== *)
(** ** Material table                                                     *)
(* ===================================================================== *)

(** [FindMaterial]: [material] is the out-parameter; it is overwritten only
    when a preset with the tag is found, and the scan stops there. *)
Fixpoint FindMaterial_loop (mats : list OBJECT_MATERIAL) (t : string)
    (material : OBJECT_MATERIAL) : bool * OBJECT_MATERIAL :=
  match mats with
  | [] => (false, material)
  | mat :: rest =>
      if String.eqb (tag mat) t then (true, mat)
      else FindMaterial_loop rest t material
  end.

Definition FindMaterial (s : State) (t : string) (material : OBJECT_MATERIAL)
    : bool * OBJECT_MATERIAL :=
  FindMaterial_loop (m_objectMaterials s) t material.

(** [m_objectMaterials.push_back(m)]: how every preset is defined. *)
Definition push_back_material (m : OBJECT_MATERIAL) (s : State) : State :=
  with_materials (m_objectMaterials s ++ [m]) s.

(** The presets of [DefineObjectMaterials], in the order they are pushed. *)
Definition material_catalog : list OBJECT_MATERIAL :=
  let v := Vec3 in
  [ MkMaterial (v 0.45 0.45 0.45) (v 0.1 0.1 0.1) 2.0 "grayMatte";
    MkMaterial (v 0.95 0.93 0.90) (v 0.20 0.20 0.19) 12.0 "ceramic";
    MkMaterial (v 0.6 0.4 0.2) (v 0.15 0.1 0.05) 8.0 "wood";
    MkMaterial (v 0.55 0.35 0.18) (v 0.2 0.15 0.08) 12.0 "woodie";
    MkMaterial (v 0.75 0.65 0.50) (v 0.1 0.1 0.08) 4.0 "lightWood";
    MkMaterial (v 0.08 0.08 0.08) (v 0.6 0.6 0.6) 32.0 "darkMetal";
    MkMaterial (v 0.82 0.78 0.72) (v 0.92 0.90 0.88) 128.0 "counter";
    MkMaterial (v 0.80 0.76 0.70) (v 0.98 0.97 0.95) 256.0 "tableTop";
    MkMaterial (v 0.5 0.5 0.5) (v 0.6 0.6 0.6) 24.0 "metal";
    MkMaterial (v 0.16 0.46 0.14) (v 0.12 0.22 0.10) 14.0 "foliage";
    MkMaterial (v 0.30 0.24 0.18) (v 0.05 0.04 0.03) 2.0 "bark";
    MkMaterial (v 0.25 0.18 0.10) (v 0.02 0.02 0.02) 1.0 "soil";
    MkMaterial (v 0.95 0.95 0.93) (v 0.10 0.10 0.10) 4.0 "napkin";
    MkMaterial (v 0.95 0.95 0.90) (v 0.02 0.02 0.02) 1.0 "wall";
    MkMaterial (v 0.78 0.78 0.77) (v 0.12 0.12 0.11) 12.0 "cabinetWhite";
    MkMaterial (v 0.40 0.40 0.41) (v 0.55 0.55 0.56) 48.0 "stainless";
    MkMaterial (v 0.14 0.14 0.14) (v 0.35 0.35 0.35) 32.0 "fridgeHandle" ]%Q.

(** [DefineObjectMaterials]: one [push_back] per preset. *)
Definition DefineObjectMaterials (s : State) : State :=
  foldl (fun s m => push_back_material m s) s material_catalog.

(* ===================================================================== *)
(** ** Pushing transform, colour, texture and material to the shader      *)
(* ===================================================================== *)

(** The matrix [SetTransformations] builds; C++ [*] associates to the left. *)
Definition modelView (scaleXYZ : vec3) (XrotationDegrees YrotationDegrees
    ZrotationDegrees : Q) (positionXYZ : vec3) : mat4 :=
  mul (mul (mul (mul
    (translate (Q2R (x3 positionXYZ)) (Q2R (y3 positionXYZ)) (Q2R (z3 positionXYZ)))
    (rotate (radians (Q2R ZrotationDegrees)) 0 0 1))
    (rotate (radians (Q2R YrotationDegrees)) 0 1 0))
    (rotate (radians (Q2R XrotationDegrees)) 1 0 0))
    (scale (Q2R (x3 scaleXYZ)) (Q2R (y3 scaleXYZ)) (Q2R (z3 scaleXYZ))).

(** [SetTransformations] *)
Definition SetTransformations (scaleXYZ : vec3) (XrotationDegrees
    YrotationDegrees ZrotationDegrees : Q) (positionXYZ : vec3) (s : State) : State :=
  let m := modelView scaleXYZ XrotationDegrees YrotationDegrees ZrotationDegrees
                     positionXYZ in
  match m_pShaderManager s with
  | Some u => with_shader (Some (set g_ModelName (UMat4 m) u)) s
  | None => s
  end.

(** [SetShaderColor]: [false] is passed to [setIntValue] as 0. *)
Definition SetShaderColor (redColorValue greenColorValue blueColorValue
    alphaValue : Q) (s : State) : State :=
  match m_pShaderManager s with
  | Some u =>
      let u := set g_UseTextureName (UInt 0) u in
      let u := set g_ColorValueName
                   (UVec4 redColorValue greenColorValue blueColorValue alphaValue) u in
      with_shader (Some u) s
  | None => s
  end.

(** [SetShaderTexture]: the slot found for the tag is written as it is. *)
Definition SetShaderTexture (textureTag : string) (s : State) : State :=
  match m_pShaderManager s with
  | Some u =>
      let u := set g_UseTextureName (UInt 1) u in
      let textureID := FindTextureSlot s textureTag in
      let u := set g_TextureValueName (USampler2D textureID) u in
      with_shader (Some u) s
  | None => s
  end.

(** [SetTextureUVScale] *)
Definition SetTextureUVScale (u v : Q) (s : State) : State :=
  match m_pShaderManager s with
  | Some un => with_shader (Some (set "UVscale" (UVec2 u v) un)) s
  | None => s
  end.

(** The local [OBJECT_MATERIAL material;] before it is assigned. *)
Definition unassigned_material : OBJECT_MATERIAL :=
  MkMaterial (Vec3 0 0 0) (Vec3 0 0 0) 0 "".

(** [SetShaderMaterial]: the three writes go through [m_pShaderManager]
    without a null test. *)
Definition SetShaderMaterial (materialTag : string) (s : State) : Outcome State :=
  let '(found, material) := FindMaterial s materialTag unassigned_material in
  if found then
    match m_pShaderManager s with
    | Some u =>
        let u := set "material.diffuseColor" (UVec3 (diffuseColor material)) u in
        let u := set "material.specularColor" (UVec3 (specularColor material)) u in
        let u := set "material.shininess" (UFloat (shininess material)) u in
        Done (with_shader (Some u) s)
    | None => Crash NullShaderManager
    end
  else Done s.

(* ===================================================================== *)
(** ** Light rig                                                          *)
(* ===================================================================== *)

(** The uniform writes of [SetupSceneLights], in order. *)
Definition light_writes : list (string * UniformValue) :=
  let v x y z := UVec3 (Vec3 x y z) in
  [ (g_UseLightingName, UBool true);
    ("directionalLight.bActive", UBool true);
    ("directionalLight.direction", v 1.0 (-0.55) (-0.40));
    ("directionalLight.ambient", v 0.07 0.06 0.06);
    ("directionalLight.diffuse", v 0.24 0.23 0.22);
    ("directionalLight.specular", v 0.10 0.10 0.10);
    ("pointLights[0].bActive", UBool true);
    ("pointLights[0].position", v (-14.0) 9.0 18.0);
    ("pointLights[0].ambient", v 0.08 0.07 0.07);
    ("pointLights[0].diffuse", v 0.50 0.48 0.46);
    ("pointLights[0].specular", v 0.14 0.13 0.12);
    ("pointLights[1].bActive", UBool true);
    ("pointLights[1].position", v (-8.0) 16.0 6.0);
    ("pointLights[1].ambient", v 0.05 0.06 0.08);
    ("pointLights[1].diffuse", v 0.18 0.21 0.26);
    ("pointLights[1].specular", v 0.05 0.06 0.08);
    ("pointLights[2].bActive", UBool true);
    ("pointLights[2].position", v 0.0 3.0 14.0);
    ("pointLights[2].ambient", v 0.07 0.07 0.06);
    ("pointLights[2].diffuse", v 0.38 0.37 0.35);
    ("pointLights[2].specular", v 0.12 0.12 0.11);
    ("pointLights[3].bActive", UBool true);
    ("pointLights[3].position", v (-2.0) 18.0 2.0);
    ("pointLights[3].ambient", v 0.05 0.05 0.05);
    ("pointLights[3].diffuse", v 0.18 0.18 0.18);
    ("pointLights[3].specular", v 0.04 0.04 0.04);
    ("pointLights[4].bActive", UBool false);
    ("spotLight.bActive", UBool false) ]%Q.

(** [SetupSceneLights]: every write goes through [m_pShaderManager]
    without a null test. *)
Definition SetupSceneLights (s : State) : Outcome State :=
  match m_pShaderManager s with
  | Some u =>
      Done (with_shader (Some (foldl (fun u w => set w.1 w.2 u) u light_writes)) s)
  | None => Crash NullShaderManager
  end.

(* ===================================================================== *)
(** ** The calls a frame issues                                           *)
(* ===================================================================== *)

(** [RenderScene] is a straight-line script (its loops have constant
    bounds): between the culling save and restore it is the list of these
    calls, executed in order by [run]. *)
Inductive Call : Type :=
| call_SetTransformations (scaleXYZ : vec3) (X Y Z : Q) (positionXYZ : vec3)
| call_SetShaderColor (r g b a : Q)
| call_SetShaderTexture (textureTag : string)
| call_SetTextureUVScale (u v : Q)
| call_SetShaderMaterial (materialTag : string)
| call_Draw (m : Mesh).

(** [m_basicMeshes->Draw...Mesh()]: the request is appended to the frame. *)
Definition DrawMesh (m : Mesh) (s : State) : State :=
  with_draw (MkDraw m (cull_face (gl s)) (m_pShaderManager s)) s.

Definition exec (c : Call) (s : State) : Outcome State :=
  match c with
  | call_SetTransformations sc X Y Z p => Done (SetTransformations sc X Y Z p s)
  | call_SetShaderColor r g b a => Done (SetShaderColor r g b a s)
  | call_SetShaderTexture t => Done (SetShaderTexture t s)
  | call_SetTextureUVScale u v => Done (SetTextureUVScale u v s)
  | call_SetShaderMaterial t => SetShaderMaterial t s
  | call_Draw m => Done (DrawMesh m s)
  end.

Fixpoint run (script : list Call) (s : State) : Outcome State :=
  match script with
  | [] => Done s
  | c :: rest => s' ← exec c s; run rest s'
  end.

(* ===================================================================== *)
(** ** The draw script of [RenderScene]                                   *)
(* ===================================================================== *)

Module Scene.

Local Open Scope Q_scope.

(** Y heights of the two shelf levels. *)
Definition upperTableY : Q := 1.0.
Definition lowerShelfY : Q := -0.5.

(** Slab height of the upper counter. *)
Definition topThickness : Q := 1.0.

(** *** Background: wall, floor, pantry column, fridge, right wall *)
Definition background : list Call :=
  let bgZ := -11.0 in
  let floorY := -4.0 in
  let ceilY := 16.0 in
  let wallH := ceilY - floorY in
  let wallW := 60.0 in
  let cabZ := bgZ + 0.35 in
  (* Back wall *)
  [ call_SetTransformations (Vec3 wallW wallH 0.3) 0 0 0
      (Vec3 0.0 (floorY + wallH * 0.5) bgZ);
    call_SetShaderTexture "wall";
    call_SetTextureUVScale 1.0 1.0;
    call_SetShaderMaterial "wall";
    call_Draw BoxMesh;
    (* Dark hardwood floor strip *)
    call_SetTransformations (Vec3 wallW 0.3 6.0) 0 0 0
      (Vec3 0.0 (floorY + 0.15) (bgZ + 3.0));
    call_SetShaderColor 0.16 0.11 0.07 1.0;
    call_SetShaderMaterial "bark";
    call_Draw BoxMesh;
    (* Ceiling strip *)
    call_SetTransformations (Vec3 wallW 1.5 4.0) 0 0 0
      (Vec3 0.0 (ceilY - 0.75) (bgZ + 2.0));
    call_SetShaderTexture "wall";
    call_SetTextureUVScale 1.0 1.0;
    call_SetShaderMaterial "wall";
    call_Draw BoxMesh ]
  ++
  let cabW := 5.5 in
  let cabX := -9.5 in
  (* Upper pantry body *)
  [ call_SetTransformations (Vec3 cabW 7.5 0.7) 0 0 0 (Vec3 cabX 8.5 cabZ);
    call_SetShaderColor 0.78 0.78 0.77 1.0;
    call_SetShaderMaterial "cabinetWhite";
    call_Draw BoxMesh;
    (* Lower pantry body *)
    call_SetTransformations (Vec3 cabW 7.0 0.7) 0 0 0 (Vec3 cabX 0.5 cabZ);
    call_SetShaderColor 0.78 0.78 0.77 1.0;
    call_SetShaderMaterial "cabinetWhite";
    call_Draw BoxMesh;
    (* Upper door inset panel *)
    call_SetTransformations (Vec3 (cabW * 0.80) 6.8 0.12) 0 0 0
      (Vec3 cabX 8.5 (cabZ + 0.41));
    call_SetShaderColor 0.72 0.72 0.71 1.0;
    call_SetShaderMaterial "cabinetWhite";
    call_Draw BoxMesh;
    (* Lower door inset panel *)
    call_SetTransformations (Vec3 (cabW * 0.80) 6.3 0.12) 0 0 0
      (Vec3 cabX 0.5 (cabZ + 0.41));
    call_SetShaderColor 0.72 0.72 0.71 1.0;
    call_SetShaderMaterial "cabinetWhite";
    call_Draw BoxMesh;
    (* Mid-rail between upper/lower pantry doors *)
    call_SetTransformations (Vec3 cabW 0.25 0.75) 0 0 0
      (Vec3 cabX 4.2 (cabZ + 0.05));
    call_SetShaderColor 0.78 0.78 0.77 1.0;
    call_SetShaderMaterial "cabinetWhite";
    call_Draw BoxMesh ]
  ++
  (* Handles: for (int d = 0; d < 2; d++) *)
  flat_map (fun d : Z =>
    let handleY := if (d =? 0)%Z then 8.5 else 0.5 in
    [ call_SetTransformations (Vec3 0.12 1.2 0.12) 0 0 0
        (Vec3 (cabX + 1.8) handleY (cabZ + 0.54));
      call_SetShaderColor 0.55 0.55 0.55 1.0;
      call_SetShaderMaterial "metal";
      call_Draw (CylinderMesh false false true) ]) [0; 1]%Z
  ++
  let fridgeW := 5.2 in
  let fridgeX := -1.0 in
  let fridgeBotY := floorY + 0.3 in
  let fridgeH := 13.5 in
  let fridgeTopY := fridgeBotY + fridgeH in
  (* Left surround pilaster *)
  [ call_SetTransformations (Vec3 1.2 (fridgeH + 2.3) 0.9) 0 0 0
      (Vec3 (fridgeX - fridgeW * 0.5 - 0.6)
            (fridgeBotY + (fridgeH + 2.3) * 0.5) (cabZ - 0.05));
    call_SetShaderColor 0.78 0.78 0.77 1.0;
    call_SetShaderMaterial "cabinetWhite";
    call_Draw BoxMesh;
    (* Right surround pilaster *)
    call_SetTransformations (Vec3 1.2 (fridgeH + 2.3) 0.9) 0 0 0
      (Vec3 (fridgeX + fridgeW * 0.5 + 0.6)
            (fridgeBotY + (fridgeH + 2.3) * 0.5) (cabZ - 0.05));
    call_SetShaderColor 0.78 0.78 0.77 1.0;
    call_SetShaderMaterial "cabinetWhite";
    call_Draw BoxMesh ]
  ++
  let upCabH := 2.3 in
  let upCabY := fridgeTopY + upCabH * 0.5 in
  (* Upper cabinet box above fridge *)
  [ call_SetTransformations (Vec3 (fridgeW + 2.4) upCabH 0.85) 0 0 0
      (Vec3 fridgeX upCabY cabZ);
    call_SetShaderColor 0.78 0.78 0.77 1.0;
    call_SetShaderMaterial "cabinetWhite";
    call_Draw BoxMesh;
    (* Left upper cabinet door inset *)
    call_SetTransformations
      (Vec3 ((fridgeW + 2.4) * 0.46) (upCabH * 0.82) 0.12) 0 0 0
      (Vec3 (fridgeX - (fridgeW + 2.4) * 0.25) upCabY (cabZ + 0.48));
    call_SetShaderColor 0.72 0.72 0.71 1.0;
    call_SetShaderMaterial "cabinetWhite";
    call_Draw BoxMesh;
    (* Right upper cabinet door inset *)
    call_SetTransformations
      (Vec3 ((fridgeW + 2.4) * 0.46) (upCabH * 0.82) 0.12) 0 0 0
      (Vec3 (fridgeX + (fridgeW + 2.4) * 0.25) upCabY (cabZ + 0.48));
    call_SetShaderColor 0.72 0.72 0.71 1.0;
    call_SetShaderMaterial "cabinetWhite";
    call_Draw BoxMesh ]
  ++
  (* Upper cabinet handles: for (int d = -1; d <= 1; d += 2) *)
  flat_map (fun d : Z =>
    [ call_SetTransformations (Vec3 0.1 0.9 0.1) 0 0 0
        (Vec3 (fridgeX + inject_Z d * 0.3) (upCabY - 0.5) (cabZ + 0.61));
      call_SetShaderColor 0.55 0.55 0.55 1.0;
      call_SetShaderMaterial "metal";
      call_Draw (CylinderMesh false false true) ]) [-1; 1]%Z
  ++
  let fridgeFaceZ := cabZ + 0.55 in
  let fridgeDepth := 1.2 in
  (* Main stainless body *)
  [ call_SetTransformations (Vec3 fridgeW fridgeH fridgeDepth) 0 0 0
      (Vec3 fridgeX (fridgeBotY + fridgeH * 0.5) (fridgeFaceZ - fridgeDepth * 0.5));
    call_SetShaderColor 0.40 0.40 0.41 1.0;
    call_SetShaderMaterial "stainless";
    call_Draw BoxMesh;
    (* Vertical door seam *)
    call_SetTransformations (Vec3 0.06 (fridgeH * 0.72) (fridgeDepth + 0.02)) 0 0 0
      (Vec3 fridgeX (fridgeBotY + fridgeH * 0.26 + fridgeH * 0.72 * 0.5) fridgeFaceZ);
    call_SetShaderColor 0.22 0.22 0.23 1.0;
    call_SetShaderMaterial "darkMetal";
    call_Draw BoxMesh;
    (* Horizontal seam (upper doors / freezer drawer) *)
    call_SetTransformations (Vec3 (fridgeW + 0.05) 0.08 (fridgeDepth + 0.02)) 0 0 0
      (Vec3 fridgeX (fridgeBotY + fridgeH * 0.26) fridgeFaceZ);
    call_SetShaderColor 0.20 0.20 0.21 1.0;
    call_SetShaderMaterial "darkMetal";
    call_Draw BoxMesh;
    (* Left door handle *)
    call_SetTransformations (Vec3 0.14 3.8 0.14) 0 0 0
      (Vec3 (fridgeX - 0.55) (fridgeBotY + fridgeH * 0.62) (fridgeFaceZ + 0.22));
    call_SetShaderColor 0.14 0.14 0.14 1.0;
    call_SetShaderMaterial "fridgeHandle";
    call_Draw BoxMesh;
    (* Right door handle *)
    call_SetTransformations (Vec3 0.14 3.8 0.14) 0 0 0
      (Vec3 (fridgeX + 0.55) (fridgeBotY + fridgeH * 0.62) (fridgeFaceZ + 0.22));
    call_SetShaderColor 0.14 0.14 0.14 1.0;
    call_SetShaderMaterial "fridgeHandle";
    call_Draw BoxMesh;
    (* Freezer drawer handle *)
    call_SetTransformations (Vec3 (fridgeW * 0.65) 0.18 0.18) 0 0 0
      (Vec3 fridgeX (fridgeBotY + fridgeH * 0.13) (fridgeFaceZ + 0.22));
    call_SetShaderColor 0.14 0.14 0.14 1.0;
    call_SetShaderMaterial "fridgeHandle";
    call_Draw BoxMesh ]
  ++
  (* Fridge feet: for (int f = -1; f <= 1; f += 2) *)
  flat_map (fun f : Z =>
    [ call_SetTransformations (Vec3 0.25 0.28 0.25) 0 0 0
        (Vec3 (fridgeX + inject_Z f * (fridgeW * 0.38))
              (fridgeBotY - 0.14) (fridgeFaceZ - 0.4));
      call_SetShaderColor 0.10 0.10 0.10 1.0;
      call_SetShaderMaterial "darkMetal";
      call_Draw (CylinderMesh true true true) ]) [-1; 1]%Z
  ++
  (* Right wall section *)
  [ call_SetTransformations (Vec3 8.0 wallH 0.3) 0 0 0
      (Vec3 8.0 (floorY + wallH * 0.5) bgZ);
    call_SetShaderTexture "wall";
    call_SetTextureUVScale 1.0 1.0;
    call_SetShaderMaterial "wall";
    call_Draw BoxMesh;
    (* Light-switch plate on right wall *)
    call_SetTransformations (Vec3 0.55 0.85 0.12) 0 0 0
      (Vec3 6.8 2.8 (bgZ + 0.22));
    call_SetShaderColor 0.80 0.80 0.79 1.0;
    call_SetShaderMaterial "cabinetWhite";
    call_Draw BoxMesh ].

(** *** Upper counter slab and lower shelf *)
Definition counter : list Call :=
  (* Top face of the counter slab *)
  [ call_SetTransformations (Vec3 20.0 topThickness 8.0) 0 0 0
      (Vec3 0.0 (upperTableY + topThickness * 0.5) (-3.0));
    call_SetShaderTexture "toptable";
    call_SetTextureUVScale 1.0 1.0;
    call_SetShaderMaterial "tableTop";
    call_Draw BoxMesh;
    (* Vertical front face panel *)
    call_SetTransformations (Vec3 20.0 (upperTableY - lowerShelfY) 0.8) 0 0 0
      (Vec3 0.0 ((upperTableY + lowerShelfY) / 2.0) 0.0);
    call_SetShaderColor 0.72 0.72 0.70 1.0;
    call_SetShaderMaterial "counter";
    call_Draw BoxMesh;
    (* Lower shelf *)
    call_SetTransformations (Vec3 20.0 1.0 6.0) 0 0 0 (Vec3 0.0 lowerShelfY 3.0);
    call_SetShaderColor 0.55 0.53 0.50 1.0;
    call_SetShaderTexture "bottomtable";
    call_SetTextureUVScale 1.0 1.0;
    call_SetShaderMaterial "counter";
    call_Draw PlaneMesh ].

(** *** Flower pot *)
Definition potRadius : Q := 1.6.
Definition potCenterX : Q := 0.0.
Definition potCenterZ : Q := -3.0.
Definition potBaseY : Q := upperTableY + topThickness.
Definition baseH : Q := 1.0.
Definition upperH : Q := 1.8.
(** Top rim of the pot. *)
Definition potTopY : Q := potBaseY + baseH + upperH.

Definition pot : list Call :=
  let baseR := potRadius * 0.92 in
  (* Bottom cylinder *)
  [ call_SetTransformations (Vec3 baseR baseH baseR) 0 0 0
      (Vec3 potCenterX potBaseY potCenterZ);
    call_SetShaderTexture "pot";
    call_SetTextureUVScale 1.0 1.0;
    call_SetShaderMaterial "grayMatte";
    call_Draw (CylinderMesh true true true);
    (* Upper cylinder *)
    call_SetTransformations (Vec3 potRadius upperH potRadius) 0 0 0
      (Vec3 potCenterX (potBaseY + baseH) potCenterZ);
    call_SetShaderTexture "pot";
    call_SetTextureUVScale 1.0 1.0;
    call_SetShaderMaterial "grayMatte";
    call_Draw (CylinderMesh true true true);
    (* Soil disk *)
    call_SetTransformations (Vec3 (potRadius * 0.90) 0.05 (potRadius * 0.90)) 0 0 0
      (Vec3 potCenterX potTopY potCenterZ);
    call_SetShaderColor 0.25 0.18 0.10 1.0;
    call_SetShaderMaterial "soil";
    call_Draw (CylinderMesh true true true) ].

(** *** S-curve trunk.  The four positions below are the literals the
    source passes: the pot-rim anchor and the three joints. *)
Definition s0 : vec3 := Vec3 (potCenterX + 0.00) (potTopY + 0.05) potCenterZ.
Definition s1 : vec3 := Vec3 (potCenterX + 0.15) (potTopY + 0.47) potCenterZ.
Definition s2 : vec3 := Vec3 (potCenterX + 0.34) (potTopY + 1.19) potCenterZ.
Definition s3 : vec3 := Vec3 (potCenterX + 0.24) (potTopY + 1.93) potCenterZ.

Definition trunk : list Call :=
  [ call_SetShaderColor 0.20 0.17 0.14 1.0;
    call_SetShaderMaterial "bark";
    (* Segment 1  Z=-20  h=0.45 *)
    call_SetTransformations (Vec3 0.22 0.45 0.22) 0 0 (-20) s0;
    call_Draw (CylinderMesh false false true);
    (* Joint at s1 *)
    call_SetTransformations (Vec3 0.21 0.21 0.21) 0 0 0 s1;
    call_Draw SphereMesh;
    (* Segment 2  Z=-15  h=0.75 *)
    call_SetTransformations (Vec3 0.19 0.75 0.19) 0 0 (-15) s1;
    call_Draw (CylinderMesh false false true);
    (* Joint at s2 *)
    call_SetTransformations (Vec3 0.19 0.19 0.19) 0 0 0 s2;
    call_Draw SphereMesh;
    (* Segment 3  Z=+8  h=0.75 *)
    call_SetTransformations (Vec3 0.16 0.75 0.16) 0 0 8 s2;
    call_Draw (CylinderMesh false false true);
    (* Joint at s3 *)
    call_SetTransformations (Vec3 0.16 0.16 0.16) 0 0 0 s3;
    call_Draw SphereMesh;
    (* Segment 4  Z=+22  h=0.75 *)
    call_SetTransformations (Vec3 0.12 0.75 0.12) 0 0 22 s3;
    call_Draw (CylinderMesh false false true) ].

(** *** Side branches and their sub-twigs *)
Definition branches : list Call :=
  (* Left branch  Z=+55  h=1.4, from (+0.15, potTopY+0.47) *)
  [ call_SetTransformations (Vec3 0.11 1.40 0.11) 0 0 55
      (Vec3 (potCenterX + 0.15) (potTopY + 0.47) potCenterZ);
    call_Draw (CylinderMesh false false true);
    (* Left sub-twig *)
    call_SetTransformations (Vec3 0.07 0.65 0.07) 0 0 42
      (Vec3 (potCenterX - 0.54) (potTopY + 0.95) potCenterZ);
    call_Draw (CylinderMesh false false true);
    (* Right branch  Z=-50  h=1.2, from (+0.34, potTopY+1.19) *)
    call_SetTransformations (Vec3 0.10 1.20 0.10) 0 0 (-50)
      (Vec3 (potCenterX + 0.34) (potTopY + 1.19) potCenterZ);
    call_Draw (CylinderMesh false false true);
    (* Right sub-twig *)
    call_SetTransformations (Vec3 0.06 0.60 0.06) 0 0 (-35)
      (Vec3 (potCenterX + 0.89) (potTopY + 1.65) potCenterZ);
    call_Draw (CylinderMesh false false true) ].

(** *** Leaf clusters.  Three tonal tiers of green. *)
Definition cHr : Q := 0.19.
Definition cHg : Q := 0.50.
Definition cHb : Q := 0.15.
Definition cMr : Q := 0.14.
Definition cMg : Q := 0.40.
Definition cMb : Q := 0.11.
Definition cSr : Q := 0.09.
Definition cSg : Q := 0.28.
Definition cSb : Q := 0.08.

(** Top crown, 8 spheres. *)
Definition tcX : Q := potCenterX - 0.04.
Definition tcY : Q := potTopY + 3.12.
Definition tcZ : Q := potCenterZ.

Definition crown : list Call :=
  [ call_SetShaderMaterial "foliage";
    (* Core *)
    call_SetTransformations (Vec3 0.65 0.55 0.62) 0 0 0 (Vec3 tcX tcY tcZ);
    call_SetShaderColor cMr cMg cMb 1.0;
    call_Draw SphereMesh;
    (* Top lobe *)
    call_SetTransformations (Vec3 0.48 0.42 0.46) 0 0 0
      (Vec3 (tcX - 0.08) (tcY + 0.52) tcZ);
    call_SetShaderColor cHr cHg cHb 1.0;
    call_Draw SphereMesh;
    (* Right lobe *)
    call_SetTransformations (Vec3 0.52 0.44 0.48) 0 0 0
      (Vec3 (tcX + 0.58) (tcY + 0.12) tcZ);
    call_SetShaderColor cHr (cHg + 0.02) cHb 1.0;
    call_Draw SphereMesh;
    (* Left lobe *)
    call_SetTransformations (Vec3 0.50 0.42 0.46) 0 0 0
      (Vec3 (tcX - 0.55) (tcY + 0.08) tcZ);
    call_SetShaderColor cMr (cMg + 0.02) cMb 1.0;
    call_Draw SphereMesh;
    (* Front lobe *)
    call_SetTransformations (Vec3 0.46 0.40 0.44) 0 0 0
      (Vec3 (tcX + 0.10) (tcY - 0.06) (tcZ + 0.50));
    call_SetShaderColor (cHr + 0.01) (cHg + 0.03) cHb 1.0;
    call_Draw SphereMesh;
    (* Back lobe *)
    call_SetTransformations (Vec3 0.44 0.38 0.42) 0 0 0
      (Vec3 (tcX + 0.05) (tcY + 0.04) (tcZ - 0.48));
    call_SetShaderColor cSr cSg cSb 1.0;
    call_Draw SphereMesh;
    (* Lower-inner shadow mass *)
    call_SetTransformations (Vec3 0.55 0.38 0.52) 0 0 0
      (Vec3 (tcX + 0.06) (tcY - 0.42) tcZ);
    call_SetShaderColor cSr (cSg + 0.02) cSb 1.0;
    call_Draw SphereMesh;
    (* Upper-right accent *)
    call_SetTransformations (Vec3 0.38 0.33 0.36) 0 0 0
      (Vec3 (tcX + 0.44) (tcY + 0.48) (tcZ + 0.16));
    call_SetShaderColor (cHr + 0.02) (cHg + 0.04) (cHb + 0.01) 1.0;
    call_Draw SphereMesh ].

(** Left cluster, 7 spheres, anchored at [(lcX, lcY, lcZ)]. *)
Definition lcX : Q := potCenterX - 1.00.
Definition lcY : Q := potTopY + 1.27.
Definition lcZ : Q := potCenterZ.

Definition left_cluster : list Call :=
  (* Core *)
  [ call_SetTransformations (Vec3 0.40 0.34 0.38) 0 0 0 (Vec3 lcX lcY lcZ);
    call_SetShaderColor cMr cMg cMb 1.0;
    call_Draw SphereMesh;
    (* Top *)
    call_SetTransformations (Vec3 0.30 0.26 0.28) 0 0 0
      (Vec3 (lcX - 0.05) (lcY + 0.36) lcZ);
    call_SetShaderColor (cHr + 0.01) (cHg + 0.03) cHb 1.0;
    call_Draw SphereMesh;
    (* Left tip *)
    call_SetTransformations (Vec3 0.28 0.24 0.26) 0 0 0
      (Vec3 (lcX - 0.40) (lcY + 0.05) lcZ);
    call_SetShaderColor cHr (cHg + 0.02) cHb 1.0;
    call_Draw SphereMesh;
    (* Right (toward trunk) *)
    call_SetTransformations (Vec3 0.26 0.22 0.24) 0 0 0
      (Vec3 (lcX + 0.36) (lcY + 0.08) lcZ);
    call_SetShaderColor cSr (cSg + 0.02) cSb 1.0;
    call_Draw SphereMesh;
    (* Front *)
    call_SetTransformations (Vec3 0.30 0.25 0.28) 0 0 0
      (Vec3 (lcX - 0.08) (lcY + 0.02) (lcZ + 0.36));
    call_SetShaderColor cHr (cHg + 0.01) cHb 1.0;
    call_Draw SphereMesh;
    (* Lower shadow *)
    call_SetTransformations (Vec3 0.34 0.24 0.32) 0 0 0
      (Vec3 (lcX - 0.04) (lcY - 0.28) lcZ);
    call_SetShaderColor cSr cSg cSb 1.0;
    call_Draw SphereMesh;
    (* Sub-twig cluster *)
    call_SetTransformations (Vec3 0.24 0.20 0.22) 0 0 0
      (Vec3 (potCenterX - 0.96) (potTopY + 1.45) potCenterZ);
    call_SetShaderColor (cHr + 0.01) (cHg + 0.04) (cHb + 0.01) 1.0;
    call_Draw SphereMesh ].

(** Right cluster, 7 spheres, anchored at [(rcX, rcY, rcZ)]. *)
Definition rcX : Q := potCenterX + 1.26.
Definition rcY : Q := potTopY + 1.96.
Definition rcZ : Q := potCenterZ.

Definition right_cluster : list Call :=
  (* Core *)
  [ call_SetTransformations (Vec3 0.40 0.34 0.38) 0 0 0 (Vec3 rcX rcY rcZ);
    call_SetShaderColor cMr cMg cMb 1.0;
    call_Draw SphereMesh;
    (* Top *)
    call_SetTransformations (Vec3 0.30 0.26 0.28) 0 0 0
      (Vec3 (rcX + 0.04) (rcY + 0.36) rcZ);
    call_SetShaderColor (cHr + 0.01) (cHg + 0.03) cHb 1.0;
    call_Draw SphereMesh;
    (* Right tip *)
    call_SetTransformations (Vec3 0.28 0.24 0.26) 0 0 0
      (Vec3 (rcX + 0.40) (rcY + 0.05) rcZ);
    call_SetShaderColor cHr (cHg + 0.02) cHb 1.0;
    call_Draw SphereMesh;
    (* Left (toward trunk) *)
    call_SetTransformations (Vec3 0.26 0.22 0.24) 0 0 0
      (Vec3 (rcX - 0.36) (rcY + 0.08) rcZ);
    call_SetShaderColor cSr (cSg + 0.02) cSb 1.0;
    call_Draw SphereMesh;
    (* Front *)
    call_SetTransformations (Vec3 0.30 0.25 0.28) 0 0 0
      (Vec3 (rcX + 0.06) (rcY + 0.02) (rcZ + 0.36));
    call_SetShaderColor cHr (cHg + 0.01) cHb 1.0;
    call_Draw SphereMesh;
    (* Lower shadow *)
    call_SetTransformations (Vec3 0.34 0.24 0.32) 0 0 0
      (Vec3 (rcX + 0.04) (rcY - 0.28) rcZ);
    call_SetShaderColor cSr cSg cSb 1.0;
    call_Draw SphereMesh;
    (* Sub-twig cluster *)
    call_SetTransformations (Vec3 0.24 0.20 0.22) 0 0 0
      (Vec3 (potCenterX + 1.22) (potTopY + 2.14) potCenterZ);
    call_SetShaderColor (cHr + 0.01) (cHg + 0.04) (cHb + 0.01) 1.0;
    call_Draw SphereMesh ].

(** *** Candle mug *)
Definition mug : list Call :=
  let mugRadius := 0.65 in
  let mugHeight := 1.275 in
  let mugX := -4.0 in
  let mugZ := 4.0 in
  let mugBaseY := lowerShelfY in
  (* Mug body *)
  [ call_SetTransformations (Vec3 mugRadius mugHeight mugRadius) 0 0 0
      (Vec3 mugX mugBaseY mugZ);
    call_SetShaderColor 0.95 0.93 0.90 1.0;
    call_SetShaderMaterial "ceramic";
    call_Draw (CylinderMesh true true true);
    (* Candle wax surface *)
    call_SetTransformations (Vec3 (mugRadius * 0.88) 0.055 (mugRadius * 0.88)) 0 0 0
      (Vec3 mugX (mugBaseY + mugHeight - 0.05) mugZ);
    call_SetShaderColor 0.88 0.84 0.72 1.0;
    call_SetShaderMaterial "ceramic";
    call_Draw (CylinderMesh true true true);
    (* Handle *)
    call_SetTransformations (Vec3 0.42 0.3 0.42) 90.0 0.0 0.0
      (Vec3 (mugX - mugRadius) (mugBaseY + mugHeight * 0.50) mugZ);
    call_SetShaderColor 0.95 0.93 0.90 1.0;
    call_SetShaderMaterial "ceramic";
    call_Draw TorusMesh;
    (* Label band *)
    call_SetTransformations
      (Vec3 (mugRadius + 0.01) (mugHeight * 0.25) (mugRadius + 0.01)) 0 0 0
      (Vec3 mugX (mugBaseY + mugHeight * 0.15) mugZ);
    call_SetShaderColor 0.88 0.86 0.82 1.0;
    call_SetShaderMaterial "ceramic";
    call_Draw (CylinderMesh false false true) ].

(** *** Coasters and wire holder *)
Definition coasters : list Call :=
  let coasterRadius := 1.1 in
  let coasterThickness := 0.15 in
  let coasterGap := 0.06 in
  let numCoasters := 8%Z in
  let coasterX := -1.5 in
  let coasterZ := 4.5 in
  let baseY := lowerShelfY in
  let stackBaseY := baseY + 0.10 in
  let stackHeight := inject_Z numCoasters * (coasterThickness + coasterGap) in
  let wireR := 0.045 in
  let wireH := stackHeight in
  let legSpacing := 0.30 in
  let edgeDist := coasterRadius + 0.03 in
  let footY := baseY + wireR in
  let leg := CylinderMesh false false true in
  (* Front arch (+Z side) *)
  [ call_SetTransformations (Vec3 wireR wireH wireR) 0 0 0
      (Vec3 (coasterX - legSpacing) baseY (coasterZ + edgeDist));
    call_SetShaderColor 0.08 0.08 0.08 1.0;
    call_SetShaderMaterial "darkMetal";
    call_Draw leg;
    call_SetTransformations (Vec3 wireR edgeDist wireR) (-90) 0 0
      (Vec3 (coasterX - legSpacing) footY (coasterZ + edgeDist));
    call_Draw leg;
    call_SetTransformations (Vec3 wireR wireH wireR) 0 0 0
      (Vec3 (coasterX + legSpacing) baseY (coasterZ + edgeDist));
    call_Draw leg;
    call_SetTransformations (Vec3 wireR edgeDist wireR) (-90) 0 0
      (Vec3 (coasterX + legSpacing) footY (coasterZ + edgeDist));
    call_Draw leg;
    call_SetTransformations (Vec3 (legSpacing + wireR) (wireR * 1.5) wireR) 0 0 0
      (Vec3 coasterX (baseY + wireH) (coasterZ + edgeDist));
    call_Draw SphereMesh;
    (* Back arch (-Z side) *)
    call_SetTransformations (Vec3 wireR wireH wireR) 0 0 0
      (Vec3 (coasterX - legSpacing) baseY (coasterZ - edgeDist));
    call_SetShaderColor 0.08 0.08 0.08 1.0;
    call_SetShaderMaterial "darkMetal";
    call_Draw leg;
    call_SetTransformations (Vec3 wireR edgeDist wireR) 90 0 0
      (Vec3 (coasterX - legSpacing) footY (coasterZ - edgeDist));
    call_Draw leg;
    call_SetTransformations (Vec3 wireR wireH wireR) 0 0 0
      (Vec3 (coasterX + legSpacing) baseY (coasterZ - edgeDist));
    call_Draw leg;
    call_SetTransformations (Vec3 wireR edgeDist wireR) 90 0 0
      (Vec3 (coasterX + legSpacing) footY (coasterZ - edgeDist));
    call_Draw leg;
    call_SetTransformations (Vec3 (legSpacing + wireR) (wireR * 1.5) wireR) 0 0 0
      (Vec3 coasterX (baseY + wireH) (coasterZ - edgeDist));
    call_Draw SphereMesh;
    (* Left arch (-X side) *)
    call_SetTransformations (Vec3 wireR wireH wireR) 0 0 0
      (Vec3 (coasterX - edgeDist) baseY (coasterZ - legSpacing));
    call_SetShaderColor 0.08 0.08 0.08 1.0;
    call_SetShaderMaterial "darkMetal";
    call_Draw leg;
    call_SetTransformations (Vec3 wireR edgeDist wireR) 0 0 (-90)
      (Vec3 (coasterX - edgeDist) footY (coasterZ - legSpacing));
    call_Draw leg;
    call_SetTransformations (Vec3 wireR wireH wireR) 0 0 0
      (Vec3 (coasterX - edgeDist) baseY (coasterZ + legSpacing));
    call_Draw leg;
    call_SetTransformations (Vec3 wireR edgeDist wireR) 0 0 (-90)
      (Vec3 (coasterX - edgeDist) footY (coasterZ + legSpacing));
    call_Draw leg;
    call_SetTransformations (Vec3 wireR (wireR * 1.5) (legSpacing + wireR)) 0 0 0
      (Vec3 (coasterX - edgeDist) (baseY + wireH) coasterZ);
    call_Draw SphereMesh;
    (* Right arch (+X side) *)
    call_SetTransformations (Vec3 wireR wireH wireR) 0 0 0
      (Vec3 (coasterX + edgeDist) baseY (coasterZ - legSpacing));
    call_SetShaderColor 0.08 0.08 0.08 1.0;
    call_SetShaderMaterial "darkMetal";
    call_Draw leg;
    call_SetTransformations (Vec3 wireR edgeDist wireR) 0 0 90
      (Vec3 (coasterX + edgeDist) footY (coasterZ - legSpacing));
    call_Draw leg;
    call_SetTransformations (Vec3 wireR wireH wireR) 0 0 0
      (Vec3 (coasterX + edgeDist) baseY (coasterZ + legSpacing));
    call_Draw leg;
    call_SetTransformations (Vec3 wireR edgeDist wireR) 0 0 90
      (Vec3 (coasterX + edgeDist) footY (coasterZ + legSpacing));
    call_Draw leg;
    call_SetTransformations (Vec3 wireR (wireR * 1.5) (legSpacing + wireR)) 0 0 0
      (Vec3 (coasterX + edgeDist) (baseY + wireH) coasterZ);
    call_Draw SphereMesh ]
  ++
  (* Coaster stack: for (int i = 0; i < numCoasters; i++) *)
  flat_map (fun i : Z =>
    let shade := if (i mod 2 =? 0)%Z then 0.90 else 0.87 in
    [ call_SetTransformations (Vec3 coasterRadius coasterThickness coasterRadius) 0 0 0
        (Vec3 coasterX
              (stackBaseY + inject_Z i * (coasterThickness + coasterGap))
              coasterZ);
      call_SetShaderColor shade (shade - 0.01) (shade - 0.04) 1.0;
      call_SetShaderTexture "coaster";
      call_SetTextureUVScale 1.0 1.0;
      call_SetShaderMaterial "lightWood";
      call_Draw (CylinderMesh true true true) ])
    (seqZ 0 numCoasters).

(** *** Napkin holder *)
Definition napkin_holder : list Call :=
  let nhX := 2.0 in
  let nhZ := 4.5 in
  let nhBaseY := lowerShelfY in
  let panelWidth := 3.4 in
  let panelRectH := 2.0 in
  let archRadius := panelWidth / 2.0 in
  let panelThk := 0.2 in
  let slotGap := 0.75 in
  let frontZ := nhZ + slotGap / 2.0 + panelThk / 2.0 in
  (* Front panel, rectangular part *)
  [ call_SetTransformations (Vec3 panelWidth panelRectH panelThk) 0 0 0
      (Vec3 nhX (nhBaseY + panelRectH / 2.0) frontZ);
    call_SetShaderColor 0.55 0.35 0.15 1.0;
    call_SetShaderTexture "wood";
    call_SetTextureUVScale 1.0 1.0;
    call_SetShaderMaterial "wood";
    call_Draw BoxMesh;
    (* Front arch top *)
    call_SetTransformations (Vec3 archRadius panelThk archRadius) (-90) 0 0
      (Vec3 nhX (nhBaseY + panelRectH) (frontZ + panelThk / 2.0));
    call_SetShaderColor 0.55 0.35 0.15 1.0;
    call_SetShaderTexture "woodie";
    call_SetTextureUVScale 1.0 1.0;
    call_SetShaderMaterial "woodie";
    call_Draw (CylinderMesh true true true) ]
  ++
  let backZ := nhZ - slotGap / 2.0 - panelThk / 2.0 in
  (* Back panel, rectangular part *)
  [ call_SetTransformations (Vec3 panelWidth panelRectH panelThk) 0 0 0
      (Vec3 nhX (nhBaseY + panelRectH / 2.0) backZ);
    call_SetShaderColor 0.55 0.35 0.15 1.0;
    call_SetShaderTexture "wood";
    call_SetTextureUVScale 1.0 1.0;
    call_SetShaderMaterial "wood";
    call_Draw BoxMesh;
    (* Back arch top *)
    call_SetTransformations (Vec3 archRadius panelThk archRadius) 90 0 0
      (Vec3 nhX (nhBaseY + panelRectH) (backZ - panelThk / 2.0));
    call_SetShaderColor 0.55 0.35 0.15 1.0;
    call_SetShaderTexture "wood";
    call_SetTextureUVScale 1.0 1.0;
    call_SetShaderMaterial "wood";
    call_Draw (CylinderMesh true true true) ]
  ++
  let totalDepth := slotGap + panelThk * 2.0 in
  (* Base slab *)
  [ call_SetTransformations (Vec3 panelWidth panelThk totalDepth) 0 0 0
      (Vec3 nhX (nhBaseY + panelThk / 2.0) nhZ);
    call_SetShaderColor 0.52 0.32 0.13 1.0;
    call_SetShaderMaterial "wood";
    call_Draw BoxMesh ]
  ++
  let totalWoodH := panelRectH + archRadius in
  let napkinH := totalWoodH * 1.0 in
  let napkinCount := 12%Z in
  let totalSlotZ := slotGap * 0.88 in
  let napkinThk := totalSlotZ / inject_Z napkinCount in
  let startZ := nhZ - totalSlotZ / 2.0 + napkinThk / 2.0 in
  (* Napkins: for (int i = 0; i < napkinCount; i++) *)
  flat_map (fun i : Z =>
    let heightVar := if (i mod 2 =? 0)%Z then 1.0 else 0.97 in
    let shade := 0.94 + inject_Z (i mod 3) * 0.01 in
    [ call_SetTransformations
        (Vec3 (panelWidth * 1.17) (napkinH * heightVar) (napkinThk * 0.92)) 0 0 0
        (Vec3 nhX (nhBaseY + (napkinH * heightVar) / 2.0 + panelThk)
              (startZ + inject_Z i * napkinThk));
      call_SetShaderColor shade shade (shade * 0.98) 1.0;
      call_SetShaderTexture "napkin";
      call_SetTextureUVScale 1.0 1.0;
      call_SetShaderMaterial "napkin";
      call_Draw BoxMesh ])
    (seqZ 0 napkinCount).

(** The whole script, in the order [RenderScene] issues it. *)
Definition script : list Call :=
  background ++ counter ++ pot ++ trunk ++ branches
    ++ crown ++ left_cluster ++ right_cluster
    ++ mug ++ coasters ++ napkin_holder.

End Scene.

(** [RenderScene]: lights, culling saved and disabled, the script, culling
    restored. *)
Definition RenderScene (s : State) : Outcome State :=
  s ← SetupSceneLights s;
  let cullEnabled := glIsEnabled_CULL_FACE (gl s) in
  let s := with_gl (glDisable_CULL_FACE (gl s)) s in
  s ← run Scene.script s;
  Done (if cullEnabled then with_gl (glEnable_CULL_FACE (gl s)) s else s).

(** [LoadSceneTextures]: [stbi_load] stands for the image decoder on the
    files present, [glGenTextures k] for the name generated while file
    number [k] of the list is loaded (the generator is only called once
    the image is decoded). The boolean results of [CreateGLTexture] are
    discarded, as in the source. *)
Definition scene_texture_files : list (string * string) :=
  [ ("textures/pot.jpg", "pot"); ("textures/wood.jpg", "wood");
    ("textures/woodie.jpg", "woodie"); ("textures/coaster.jpg", "coaster");
    ("textures/toptable.jpg", "toptable");
    ("textures/bottomtable.jpg", "bottomtable");
    ("textures/napkin.jpg", "napkin"); ("textures/wall.jpg", "wall") ].

Fixpoint LoadSceneTextures_loop (stbi_load : string -> option Image)
    (glGenTextures : nat -> Z) (files : list (string * string)) (k : nat)
    (s : State) : Outcome State :=
  match files with
  | [] => Done s
  | (filename, tag) :: rest =>
      r ← CreateGLTexture (stbi_load filename) (glGenTextures k) filename tag s;
      LoadSceneTextures_loop stbi_load glGenTextures rest (S k) r.2
  end.

Definition LoadSceneTextures (stbi_load : string -> option Image)
    (glGenTextures : nat -> Z) (s : State) : Outcome State :=
  s ← LoadSceneTextures_loop stbi_load glGenTextures scene_texture_files 0 s;
  Done (BindGLTextures s).

(* ===================================================================== *)
(** ** Vocabulary of the properties                                       *)
(* ===================================================================== *)

(** A sequence of preset definitions: one [push_back] each, in order. *)
Definition definePresets (ps : list OBJECT_MATERIAL) (s : State) : State :=
  foldl (fun s m => push_back_material m s) s ps.



(** A material tag is defined when some preset of the table carries it. *)
Definition material_defined (s : State) (t : string) : Prop :=
  exists m, m ∈ m_objectMaterials s /\ tag m = t.

(** A texture tag is registered when some loaded entry carries it. *)
Definition texture_registered (s : State) (t : string) : Prop :=
  exists e, e ∈ loaded_entries s /\ tex_tag e = t.

(** The registry is well formed when the counter stays within the array. *)
Definition registry_has_room (s : State) : Prop :=
  (0 <= m_loadedTextures s < Z.of_nat (length (m_textureIDs s)))%Z.

(** A fresh manager with room for two textures, used to exercise the
    registry on concrete inputs. *)
Definition gl0 : GLState := MkGL true 0 ∅ ∅.

Definition two_textures : State :=
  MkState (Some ∅)
          [MkTextureInfo 7 "pot"; MkTextureInfo 9 "wood"; MkTextureInfo 0 ""]
          2 [] gl0 [] [].

(** The same manager after a flat red colour was set. *)
Definition flat_red : State := SetShaderColor 1 0 0 1 two_textures.

(** A manager without shader manager whose material table is filled. *)
Definition null_shader_scene : State :=
  DefineObjectMaterials (SceneManager 16 None gl0).

(** The two lines [CreateGLTexture] prints when it returns [false]. *)
Definition load_failure_line (filename : string) (l : LogLine) : Prop :=
  l = CouldNotLoad filename \/ exists c, l = UnsupportedChannels c.

(** Number of draw requests a script issues. *)
Fixpoint count_draws (script : list Call) : nat :=
  match script with
  | [] => 0
  | call_Draw _ :: rest => S (count_draws rest)
  | _ :: rest => count_draws rest
  end.

(** *** Ranges of colours and scales *)

Definition in_unit_interval (q : Q) : Prop := (0 <= q)%Q /\ (q <= 1)%Q.

Definition color_in_range (v : vec3) : Prop :=
  in_unit_interval (x3 v) /\ in_unit_interval (y3 v) /\ in_unit_interval (z3 v).

Definition scale_positive (v : vec3) : Prop :=
  (0 < x3 v)%Q /\ (0 < y3 v)%Q /\ (0 < z3 v)%Q.

(** What a call of the script must satisfy: a flat colour has its four
    channels in [0,1], a transform has a strictly positive scale. *)
Definition call_in_range (c : Call) : Prop :=
  match c with
  | call_SetShaderColor r g b a =>
      in_unit_interval r /\ in_unit_interval g /\ in_unit_interval b
      /\ in_unit_interval a
  | call_SetTransformations sc _ _ _ _ => scale_positive sc
  | _ => True
  end.

(** The vec3 uniforms of the light rig that are directions or positions;
    every other vec3 written by [SetupSceneLights] is a colour. *)
Definition light_vectors : list string :=
  [ "directionalLight.direction"; "pointLights[0].position";
    "pointLights[1].position"; "pointLights[2].position";
    "pointLights[3].position" ].

Definition light_write_in_range (w : string * UniformValue) : Prop :=
  match w.2 with
  | UVec3 v => w.1 ∈ light_vectors \/ color_in_range v
  | _ => True
  end.

(** Boolean versions, evaluated on the script. *)
Definition in_unit_intervalb (q : Q) : bool := Qle_bool 0 q && Qle_bool q 1.

Definition color_in_rangeb (v : vec3) : bool :=
  in_unit_intervalb (x3 v) && in_unit_intervalb (y3 v) && in_unit_intervalb (z3 v).

Definition positiveb (q : Q) : bool := negb (Qle_bool q 0).

Definition call_in_rangeb (c : Call) : bool :=
  match c with
  | call_SetShaderColor r g b a =>
      in_unit_intervalb r && in_unit_intervalb g && in_unit_intervalb b
      && in_unit_intervalb a
  | call_SetTransformations sc _ _ _ _ =>
      positiveb (x3 sc) && positiveb (y3 sc) && positiveb (z3 sc)
  | _ => true
  end.

Definition light_write_in_rangeb (w : string * UniformValue) : bool :=
  match w.2 with
  | UVec3 v => bool_decide (w.1 ∈ light_vectors) || color_in_rangeb v
  | _ => true
  end.

(** *** The composition order, written with the textbook matrices *)

Section Reference.

Local Open Scope R_scope.

Definition T_ref (tx ty tz : R) : mat4 :=
  Mat4 (Vec4 1 0 0 0) (Vec4 0 1 0 0) (Vec4 0 0 1 0) (Vec4 tx ty tz 1).

Definition S_ref (sx sy sz : R) : mat4 :=
  Mat4 (Vec4 sx 0 0 0) (Vec4 0 sy 0 0) (Vec4 0 0 sz 0) (Vec4 0 0 0 1).

Definition Rx_ref (a : R) : mat4 :=
  Mat4 (Vec4 1 0 0 0) (Vec4 0 (cos a) (sin a) 0)
       (Vec4 0 (- sin a) (cos a) 0) (Vec4 0 0 0 1).

Definition Ry_ref (a : R) : mat4 :=
  Mat4 (Vec4 (cos a) 0 (- sin a) 0) (Vec4 0 1 0 0)
       (Vec4 (sin a) 0 (cos a) 0) (Vec4 0 0 0 1).

Definition Rz_ref (a : R) : mat4 :=
  Mat4 (Vec4 (cos a) (sin a) 0 0) (Vec4 (- sin a) (cos a) 0 0)
       (Vec4 0 0 1 0) (Vec4 0 0 0 1).

(** T · Rz · Ry · Rx · S *)
Definition modelView_ref (scaleXYZ : vec3) (X Y Z : Q) (positionXYZ : vec3) : mat4 :=
  mul (T_ref (Q2R (x3 positionXYZ)) (Q2R (y3 positionXYZ)) (Q2R (z3 positionXYZ)))
   (mul (Rz_ref (radians (Q2R Z)))
    (mul (Ry_ref (radians (Q2R Y)))
     (mul (Rx_ref (radians (Q2R X)))
          (S_ref (Q2R (x3 scaleXYZ)) (Q2R (y3 scaleXYZ)) (Q2R (z3 scaleXYZ)))))).

(** *** Trunk and branch geometry *)

(** The cylinder mesh of the mesh helper stands on its local origin and
    is one unit tall along +Y: this is the top centre of a segment before
    its model matrix is applied. *)
Definition cylinder_top : vec4 := Vec4 0 1 0 1.

(** Where the top of a segment drawn with these transform arguments ends
    up in the scene. *)
Definition segment_tip (scaleXYZ : vec3) (X Y Z : Q) (positionXYZ : vec3) : vec4 :=
  mul_vec (modelView scaleXYZ X Y Z positionXYZ) cylinder_top.

(** The rule of the source comment: tip = base + h·(-sin Z°, cos Z°). *)
Definition tip_rule (base : R * R) (h Zdeg : R) : R * R :=
  (base.1 - h * sin (radians Zdeg), base.2 + h * cos (radians Zdeg)).

Definition within (tol a b : R) : Prop := - tol <= a - b <= tol.

(** A scene point [v] lies within [tol] of the literal position [p] in X
    and Y, at the same depth. *)
Definition near (tol : R) (v : vec4) (p : vec3) : Prop :=
  within tol (vx v) (Q2R (x3 p)) /\ within tol (vy v) (Q2R (y3 p))
  /\ vz v = Q2R (z3 p).

(** Segment 1 from the origin, and segment 2 chained from its tip. *)
Definition joint1_from_origin : R * R := tip_rule (0, 0) 0.45 (-20).
Definition joint2_chained : R * R := tip_rule joint1_from_origin 0.75 (-15).

(** Tips of the first three trunk segments and of the two branches, from
    the transform arguments of their draw calls. *)
Definition seg1_tip : vec4 := segment_tip (Vec3 0.22 0.45 0.22) 0 0 (-20) Scene.s0.
Definition seg2_tip : vec4 := segment_tip (Vec3 0.19 0.75 0.19) 0 0 (-15) Scene.s1.
Definition seg3_tip : vec4 := segment_tip (Vec3 0.16 0.75 0.16) 0 0 8 Scene.s2.
Definition left_branch_tip : vec4 :=
  segment_tip (Vec3 0.11 1.40 0.11) 0 0 55 Scene.s1.
Definition right_branch_tip : vec4 :=
  segment_tip (Vec3 0.10 1.20 0.10) 0 0 (-50) Scene.s2.

(** Anchors of the left and right leaf clusters. *)
Definition left_anchor : vec3 := Vec3 Scene.lcX Scene.lcY Scene.lcZ.
Definition right_anchor : vec3 := Vec3 Scene.rcX Scene.rcY Scene.rcZ.

End Reference.

(** *** Statements that are tested on the code as they are worded *)

(** A lookup miss leaves the whole state, shader included, as it was. *)
Definition lookup_miss_atomic : Prop :=
  forall (s : State) (tm tt : string),
    ~ material_defined s tm -> ~ texture_registered s tt ->
    SetShaderMaterial tm s = Done s /\ SetShaderTexture tt s = s.

(** The trunk chain within 1e-3: the first joint from the origin, the
    chained second joint against the documented (0.34, 1.19) (its height
    taken from the pot top or from the rim anchor, 0.05 higher), and the
    hardcoded joints against the tips of the segments below them. *)
Definition trunk_chain_as_claimed : Prop :=
  (within 0.001 joint1_from_origin.1 0.154 /\ within 0.001 joint1_from_origin.2 0.423)%R
  /\ (within 0.001 joint2_chained.1 0.34
      /\ (within 0.001 joint2_chained.2 1.19 \/ within 0.001 joint2_chained.2 1.14))%R
  /\ (near 0.001 seg1_tip Scene.s1 /\ near 0.001 seg2_tip Scene.s2
      /\ near 0.001 seg3_tip Scene.s3)%R.

(** The left branch leaves the second joint, the right branch the third,
    and the cluster anchors sit on the tips derived from there. *)
Definition branches_as_claimed : Prop :=
  Scene.branches !! 0%nat
    = Some (call_SetTransformations (Vec3 0.11 1.40 0.11) 0 0 55 Scene.s2)
  /\ Scene.branches !! 4%nat
    = Some (call_SetTransformations (Vec3 0.10 1.20 0.10) 0 0 (-50) Scene.s3)
  /\ near 0.005 (segment_tip (Vec3 0.11 1.40 0.11) 0 0 55 Scene.s2) left_anchor
  /\ near 0.005 (segment_tip (Vec3 0.10 1.20 0.10) 0 0 (-50) Scene.s3) right_anchor.

(* ===================================================================== *)
(** ** Vocabulary of the properties of loading, drawing and tear-down     *)
(* ===================================================================== *)

(** An image [CreateGLTexture] accepts: decoded, with 3 or 4 channels. *)
Definition accepted (image : option Image) : bool :=
  match image with
  | Some img => (colorChannels img =? 3)%Z || (colorChannels img =? 4)%Z
  | None => false
  end.

(** Number of accepted files among the first [j] files of a list. *)
Definition accepted_before (stbi_load : string -> option Image)
    (files : list (string * string)) (j : nat) : nat :=
  length (List.filter (fun ft => accepted (stbi_load ft.1)) (take j files)).

(** The entries a run over [files] adds: one per accepted file, in order,
    with the name generated for that file. *)
Fixpoint entries_of_files (stbi_load : string -> option Image)
    (glGenTextures : nat -> Z) (files : list (string * string)) (k : nat)
    : list TEXTURE_INFO :=
  match files with
  | [] => []
  | (filename, tag) :: rest =>
      (if accepted (stbi_load filename)
       then [MkTextureInfo (glGenTextures k) tag] else [])
      ++ entries_of_files stbi_load glGenTextures rest (S k)
  end.

(** A call whose tag is present in the table it is looked up in; for a
    texture the slot found is one of the eight units of the scene. *)
Definition call_resolves (s : State) (c : Call) : Prop :=
  match c with
  | call_SetShaderMaterial t => material_defined s t
  | call_SetShaderTexture t =>
      texture_registered s t /\ (0 <= FindTextureSlot s t < 8)%Z
  | _ => True
  end.

Definition call_resolvesb (c : Call) : bool :=
  match c with
  | call_SetShaderMaterial t => existsb (String.eqb t) (map tag material_catalog)
  | call_SetShaderTexture t => existsb (String.eqb t) (map snd scene_texture_files)
  | _ => true
  end.

(** The matrices of the [SetTransformations] calls of a script, in order. *)
Fixpoint transforms_of (script : list Call) : list mat4 :=
  match script with
  | [] => []
  | call_SetTransformations sc X Y Z p :: rest =>
      modelView sc X Y Z p :: transforms_of rest
  | _ :: rest => transforms_of rest
  end.

(** A script sets exactly one transform for every draw: [pending] tells
    whether a transform was set since the last draw. *)
Fixpoint one_transform_per_draw (pending : bool) (script : list Call) : bool :=
  match script with
  | [] => negb pending
  | call_SetTransformations _ _ _ _ _ :: rest =>
      negb pending && one_transform_per_draw true rest
  | call_Draw _ :: rest => pending && one_transform_per_draw false rest
  | _ :: rest => one_transform_per_draw pending rest
  end.

(** The "model" uniform a draw request saw. *)
Definition model_of (d : DrawRecord) : option UniformValue :=
  dr_uniforms d ≫= (.!! g_ModelName).

(** The uniforms the setters of the frame script write. *)
Definition setter_uniforms : list string :=
  [ g_ModelName; g_UseTextureName; g_ColorValueName; g_TextureValueName;
    "UVscale"; "material.diffuseColor"; "material.specularColor";
    "material.shininess" ].

(** The uniforms a whole frame may write: those of the setters and those
    of the light rig. *)
Definition frame_uniforms : list string :=
  setter_uniforms ++ map fst light_writes.

(** A registry filled to the end of its array. *)
Definition full_registry : State :=
  MkState (Some ∅) [MkTextureInfo 7 "pot"; MkTextureInfo 9 "wood"] 2 [] gl0 [] [].

(** Eight decodable RGB files, and the names 1, 2, ... generated for them. *)
Definition all_rgb (filename : string) : option Image := Some (MkImage 64 64 3).
Definition names_from_1 (k : nat) : Z := Z.of_nat (S k).

(** The sampling parameters [CreateGLTexture] sets, latest first. *)
Definition scene_sampling : list (TexParam * TexParamValue) :=
  [ (GL_TEXTURE_MAG_FILTER, GL_LINEAR); (GL_TEXTURE_MIN_FILTER, GL_LINEAR);
    (GL_TEXTURE_WRAP_T, GL_REPEAT); (GL_TEXTURE_WRAP_S, GL_REPEAT) ].

(** The value of a uniform in a state, and as a draw request saw it. *)
Definition uniform_of (s : State) (name : string) : option UniformValue :=
  m_pShaderManager s ≫= (.!! name).

Definition seen_by (d : DrawRecord) (name : string) : option UniformValue :=
  dr_uniforms d ≫= (.!! name).

(** A registry whose only texture has the largest 32-bit name. *)
Definition sentinel_registry : State :=
  MkState (Some ∅) [MkTextureInfo 4294967295 "pot"] 1 [] gl0 [] [].

(** Whether every draw of a script comes after a colour or texture call
    and after a material call; the flags tell what was called so far. *)
Fixpoint shaded_before_draw (paint material : bool) (script : list Call) : bool :=
  match script with
  | [] => true
  | call_SetShaderColor _ _ _ _ :: rest => shaded_before_draw true material rest
  | call_SetShaderTexture _ :: rest => shaded_before_draw true material rest
  | call_SetShaderMaterial _ :: rest => shaded_before_draw paint true rest
  | call_Draw _ :: rest => paint && material && shaded_before_draw paint material rest
  | _ :: rest => shaded_before_draw paint material rest
  end.

(** Uniforms that select a flat colour, or a sampler whose unit holds the
    texture of a loaded entry of [s]. *)
Definition painted (s : State) (u : gmap string UniformValue) : Prop :=
  u !! g_UseTextureName = Some (UInt 0)
  \/ (u !! g_UseTextureName = Some (UInt 1)
      /\ exists k e, u !! g_TextureValueName = Some (USampler2D (Z.of_nat k))
           /\ loaded_entries s !! k = Some e
           /\ binding_2d (gl s) !! Z.of_nat k = Some (ID e)).

(** Uniforms whose three material values are those of one preset of [s]. *)
Definition has_material (s : State) (u : gmap string UniformValue) : Prop :=
  exists m, m ∈ m_objectMaterials s
    /\ u !! "material.diffuseColor" = Some (UVec3 (diffuseColor m))
    /\ u !! "material.specularColor" = Some (UVec3 (specularColor m))
    /\ u !! "material.shininess" = Some (UFloat (shininess m)).

(** A draw request that saw such uniforms. *)
Definition draw_ready (s : State) (d : DrawRecord) : Prop :=
  exists u, dr_uniforms d = Some u /\ painted s u /\ has_material s u.

(* ===================================================================== *)
(** ** ViewManager: camera, projection mode and input                     *)
(* ===================================================================== *)

(** Source: [7-1_FinalProjectMilestones/Source/ViewManager.cpp].  The
    camera class, GLFW and the two glm projections are outside the
    repository: the camera's methods are parameters, a window is the
    record of what this file sets on it, and the projections follow glm
    (right-handed, depth from -1 to 1).  GLFW reports the time and the
    cursor position as [double]; where the code stores them in a [float]
    the conversion is written out. *)
Module View.

Inductive Camera_Movement : Type :=
| FORWARD | BACKWARD | LEFT | RIGHT | UP | DOWN.

(** The keys [ProcessKeyboardEvents] polls. *)
Inductive Key : Type :=
| GLFW_KEY_ESCAPE | GLFW_KEY_W | GLFW_KEY_S | GLFW_KEY_A | GLFW_KEY_D
| GLFW_KEY_Q | GLFW_KEY_E | GLFW_KEY_O | GLFW_KEY_P.

Definition WINDOW_WIDTH : Z := 1000.
Definition WINDOW_HEIGHT : Z := 800.

(** [glm::ortho(left, right, bottom, top, zNear, zFar)] *)
Definition ortho (l r b t n f : R) : mat4 :=
  Mat4 (Vec4 (2 / (r - l)) 0 0 0)
       (Vec4 0 (2 / (t - b)) 0 0)
       (Vec4 0 0 (- (2 / (f - n))) 0)
       (Vec4 (- ((r + l) / (r - l))) (- ((t + b) / (t - b)))
             (- ((f + n) / (f - n))) 1)%R.

(** [glm::perspective(fovy, aspect, zNear, zFar)] *)
Definition perspective (fovy aspect n f : R) : mat4 :=
  let tanHalfFovy := tan (fovy / 2) in
  Mat4 (Vec4 (1 / (aspect * tanHalfFovy)) 0 0 0)
       (Vec4 0 (1 / tanHalfFovy) 0 0)
       (Vec4 0 0 (- ((f + n) / (f - n))) (-1))
       (Vec4 0 0 (- ((2 * f * n) / (f - n))) 0)%R.

(** What this file sets on a GLFW window. *)
Record Window : Type := MkWindow {
  shouldClose : bool;          (* glfwSetWindowShouldClose              *)
  cursorPosCallback : bool;    (* Mouse_Position_Callback installed     *)
  cursorDisabled : bool        (* GLFW_CURSOR is GLFW_CURSOR_DISABLED   *)
}.

Section WithCamera.

(** The members of [Camera] this file does not name. *)
Variable CameraRest : Type.

Record Camera : Type := MkCamera {
  Position : vec3;
  Front : vec3;
  Up : vec3;
  Zoom : Q;
  MovementSpeed : Q;
  rest : CameraRest
}.

(** The camera class as this file uses it. *)
Record CameraClass : Type := MkCameraClass {
  new_Camera : Camera;                                    (* new Camera() *)
  ProcessKeyboard : Camera_Movement -> Q -> Camera -> Camera;
  ProcessMouseMovement : Q -> Q -> Camera -> Camera;
  GetViewMatrix : Camera -> mat4
}.

Variable camera_h : CameraClass.

(** [(float) d], the conversion of a [double] to [float] where the code
    assigns one to the other. Which float is chosen is the platform's
    rounding: it is a parameter, and what is proved of the view manager
    holds for every conversion. *)
Variable float_of_double : Q -> Q.

(** The members of the view manager, the globals of the anonymous
    namespace, and what [CreateDisplayWindow] does to GLFW and OpenGL. *)
Record ViewState : Type := MkView {
  m_pShaderManager : option (gmap string UniformValue);
  m_pWindow : option Window;
  bOrthographicProjection : bool;
  g_pCamera : option Camera;
  gLastX : Q;
  gLastY : Q;
  gFirstMouse : bool;
  gDeltaTime : Q;
  gLastFrame : Q;
  g_bOrthographic : bool;
  glfwTerminated : bool;
  contextCurrent : bool;
  blendEnabled : bool;         (* GL_BLEND with SRC_ALPHA, ONE_MINUS_SRC_ALPHA *)
  cerr : list string
}.

(** The globals as the program starts, before any view manager exists. *)
Definition program_start : ViewState :=
  MkView None None false None
         (inject_Z WINDOW_WIDTH / 2.0) (inject_Z WINDOW_HEIGHT / 2.0) true
         0.0 0.0 false false false false [].

Definition with_camera (c : option Camera) (st : ViewState) : ViewState :=
  MkView (m_pShaderManager st) (m_pWindow st) (bOrthographicProjection st) c
         (gLastX st) (gLastY st) (gFirstMouse st) (gDeltaTime st) (gLastFrame st)
         (g_bOrthographic st) (glfwTerminated st) (contextCurrent st)
         (blendEnabled st) (cerr st).

Definition with_window (w : option Window) (st : ViewState) : ViewState :=
  MkView (m_pShaderManager st) w (bOrthographicProjection st) (g_pCamera st)
         (gLastX st) (gLastY st) (gFirstMouse st) (gDeltaTime st) (gLastFrame st)
         (g_bOrthographic st) (glfwTerminated st) (contextCurrent st)
         (blendEnabled st) (cerr st).

Definition with_uniforms (u : option (gmap string UniformValue)) (st : ViewState)
    : ViewState :=
  MkView u (m_pWindow st) (bOrthographicProjection st) (g_pCamera st)
         (gLastX st) (gLastY st) (gFirstMouse st) (gDeltaTime st) (gLastFrame st)
         (g_bOrthographic st) (glfwTerminated st) (contextCurrent st)
         (blendEnabled st) (cerr st).

Definition with_mouse (x y : Q) (first : bool) (st : ViewState) : ViewState :=
  MkView (m_pShaderManager st) (m_pWindow st) (bOrthographicProjection st)
         (g_pCamera st) x y first (gDeltaTime st) (gLastFrame st)
         (g_bOrthographic st) (glfwTerminated st) (contextCurrent st)
         (blendEnabled st) (cerr st).

Definition with_timing (delta last : Q) (st : ViewState) : ViewState :=
  MkView (m_pShaderManager st) (m_pWindow st) (bOrthographicProjection st)
         (g_pCamera st) (gLastX st) (gLastY st) (gFirstMouse st) delta last
         (g_bOrthographic st) (glfwTerminated st) (contextCurrent st)
         (blendEnabled st) (cerr st).

(** The three assignments of a projection switch. *)
Definition with_projection (orthographic : bool) (st : ViewState) : ViewState :=
  MkView (m_pShaderManager st) (m_pWindow st) orthographic (g_pCamera st)
         (gLastX st) (gLastY st) true (gDeltaTime st) (gLastFrame st)
         orthographic (glfwTerminated st) (contextCurrent st)
         (blendEnabled st) (cerr st).

(** [ViewManager::ViewManager]: the members are initialised and a new
    camera replaces whatever [g_pCamera] pointed to; the other globals are
    left as they are. *)
Definition ViewManager (pShaderManager : option (gmap string UniformValue))
    (st : ViewState) : ViewState :=
  MkView pShaderManager None false
         (Some (MkCamera (Vec3 0.5 5.5 10.0) (Vec3 0.0 (-0.5) (-2.0))
                         (Vec3 0.0 1.0 0.0) 80 10 (rest (new_Camera camera_h))))
         (gLastX st) (gLastY st) (gFirstMouse st) (gDeltaTime st) (gLastFrame st)
         (g_bOrthographic st) (glfwTerminated st) (contextCurrent st)
         (blendEnabled st) (cerr st).

(** [ViewManager::~ViewManager] *)
Definition destroy_ViewManager (st : ViewState) : ViewState :=
  with_window None (with_uniforms None (with_camera None st)).

(** [CreateDisplayWindow]. [window] is what [glfwCreateWindow] returned. *)
Definition CreateDisplayWindow (window : option Window) (windowTitle : string)
    (st : ViewState) : option Window * ViewState :=
  match window with
  | None =>
      (None,
       MkView (m_pShaderManager st) (m_pWindow st) (bOrthographicProjection st)
              (g_pCamera st) (gLastX st) (gLastY st) (gFirstMouse st)
              (gDeltaTime st) (gLastFrame st) (g_bOrthographic st)
              true (contextCurrent st) (blendEnabled st)
              (cerr st ++ ["Failed to create GLFW window"]))
  | Some w =>
      let w := MkWindow (shouldClose w) true true in
      (Some w,
       MkView (m_pShaderManager st) (Some w) (bOrthographicProjection st)
              (g_pCamera st) (gLastX st) (gLastY st) (gFirstMouse st)
              (gDeltaTime st) (gLastFrame st) (g_bOrthographic st)
              (glfwTerminated st) true true (cerr st))
  end.

(** [Mouse_Position_Callback]; [None] is the call through a null
    [g_pCamera]. The position arrives as [double]; it is converted when
    it is stored in [gLastX] and [gLastY], and each offset is a [double]
    difference converted to [float]. *)
Definition Mouse_Position_Callback (xMousePos yMousePos : Q) (st : ViewState)
    : option ViewState :=
  if g_bOrthographic st then Some st
  else
    let st := if gFirstMouse st
              then with_mouse (float_of_double xMousePos)
                              (float_of_double yMousePos) false st
              else st in
    let xOffset := float_of_double (xMousePos - gLastX st)%Q in
    let yOffset := float_of_double (gLastY st - yMousePos)%Q in
    let st := with_mouse (float_of_double xMousePos) (float_of_double yMousePos)
                         (gFirstMouse st) st in
    match g_pCamera st with
    | Some cam =>
        Some (with_camera (Some (ProcessMouseMovement camera_h xOffset yOffset cam)) st)
    | None => None
    end.

(** One [if (glfwGetKey(...) == GLFW_PRESS) g_pCamera->ProcessKeyboard(...)]. *)
Definition move_if (pressed : bool) (direction : Camera_Movement) (dt : Q)
    (cam : Camera) : Camera :=
  if pressed then ProcessKeyboard camera_h direction dt cam else cam.

(** [ProcessKeyboardEvents]; [pressed k] tells whether [glfwGetKey] reports
    the key as pressed. *)
Definition ProcessKeyboardEvents (pressed : Key -> bool) (st : ViewState)
    : ViewState :=
  match m_pWindow st, g_pCamera st with
  | Some w, Some cam =>
      let w := if pressed GLFW_KEY_ESCAPE
               then MkWindow true (cursorPosCallback w) (cursorDisabled w)
               else w in
      let dt := gDeltaTime st in
      let cam := move_if (pressed GLFW_KEY_W) FORWARD dt cam in
      let cam := move_if (pressed GLFW_KEY_S) BACKWARD dt cam in
      let cam := move_if (pressed GLFW_KEY_A) LEFT dt cam in
      let cam := move_if (pressed GLFW_KEY_D) RIGHT dt cam in
      let cam := move_if (pressed GLFW_KEY_Q) UP dt cam in
      let cam := move_if (pressed GLFW_KEY_E) DOWN dt cam in
      let st := with_camera (Some cam) (with_window (Some w) st) in
      let st := if pressed GLFW_KEY_O && negb (bOrthographicProjection st)
                then with_projection true st else st in
      let st := if pressed GLFW_KEY_P && bOrthographicProjection st
                then with_projection false st else st in
      st
  | _, _ => st
  end.

(** The projection [PrepareSceneView] builds for a mode and a camera. *)
Definition projection_of (orthographic : bool) (cam : Camera) : mat4 :=
  if orthographic
  then ortho (-10) 10 (-10) 10 0.1 100
  else perspective (radians (Q2R (Zoom cam)))
                   (IZR WINDOW_WIDTH / IZR WINDOW_HEIGHT) 0.1 100.

(** [PrepareSceneView]; [glfwGetTime] is the [double] that
    [glfwGetTime()] returned, [currentFrame] the [float] it is stored in,
    [None] the call through a null [g_pCamera]. *)
Definition PrepareSceneView (glfwGetTime : Q) (pressed : Key -> bool)
    (st : ViewState) : option ViewState :=
  match m_pWindow st with
  | None => Some st
  | Some _ =>
      let currentFrame := float_of_double glfwGetTime in
      let st := with_timing (currentFrame - gLastFrame st)%Q currentFrame st in
      let st := ProcessKeyboardEvents pressed st in
      match g_pCamera st with
      | None => None
      | Some cam =>
          let view := GetViewMatrix camera_h cam in
          let projection := projection_of (bOrthographicProjection st) cam in
          match m_pShaderManager st with
          | Some u =>
              let u := set "view" (UMat4 view) u in
              let u := set "projection" (UMat4 projection) u in
              let u := set "viewPosition" (UVec3 (Position cam)) u in
              Some (with_uniforms (Some u) st)
          | None => Some st
          end
      end
  end.

(** What the window system delivers between two redraws. *)
Inductive Event : Type :=
| ev_Frame (glfwGetTime : Q) (pressed : Key -> bool)
| ev_Mouse (xMousePos yMousePos : Q).

Definition handle (e : Event) (st : ViewState) : option ViewState :=
  match e with
  | ev_Frame t pressed => PrepareSceneView t pressed st
  | ev_Mouse x y => Mouse_Position_Callback x y st
  end.

Fixpoint handle_all (es : list Event) (st : ViewState) : option ViewState :=
  match es with
  | [] => Some st
  | e :: rest =>
      match handle e st with
      | Some st' => handle_all rest st'
      | None => None
      end
  end.

(** The member and the global that both record the projection mode agree,
    and there is a camera. *)
Definition view_ok (st : ViewState) : Prop :=
  bOrthographicProjection st = g_bOrthographic st /\ is_Some (g_pCamera st).

(** The camera after the six movement keys were polled, in the order of
    [ProcessKeyboardEvents]. *)
Definition keys_move (pressed : Key -> bool) (dt : Q) (cam : Camera) : Camera :=
  let cam := move_if (pressed GLFW_KEY_W) FORWARD dt cam in
  let cam := move_if (pressed GLFW_KEY_S) BACKWARD dt cam in
  let cam := move_if (pressed GLFW_KEY_A) LEFT dt cam in
  let cam := move_if (pressed GLFW_KEY_D) RIGHT dt cam in
  let cam := move_if (pressed GLFW_KEY_Q) UP dt cam in
  move_if (pressed GLFW_KEY_E) DOWN dt cam.

(** Whether an event is a frame during which Escape is down. *)
Definition escape_pressed (e : Event) : bool :=
  match e with
  | ev_Frame _ pressed => pressed GLFW_KEY_ESCAPE
  | ev_Mouse _ _ => false
  end.

End WithCamera.

Arguments MkCamera {CameraRest}.
Arguments Position {CameraRest}.
Arguments Front {CameraRest}.
Arguments Up {CameraRest}.
Arguments Zoom {CameraRest}.
Arguments MovementSpeed {CameraRest}.
Arguments rest {CameraRest}.
Arguments MkCameraClass {CameraRest}.
Arguments new_Camera {CameraRest}.
Arguments ProcessKeyboard {CameraRest}.
Arguments ProcessMouseMovement {CameraRest}.
Arguments GetViewMatrix {CameraRest}.
Arguments MkView {CameraRest}.
Arguments m_pShaderManager {CameraRest}.
Arguments m_pWindow {CameraRest}.
Arguments bOrthographicProjection {CameraRest}.
Arguments g_pCamera {CameraRest}.
Arguments gLastX {CameraRest}.
Arguments gLastY {CameraRest}.
Arguments gFirstMouse {CameraRest}.
Arguments gDeltaTime {CameraRest}.
Arguments gLastFrame {CameraRest}.
Arguments g_bOrthographic {CameraRest}.
Arguments glfwTerminated {CameraRest}.
Arguments contextCurrent {CameraRest}.
Arguments blendEnabled {CameraRest}.
Arguments cerr {CameraRest}.
Arguments program_start {CameraRest}.
Arguments with_camera {CameraRest}.
Arguments with_window {CameraRest}.
Arguments with_uniforms {CameraRest}.
Arguments with_mouse {CameraRest}.
Arguments with_timing {CameraRest}.
Arguments with_projection {CameraRest}.
Arguments ViewManager {CameraRest}.
Arguments destroy_ViewManager {CameraRest}.
Arguments CreateDisplayWindow {CameraRest}.
Arguments Mouse_Position_Callback {CameraRest}.
Arguments move_if {CameraRest}.
Arguments ProcessKeyboardEvents {CameraRest}.
Arguments projection_of {CameraRest}.
Arguments PrepareSceneView {CameraRest}.
Arguments handle {CameraRest}.
Arguments handle_all {CameraRest}.
Arguments view_ok {CameraRest}.
Arguments keys_move {CameraRest}.

(** The uniforms [PrepareSceneView] writes. *)
Definition view_uniforms : list string := ["view"; "projection"; "viewPosition"].

(** Nearest integer to [n / d] for [d > 0], ties to the even one. *)
Definition round_half_even (n d : Z) : Z :=
  let q := (n / d)%Z in
  match (2 * (n mod d) ?= d)%Z with
  | Lt => q
  | Gt => (q + 1)%Z
  | Eq => if Z.even q then q else (q + 1)%Z
  end.

(** One conversion, to exercise the view manager on concrete values:
    round to the nearest number with 24 significant bits, ties to even,
    on a grid never finer than 2^-149 (the rounding of IEEE binary32 for
    values within its range). *)
Definition nearest_float (q : Q) : Q :=
  let n := Qnum q in
  let d := Zpos (Qden q) in
  if (n =? 0)%Z then 0%Q
  else
    let a := Z.abs n in
    let e0 := (Z.log2 a - Z.log2 d)%Z in
    let reaches := if (0 <=? e0)%Z then (d * 2 ^ e0 <=? a)%Z
                   else (d <=? a * 2 ^ (- e0))%Z in
    let e := if reaches then e0 else (e0 - 1)%Z in
    let k := (Z.max e (-126) - 23)%Z in
    let m := if (0 <=? k)%Z then round_half_even a (d * 2 ^ k)
             else round_half_even (a * 2 ^ (- k)) d in
    let r := (Z.sgn n * m)%Z in
    Qred (if (0 <=? k)%Z then inject_Z (r * 2 ^ k)
          else Qmake r (Z.to_pos (2 ^ (- k)))).

(** A camera without further members whose methods record what they are
    asked: a key moves the position by the frame time along X, the mouse
    offsets are stored in [Front]. *)
Definition recording_camera : CameraClass unit :=
  MkCameraClass
    (MkCamera (Vec3 0 0 0) (Vec3 0 0 0) (Vec3 0 0 0) 0 0 tt)
    (fun _ dt c => MkCamera (Vec3 (x3 (Position c) + dt) (y3 (Position c))
                                  (z3 (Position c)))
                            (Front c) (Up c) (Zoom c) (MovementSpeed c) tt)
    (fun xo yo c => MkCamera (Position c) (Vec3 xo yo 0) (Up c) (Zoom c)
                             (MovementSpeed c) tt)
    (fun _ => identity).

(** A view manager on a window that was created, before any event. *)
Definition ready : ViewState unit :=
  (CreateDisplayWindow (Some (MkWindow false false false)) "scene"
     (ViewManager recording_camera (Some ∅) program_start)).2.

(** The same view manager in orthographic mode. *)
Definition orthographic_view : ViewState unit := with_projection true ready.

(** The same view manager when the frame before was at 5000 seconds. *)
Definition long_running : ViewState unit := with_timing 0 5000 ready.

(** No key pressed, and only the key given pressed. *)
Definition no_key (k : Key) : bool := false.

Definition only (key : Key) (k : Key) : bool :=
  match key, k with
  | GLFW_KEY_ESCAPE, GLFW_KEY_ESCAPE | GLFW_KEY_W, GLFW_KEY_W
  | GLFW_KEY_S, GLFW_KEY_S | GLFW_KEY_A, GLFW_KEY_A | GLFW_KEY_D, GLFW_KEY_D
  | GLFW_KEY_Q, GLFW_KEY_Q | GLFW_KEY_E, GLFW_KEY_E | GLFW_KEY_O, GLFW_KEY_O
  | GLFW_KEY_P, GLFW_KEY_P => true
  | _, _ => false
  end.

End View.

(* ===================================================================== *)
(** * Properties                                                          *)
(* ===================================================================== *)

(** ** Material table *)

Lemma definePresets_materials ps s :
  m_objectMaterials (definePresets ps s) = m_objectMaterials s ++ ps.
Proof.
  revert s; induction ps as [|p ps IH]; intros s; simpl.
  - by rewrite app_nil_r.
  - unfold definePresets in *. simpl. rewrite IH. simpl.
    by rewrite <- app_assoc.
Qed.

Lemma DefineObjectMaterials_materials s :
  m_objectMaterials (DefineObjectMaterials s) = m_objectMaterials s ++ material_catalog.
Proof. apply (definePresets_materials material_catalog). Qed.

Lemma FindMaterial_loop_first pre m post out :
  Forall (fun p => tag p <> tag m) pre ->
  FindMaterial_loop (pre ++ m :: post) (tag m) out = (true, m).
Proof.
  induction 1 as [|p pre Hp _ IH]; simpl.
  - by rewrite String.eqb_refl.
  - destruct (String.eqb_spec (tag p) (tag m)); [done|exact IH].
Qed.

Lemma FindMaterial_loop_none mats t out :
  Forall (fun p => tag p <> t) mats ->
  FindMaterial_loop mats t out = (false, out).
Proof.
  induction 1 as [|p ps Hp _ IH]; simpl; [done|].
  destruct (String.eqb_spec (tag p) t); [done|exact IH].
Qed.

Lemma FindMaterial_miss s t out :
  ~ material_defined s t -> FindMaterial s t out = (false, out).
Proof.
  intros H. apply FindMaterial_loop_none.
  apply Forall_forall. intros p Hp Ht. apply H. by exists p.
Qed.

Lemma FindMaterial_hit s t out :
  material_defined s t -> exists m, FindMaterial s t out = (true, m).
Proof.
  intros (m & Hm & Ht). unfold FindMaterial. revert Hm.
  induction (m_objectMaterials s) as [|x xs IH]; intros Hm.
  - by apply elem_of_nil in Hm.
  - simpl. destruct (String.eqb_spec (tag x) t) as [_|Hne]; [by eexists|].
    apply elem_of_cons in Hm as [->|Hm]; [done|by apply IH].
Qed.

Lemma material_catalog_tags_distinct : NoDup (map tag material_catalog).
Proof. by apply (bool_decide_unpack _); vm_compute. Qed.








(** ** Texture registry *)

Lemma FindTextureSlot_loop_first entries t i0 k e :
  entries !! k = Some e -> tex_tag e = t ->
  (forall j e', (j < k)%nat -> entries !! j = Some e' -> tex_tag e' <> t) ->
  FindTextureSlot_loop entries t i0 = (i0 + Z.of_nat k)%Z.
Proof.
  revert i0 k; induction entries as [|x xs IH]; intros i0 k Hk Ht Hfirst.
  - by rewrite lookup_nil in Hk.
  - destruct k as [|k]; simpl in *.
    + injection Hk as ->. rewrite <- Ht, String.eqb_refl. lia.
    + destruct (String.eqb_spec (tex_tag x) t) as [Heq|_].
      * exfalso. apply (Hfirst 0%nat x); [lia|done|done].
      * rewrite (IH (i0 + 1)%Z k Hk Ht); [lia|].
        intros j e' Hj He'. apply (Hfirst (S j) e'); [lia|done].
Qed.

Lemma FindTextureID_loop_first entries t k e :
  entries !! k = Some e -> tex_tag e = t ->
  (forall j e', (j < k)%nat -> entries !! j = Some e' -> tex_tag e' <> t) ->
  FindTextureID_loop entries t = int_of_GLuint (ID e).
Proof.
  revert k; induction entries as [|x xs IH]; intros k Hk Ht Hfirst.
  - by rewrite lookup_nil in Hk.
  - destruct k as [|k]; simpl in *.
    + injection Hk as ->. by rewrite <- Ht, String.eqb_refl.
    + destruct (String.eqb_spec (tex_tag x) t) as [Heq|_].
      * exfalso. apply (Hfirst 0%nat x); [lia|done|done].
      * apply (IH k Hk Ht).
        intros j e' Hj He'. apply (Hfirst (S j) e'); [lia|done].
Qed.

Lemma FindTextureSlot_loop_miss entries t i0 :
  Forall (fun e => tex_tag e <> t) entries ->
  FindTextureSlot_loop entries t i0 = (-1)%Z.
Proof.
  intros H; revert i0; induction H as [|x xs Hx _ IH]; intros i0; simpl; [done|].
  destruct (String.eqb_spec (tex_tag x) t); [done|apply IH].
Qed.

Lemma FindTextureID_loop_miss entries t :
  Forall (fun e => tex_tag e <> t) entries ->
  FindTextureID_loop entries t = (-1)%Z.
Proof.
  induction 1 as [|x xs Hx _ IH]; simpl; [done|].
  destruct (String.eqb_spec (tex_tag x) t); [done|apply IH].
Qed.

(** A result other than the sentinel is the index of an entry that
    carries the tag. *)
Lemma FindTextureSlot_loop_hit entries t i0 :
  (0 <= i0)%Z ->
  FindTextureSlot_loop entries t i0 <> (-1)%Z ->
  exists k e, FindTextureSlot_loop entries t i0 = (i0 + Z.of_nat k)%Z
              /\ entries !! k = Some e /\ tex_tag e = t.
Proof.
  revert i0; induction entries as [|x xs IH]; intros i0 Hi0 Hne; simpl in *; [done|].
  destruct (String.eqb_spec (tex_tag x) t) as [Heq|Hneq].
  - exists 0%nat, x. split; [lia|done].
  - destruct (IH (i0 + 1)%Z) as (k & e & Hr & Hk & Ht); [lia|done|].
    exists (S k), e. split; [lia|done].
Qed.

Lemma FindTextureSlot_loop_found entries t i0 e :
  (0 <= i0)%Z -> e ∈ entries -> tex_tag e = t ->
  FindTextureSlot_loop entries t i0 <> (-1)%Z.
Proof.
  revert i0; induction entries as [|x xs IH]; intros i0 Hi0 He Ht.
  - by apply elem_of_nil in He.
  - simpl. destruct (String.eqb_spec (tex_tag x) t) as [Heq|Hneq]; [lia|].
    apply elem_of_cons in He as [->|He]; [done|].
    apply IH; [lia|done|done].
Qed.

Lemma not_registered_Forall s t :
  ~ texture_registered s t -> Forall (fun e => tex_tag e <> t) (loaded_entries s).
Proof.
  intros H. apply Forall_forall. intros e He Ht. apply H. by exists e.
Qed.

Lemma FindTextureSlot_miss s t :
  ~ texture_registered s t -> FindTextureSlot s t = (-1)%Z.
Proof.
  intros H. apply FindTextureSlot_loop_miss. by apply not_registered_Forall.
Qed.

Lemma registered_slot s t :
  texture_registered s t ->
  exists k e, loaded_entries s !! k = Some e /\ tex_tag e = t
              /\ FindTextureSlot s t = Z.of_nat k.
Proof.
  intros (e & He & Ht).
  destruct (FindTextureSlot_loop_hit (loaded_entries s) t 0)
    as (k & e' & Hr & Hk & Ht'); [lia| |].
  - by apply (FindTextureSlot_loop_found _ _ _ e).
  - exists k, e'. split; [done|]. split; [done|]. unfold FindTextureSlot. lia.
Qed.

(** Every tag carried by some entry has a first entry carrying it. *)
Lemma first_entry_with_tag (entries : list TEXTURE_INFO) (t : string) (e : TEXTURE_INFO) :
  e ∈ entries -> tex_tag e = t ->
  exists k e0, entries !! k = Some e0 /\ tex_tag e0 = t
    /\ forall j e', (j < k)%nat -> entries !! j = Some e' -> tex_tag e' <> t.
Proof.
  induction entries as [|x xs IH]; intros He Ht.
  - by apply elem_of_nil in He.
  - destruct (decide (tex_tag x = t)) as [Hx|Hx].
    + exists 0%nat, x. split; [done|]. split; [done|]. intros j e' Hj. lia.
    + apply elem_of_cons in He as [->|He]; [done|].
      destruct (IH He Ht) as (k & e0 & Hk & Ht0 & Hfirst).
      exists (S k), e0. split; [done|]. split; [done|].
      intros [|j] e' Hj He'.
      * injection He' as <-. done.
      * apply (Hfirst j e'); [lia|done].
Qed.

Lemma BindGLTextures_loop_below entries i0 g key :
  (key < i0)%Z ->
  binding_2d (BindGLTextures_loop entries i0 g) !! key = binding_2d g !! key.
Proof.
  revert i0 g; induction entries as [|x xs IH]; intros i0 g Hk; simpl; [done|].
  rewrite IH by lia. simpl. apply lookup_insert_ne. lia.
Qed.

Lemma BindGLTextures_loop_unit entries i0 g k e :
  entries !! k = Some e ->
  binding_2d (BindGLTextures_loop entries i0 g) !! (i0 + Z.of_nat k)%Z = Some (ID e).
Proof.
  revert i0 g k; induction entries as [|x xs IH]; intros i0 g k Hk.
  - by rewrite lookup_nil in Hk.
  - destruct k as [|k]; cbn [BindGLTextures_loop].
    + injection Hk as ->. rewrite BindGLTextures_loop_below by lia.
      simpl. rewrite Z.add_0_r. apply lookup_insert_eq.
    + replace (i0 + Z.of_nat (S k))%Z with ((i0 + 1) + Z.of_nat k)%Z by lia.
      by apply IH.
Qed.

Lemma exec_keeps_registry c s s' :
  exec c s = Done s' ->
  m_textureIDs s' = m_textureIDs s /\ m_loadedTextures s' = m_loadedTextures s.
Proof.
  destruct c; simpl; intros H.
  - injection H as <-. unfold SetTransformations. by destruct (m_pShaderManager s).
  - injection H as <-. unfold SetShaderColor. by destruct (m_pShaderManager s).
  - injection H as <-. unfold SetShaderTexture. by destruct (m_pShaderManager s).
  - injection H as <-. unfold SetTextureUVScale. by destruct (m_pShaderManager s).
  - unfold SetShaderMaterial in H.
    destruct (FindMaterial s materialTag unassigned_material) as [[] m];
      [destruct (m_pShaderManager s); [|done]|]; by injection H as <-.
  - by injection H as <-.
Qed.

(** C7: for a registered tag (entry [i], no earlier entry with the same
    tag), [FindTextureSlot] returns the registration index [i]; every
    registered tag gets the index and the handle of an entry that carries
    it, bound on that unit; another registered tag gets another slot; [BindGLTextures] binds the texture on
    unit [i]; [FindTextureID] returns the handle of the entry, and keeps
    returning it after any call of the frame script and after
    [BindGLTextures]; for a tag never registered both lookups return -1. *)
Theorem texture_lookup s i e tmiss :
  loaded_entries s !! i = Some e ->
  (forall j e', (j < i)%nat -> loaded_entries s !! j = Some e' ->
                tex_tag e' <> tex_tag e) ->
  ~ texture_registered s tmiss ->
  FindTextureSlot s (tex_tag e) = Z.of_nat i
  /\ (forall t', texture_registered s t' ->
        exists k e', loaded_entries s !! k = Some e' /\ tex_tag e' = t'
          /\ FindTextureSlot s t' = Z.of_nat k
          /\ FindTextureID s t' = int_of_GLuint (ID e')
          /\ binding_2d (gl (BindGLTextures s)) !! FindTextureSlot s t' = Some (ID e'))
  /\ (forall t', texture_registered s t' -> t' <> tex_tag e ->
        FindTextureSlot s t' <> FindTextureSlot s (tex_tag e))
  /\ binding_2d (gl (BindGLTextures s)) !! Z.of_nat i = Some (ID e)
  /\ FindTextureID s (tex_tag e) = int_of_GLuint (ID e)
  /\ (forall c s', exec c s = Done s' ->
        FindTextureID s' (tex_tag e) = FindTextureID s (tex_tag e))
  /\ FindTextureID (BindGLTextures s) (tex_tag e) = FindTextureID s (tex_tag e)
  /\ FindTextureSlot s tmiss = (-1)%Z
  /\ FindTextureID s tmiss = (-1)%Z.
Proof.
  intros Hi Hfirst Hmiss.
  assert (Hslot : FindTextureSlot s (tex_tag e) = Z.of_nat i).
  { unfold FindTextureSlot.
    by rewrite (FindTextureSlot_loop_first _ _ 0 i e Hi eq_refl Hfirst). }
  split; [exact Hslot|].
  split; [|split; [|split; [|split; [|split; [|split; [|split]]]]]].
  - intros t' (x & Hx & Ht').
    destruct (first_entry_with_tag _ _ _ Hx Ht') as (k & e' & Hk & Hte' & Hf).
    assert (Hs : FindTextureSlot s t' = Z.of_nat k).
    { unfold FindTextureSlot.
      by rewrite (FindTextureSlot_loop_first _ _ 0 k e' Hk Hte' Hf). }
    exists k, e'. split; [done|]. split; [done|]. split; [exact Hs|]. split.
    + unfold FindTextureID. by apply (FindTextureID_loop_first _ _ k e').
    + rewrite Hs. unfold BindGLTextures. simpl.
      apply (BindGLTextures_loop_unit (loaded_entries s) 0 (gl s) k e' Hk).
  - intros t' Hreg Hne Heq.
    destruct (registered_slot s t' Hreg) as (k & e' & Hk & Ht' & Hr).
    rewrite Hslot, Hr in Heq. apply Nat2Z.inj in Heq. subst k.
    rewrite Hi in Hk. injection Hk as <-. by apply Hne.
  - unfold BindGLTextures. simpl.
    apply (BindGLTextures_loop_unit (loaded_entries s) 0 (gl s) i e Hi).
  - unfold FindTextureID.
    by apply (FindTextureID_loop_first _ _ i e).
  - intros c s' Hc. destruct (exec_keeps_registry c s s' Hc) as [Ha Hn].
    unfold FindTextureID, loaded_entries. by rewrite Ha, Hn.
  - reflexivity.
  - by apply FindTextureSlot_miss.
  - unfold FindTextureID. apply FindTextureID_loop_miss.
    by apply not_registered_Forall.
Qed.

Lemma texture_lookup_witness :
  FindTextureSlot two_textures "wood" = 1%Z
  /\ binding_2d (gl (BindGLTextures two_textures)) !! 1%Z = Some 9%Z
  /\ FindTextureID two_textures "wood" = 9%Z
  /\ FindTextureSlot two_textures "marble" = (-1)%Z.
Proof.
  assert (H1 : loaded_entries two_textures !! 1%nat = Some (MkTextureInfo 9 "wood"))
    by reflexivity.
  assert (H2 : forall j e', (j < 1)%nat -> loaded_entries two_textures !! j = Some e' ->
                 tex_tag e' <> tex_tag (MkTextureInfo 9 "wood")).
  { intros j e' Hj He'. destruct j as [|j]; [|lia].
    injection He' as <-. discriminate. }
  assert (H3 : ~ texture_registered two_textures "marble").
  { intros (e & He & Ht). revert He Ht. unfold loaded_entries. simpl.
    rewrite !elem_of_cons, elem_of_nil. intros [->|[->|[]]]; discriminate. }
  destruct (texture_lookup two_textures 1 _ "marble" H1 H2 H3)
    as (A & _ & _ & B & C & _ & _ & D & _).
  exact (conj A (conj B (conj C D))).
Defined.

(** ** Texture loading *)

Lemma loaded_entries_store {A} (arr : list A) (n : Z) (x : A) :
  (0 <= n < Z.of_nat (length arr))%Z ->
  take (Z.to_nat (n + 1)) (<[Z.to_nat n := x]> arr) = take (Z.to_nat n) arr ++ [x].
Proof.
  intros Hn.
  replace (Z.to_nat (n + 1)) with (S (Z.to_nat n)) by lia.
  rewrite (take_S_r _ _ x).
  - by rewrite take_insert_ge.
  - apply list_lookup_insert_eq. lia.
Qed.

(** C6: on a registry with a free slot, [CreateGLTexture] returns without
    a fault; it returns false exactly when the image could not be decoded
    or has neither 3 nor 4 channels; on false the array and the counter
    are unchanged and the last line printed reports the failure; on true
    the counter grew by one and exactly the entry (handle, tag) was added
    after the loaded entries. *)
Theorem CreateGLTexture_semantics image textureID filename tag s :
  registry_has_room s ->
  exists ok s',
    CreateGLTexture image textureID filename tag s = Done (ok, s')
    /\ (ok = false <->
          image = None \/
          exists img, image = Some img /\ colorChannels img <> 3%Z
                      /\ colorChannels img <> 4%Z)
    /\ (ok = false ->
          m_textureIDs s' = m_textureIDs s
          /\ m_loadedTextures s' = m_loadedTextures s
          /\ exists line, last (cout s') = Some line
                          /\ load_failure_line filename line)
    /\ (ok = true ->
          m_loadedTextures s' = (m_loadedTextures s + 1)%Z
          /\ length (m_textureIDs s') = length (m_textureIDs s)
          /\ loaded_entries s' = loaded_entries s ++ [MkTextureInfo textureID tag]).
Proof.
  intros [Hlo Hhi]. unfold CreateGLTexture.
  destruct image as [img|].
  - destruct (Z.eqb_spec (colorChannels img) 3) as [H3|H3];
      [|destruct (Z.eqb_spec (colorChannels img) 4) as [H4|H4]].
    1,2: cbn [m_loadedTextures m_textureIDs with_gl with_cout];
      rewrite (proj2 (Z.leb_le _ _) Hlo), (proj2 (Z.ltb_lt _ _) Hhi);
      cbn [andb]; eexists true, _; split; [reflexivity|];
      split; [|split; [discriminate|]].
    1,3: split; [discriminate|];
      intros [Hn|(img' & Himg & Hn3 & Hn4)]; [discriminate|];
      injection Himg as <-; congruence.
    1,2: intros _; cbn [m_loadedTextures m_textureIDs with_textures];
      split; [reflexivity|]; split; [apply length_insert|];
      unfold loaded_entries; cbn [m_loadedTextures m_textureIDs with_textures];
      by apply loaded_entries_store.
    + eexists false, _. split; [reflexivity|]. split; [|split; [|discriminate]].
      * split; [|done]. intros _. right. by exists img.
      * intros _. cbn. split; [done|]. split; [done|].
        eexists. split; [apply last_snoc|]. right. by eexists.
  - eexists false, _. split; [reflexivity|]. split; [|split; [|discriminate]].
    + split; [|done]. intros _. by left.
    + intros _. cbn. split; [done|]. split; [done|].
      eexists. split; [apply last_snoc|]. by left.
Qed.

Lemma CreateGLTexture_semantics_witness :
  registry_has_room two_textures
  /\ exists s', CreateGLTexture (Some (MkImage 64 64 3)) 11 "textures/pot.jpg" "pot2"
                  two_textures = Done (true, s')
                /\ loaded_entries s'
                   = loaded_entries two_textures ++ [MkTextureInfo 11 "pot2"].
Proof.
  assert (Hroom : registry_has_room two_textures)
    by (unfold registry_has_room; simpl; lia).
  split; [exact Hroom|].
  destruct (CreateGLTexture_semantics (Some (MkImage 64 64 3)) 11 "textures/pot.jpg"
              "pot2" two_textures Hroom) as (ok & s' & Hrun & Hiff & _ & Hok).
  destruct ok.
  - exists s'. split; [exact Hrun|]. by destruct (Hok eq_refl) as (_ & _ & ?).
  - exfalso. destruct (proj1 Hiff eq_refl) as [Hn|(img & Himg & Hn3 & _)];
      [discriminate|]. injection Himg as <-. by apply Hn3.
Defined.

(** ** Lookup misses *)

Lemma nothing_defined_in_two_textures t : ~ material_defined flat_red t.
Proof. intros (m & Hm & _). by apply elem_of_nil in Hm. Qed.

Lemma marble_not_registered : ~ texture_registered flat_red "marble".
Proof.
  intros (e & He & Ht). revert He Ht. unfold loaded_entries. simpl.
  rewrite !elem_of_cons, elem_of_nil. intros [->|[->|[]]]; discriminate.
Qed.

(** C5, as worded, fails: with a flat red colour set (texture flag 0),
    asking for the unregistered texture "marble" turns the texture flag
    to 1. *)
Lemma texture_miss_changes_shader : ~ lookup_miss_atomic.
Proof.
  intros H.
  destruct (H flat_red "gold" "marble" (nothing_defined_in_two_textures "gold")
              marble_not_registered) as [_ Heq].
  apply (f_equal (fun s => m_pShaderManager s ≫= (.!! g_UseTextureName))) in Heq.
  vm_compute in Heq. discriminate Heq.
Qed.

(** C5 (amended): an undefined material tag makes [FindMaterial] return
    false and [SetShaderMaterial] leave the whole state unchanged; an
    unregistered texture tag makes [FindTextureSlot] return -1, and
    [SetShaderTexture] then still writes the texture flag (1) and the
    sampler (-1) — every other uniform, and the state when the shader
    manager is null, is unchanged. *)
Theorem lookup_miss s tm tt :
  ~ material_defined s tm ->
  ~ texture_registered s tt ->
  (forall out, FindMaterial s tm out = (false, out))
  /\ SetShaderMaterial tm s = Done s
  /\ FindTextureSlot s tt = (-1)%Z
  /\ SetShaderTexture tt s =
       match m_pShaderManager s with
       | Some u => with_shader (Some (<[g_TextureValueName := USampler2D (-1)]>
                                        (<[g_UseTextureName := UInt 1]> u))) s
       | None => s
       end
  /\ (forall u, m_pShaderManager s = Some u ->
        exists u', m_pShaderManager (SetShaderTexture tt s) = Some u'
          /\ forall name, name <> g_UseTextureName -> name <> g_TextureValueName ->
                          u' !! name = u !! name).
Proof.
  intros Hm Ht. split; [|split; [|split; [|split]]].
  - intros out. by apply FindMaterial_miss.
  - unfold SetShaderMaterial. by rewrite FindMaterial_miss.
  - by apply FindTextureSlot_miss.
  - unfold SetShaderTexture. rewrite FindTextureSlot_miss by done.
    by destruct (m_pShaderManager s).
  - intros u Hu. unfold SetShaderTexture. rewrite Hu. simpl.
    eexists. split; [reflexivity|]. intros name H1 H2. unfold set.
    rewrite lookup_insert_ne by done. by rewrite lookup_insert_ne.
Qed.

Lemma lookup_miss_witness :
  SetShaderMaterial "gold" flat_red = Done flat_red
  /\ FindTextureSlot flat_red "marble" = (-1)%Z.
Proof.
  destruct (lookup_miss flat_red "gold" "marble"
              (nothing_defined_in_two_textures "gold") marble_not_registered)
    as (_ & A & B & _).
  exact (conj A B).
Defined.

(** ** Null shader manager *)

(** C10: with a null shader manager the four guarded setters return the
    state unchanged (no uniform is written), whereas [SetShaderMaterial]
    on a defined tag and [SetupSceneLights] go through the null pointer. *)
Theorem null_shader_guards s sc X Y Z p r g b a t u v tm :
  m_pShaderManager s = None ->
  material_defined s tm ->
  SetTransformations sc X Y Z p s = s
  /\ SetShaderColor r g b a s = s
  /\ SetShaderTexture t s = s
  /\ SetTextureUVScale u v s = s
  /\ SetShaderMaterial tm s = Crash NullShaderManager
  /\ SetupSceneLights s = Crash NullShaderManager.
Proof.
  intros Hnull Hdef.
  destruct (FindMaterial_hit s tm unassigned_material Hdef) as [m' Hfound].
  unfold SetTransformations, SetShaderColor, SetShaderTexture, SetTextureUVScale,
    SetupSceneLights, SetShaderMaterial.
  rewrite Hnull, Hfound. by repeat apply conj.
Qed.

Lemma null_shader_guards_witness :
  SetShaderColor 1 0 0 1 null_shader_scene = null_shader_scene
  /\ SetShaderMaterial "wood" null_shader_scene = Crash NullShaderManager
  /\ SetupSceneLights null_shader_scene = Crash NullShaderManager.
Proof.
  assert (Hnull : m_pShaderManager null_shader_scene = None) by reflexivity.
  assert (Hdef : material_defined null_shader_scene "wood").
  { exists (MkMaterial (Vec3 0.6 0.4 0.2) (Vec3 0.15 0.1 0.05) 8.0 "wood").
    split; [|reflexivity].
    apply (list_elem_of_lookup_2 _ 2). reflexivity. }
  destruct (null_shader_guards null_shader_scene (Vec3 1 1 1) 0 0 0 (Vec3 0 0 0)
              1 0 0 1 "pot" 1 1 "wood" Hnull Hdef) as (_ & A & _ & _ & B & C).
  exact (conj A (conj B C)).
Defined.

(** ** Culling *)

Lemma exec_Some c s u :
  m_pShaderManager s = Some u ->
  exists s' u', exec c s = Done s' /\ m_pShaderManager s' = Some u'
    /\ gl s' = gl s
    /\ (frame s' = frame s /\ count_draws [c] = 0%nat \/
        exists d, frame s' = frame s ++ [d] /\ dr_cull d = cull_face (gl s)
                  /\ count_draws [c] = 1%nat).
Proof.
  intros Hu. destruct c; simpl.
  - unfold SetTransformations. rewrite Hu. eexists _, _. repeat apply conj; try done. by left.
  - unfold SetShaderColor. rewrite Hu. eexists _, _. repeat apply conj; try done. by left.
  - unfold SetShaderTexture. rewrite Hu. eexists _, _. repeat apply conj; try done. by left.
  - unfold SetTextureUVScale. rewrite Hu. eexists _, _. repeat apply conj; try done. by left.
  - unfold SetShaderMaterial.
    destruct (FindMaterial s materialTag unassigned_material) as [[] mat].
    + rewrite Hu. eexists _, _. repeat apply conj; try done. by left.
    + eexists _, _. repeat apply conj; try done. by left.
  - eexists _, _. repeat apply conj; try done. right. by eexists.
Qed.

Lemma count_draws_cons c rest :
  count_draws (c :: rest) = (count_draws [c] + count_draws rest)%nat.
Proof. by destruct c. Qed.

(** With a shader manager present a script runs to its end; it leaves the
    OpenGL state alone and every draw request it adds sees the culling
    capability of the start. *)
Lemma run_Some script s u :
  m_pShaderManager s = Some u ->
  exists s' u' ds, run script s = Done s' /\ m_pShaderManager s' = Some u'
    /\ gl s' = gl s
    /\ frame s' = frame s ++ ds
    /\ length ds = count_draws script
    /\ Forall (fun d => dr_cull d = cull_face (gl s)) ds.
Proof.
  revert s u; induction script as [|c rest IH]; intros s u Hu.
  - exists s, u, []. simpl. rewrite app_nil_r. by repeat apply conj.
  - destruct (exec_Some c s u Hu) as (s1 & u1 & Hc & Hu1 & Hgl1 & Hfr1).
    destruct (IH s1 u1 Hu1) as (s' & u' & ds & Hr & Hu' & Hgl' & Hfr' & Hlen & Hall).
    cbn [run]. rewrite Hc. cbn [mbind Outcome_bind]. rewrite Hr.
    rewrite count_draws_cons.
    destruct Hfr1 as [[Hfr1 Hn]|(d & Hfr1 & Hd & Hn)]; rewrite Hn.
    + exists s', u', ds. repeat apply conj; try done; try congruence.
      by rewrite <- Hgl1.
    + exists s', u', (d :: ds). repeat apply conj; try done; try congruence.
      * rewrite Hfr', Hfr1. by rewrite <- app_assoc.
      * simpl. by rewrite Hlen.
      * constructor; [done|]. by rewrite <- Hgl1.
Qed.

(** C8: with a shader manager present, [RenderScene] completes; the
    culling capability after the pass equals the one before it, whichever
    it was; the 115 draw requests of the pass all see culling disabled,
    and so does the state after every prefix of the script. *)
Theorem culling_restored s :
  is_Some (m_pShaderManager s) ->
  exists s' ds,
    RenderScene s = Done s'
    /\ cull_face (gl s') = cull_face (gl s)
    /\ frame s' = frame s ++ ds
    /\ length ds = 115%nat
    /\ Forall (fun d => dr_cull d = false) ds
    /\ (forall pre post, Scene.script = pre ++ post ->
          exists s0 s1, SetupSceneLights s = Done s0
            /\ run pre (with_gl (glDisable_CULL_FACE (gl s0)) s0) = Done s1
            /\ cull_face (gl s1) = false).
Proof.
  intros [u Hu]. unfold RenderScene, SetupSceneLights. rewrite Hu.
  cbn [mbind Outcome_bind].
  set (s0 := with_shader _ s).
  set (sd := with_gl (glDisable_CULL_FACE (gl s0)) s0).
  assert (Hsd : exists ud, m_pShaderManager sd = Some ud) by (by eexists).
  destruct Hsd as [ud Hud].
  destruct (run_Some Scene.script sd ud Hud)
    as (s' & u' & ds & Hr & Hu' & Hgl' & Hfr' & Hlen & Hall).
  rewrite Hr.
  exists (if glIsEnabled_CULL_FACE (gl s0)
          then with_gl (glEnable_CULL_FACE (gl s')) s' else s'), ds.
  split; [reflexivity|]. split; [|split; [|split; [|split]]].
  - unfold glIsEnabled_CULL_FACE. change (gl s0) with (gl s).
    destruct (cull_face (gl s)) eqn:Hc; [done|].
    by rewrite Hgl'.
  - destruct (glIsEnabled_CULL_FACE (gl s0)); exact Hfr'.
  - rewrite Hlen. vm_compute. reflexivity.
  - exact Hall.
  - intros pre post Hsplit. exists s0.
    destruct (run_Some pre sd ud Hud) as (s1 & _ & _ & Hr1 & _ & Hgl1 & _).
    exists s1. split; [done|]. split; [exact Hr1|by rewrite Hgl1].
Qed.

Lemma culling_restored_witness :
  is_Some (m_pShaderManager two_textures)
  /\ exists s', RenderScene two_textures = Done s'
                /\ cull_face (gl s') = true
                /\ length (frame s') = 115%nat.
Proof.
  assert (H : is_Some (m_pShaderManager two_textures)) by (by eexists).
  split; [exact H|].
  destruct (culling_restored two_textures H) as (s' & ds & A & B & C & D & _).
  exists s'. split; [exact A|]. split; [exact B|]. by rewrite C.
Defined.

(** ** Colours and scales *)

Lemma in_unit_intervalb_ok q : in_unit_intervalb q = true -> in_unit_interval q.
Proof.
  unfold in_unit_intervalb, in_unit_interval.
  rewrite andb_true_iff, !Qle_bool_iff. tauto.
Qed.

Lemma positiveb_ok q : positiveb q = true -> (0 < q)%Q.
Proof.
  unfold positiveb. rewrite negb_true_iff. intros H.
  apply Qnot_le_lt. intros Hle. apply Qle_bool_iff in Hle. congruence.
Qed.

Lemma color_in_rangeb_ok v : color_in_rangeb v = true -> color_in_range v.
Proof.
  unfold color_in_rangeb, color_in_range. rewrite !andb_true_iff.
  intros [[? ?] ?]. auto using in_unit_intervalb_ok.
Qed.

Lemma call_in_rangeb_ok c : call_in_rangeb c = true -> call_in_range c.
Proof.
  destruct c; simpl; try done.
  - rewrite !andb_true_iff. intros [[? ?] ?]. unfold scale_positive.
    auto using positiveb_ok.
  - rewrite !andb_true_iff. intros [[[? ?] ?] ?]. auto using in_unit_intervalb_ok.
Qed.

Lemma light_write_in_rangeb_ok w :
  light_write_in_rangeb w = true -> light_write_in_range w.
Proof.
  unfold light_write_in_rangeb, light_write_in_range. destruct (w.2); try done.
  rewrite orb_true_iff. intros [H|H].
  - left. by apply bool_decide_eq_true in H.
  - right. by apply color_in_rangeb_ok.
Qed.

Lemma forallb_Forall {A} (f : A -> bool) (P : A -> Prop) (l : list A) :
  (forall x, f x = true -> P x) -> forallb f l = true -> Forall P l.
Proof.
  intros Hf. induction l as [|x l IH]; simpl; [constructor|].
  rewrite andb_true_iff. intros [Hx Hl]. constructor; auto.
Qed.

(** C9: [DefineObjectMaterials] appends the catalog, whose diffuse and
    specular components all lie in [0,1]; every flat colour set by the
    script of [RenderScene] has its four channels in [0,1] and every scale
    vector it passes to [SetTransformations] is strictly positive in its
    three components; the colours of the light rig lie in [0,1] too. *)
Theorem colors_and_scales_in_range :
  (forall s, m_objectMaterials (DefineObjectMaterials s)
             = m_objectMaterials s ++ material_catalog)
  /\ Forall (fun m => color_in_range (diffuseColor m)
                      /\ color_in_range (specularColor m)) material_catalog
  /\ Forall call_in_range Scene.script
  /\ Forall light_write_in_range light_writes.
Proof.
  split; [exact DefineObjectMaterials_materials|]. split; [|split].
  - apply (forallb_Forall
             (fun m => color_in_rangeb (diffuseColor m)
                       && color_in_rangeb (specularColor m))).
    + intros m. rewrite andb_true_iff. intros [? ?]. auto using color_in_rangeb_ok.
    + vm_compute. reflexivity.
  - apply (forallb_Forall call_in_rangeb _ _ call_in_rangeb_ok).
    vm_compute. reflexivity.
  - apply (forallb_Forall light_write_in_rangeb _ _ light_write_in_rangeb_ok).
    vm_compute. reflexivity.
Qed.

(** ** Model matrix *)

Section ModelMatrix.

Local Open Scope R_scope.

Lemma vec4_eq a b c d a' b' c' d' :
  a = a' -> b = b' -> c = c' -> d = d' -> Vec4 a b c d = Vec4 a' b' c' d'.
Proof. by intros -> -> -> ->. Qed.

Lemma mat4_eq a b c d a' b' c' d' :
  a = a' -> b = b' -> c = c' -> d = d' -> Mat4 a b c d = Mat4 a' b' c' d'.
Proof. by intros -> -> -> ->. Qed.

(** Entry-wise comparison of two matrix expressions; the projections
    are reduced call-by-value so that no column is duplicated. *)
Ltac mat_crush :=
  cbv [mul mul_vec vadd vscale col0 col1 col2 col3 vx vy vz vw];
  repeat first [apply mat4_eq | apply vec4_eq]; try ring.

Lemma mul_assoc a b c : mul (mul a b) c = mul a (mul b c).
Proof.
  destruct a as [[] [] [] []], b as [[] [] [] []], c as [[] [] [] []]. mat_crush.
Qed.

Lemma mul_vec_mul a b v : mul_vec (mul a b) v = mul_vec a (mul_vec b v).
Proof.
  destruct a as [[] [] [] []], b as [[] [] [] []], v. mat_crush.
Qed.

Lemma translate_ref tx ty tz : translate tx ty tz = T_ref tx ty tz.
Proof. unfold translate, translate_m, T_ref, identity. mat_crush. Qed.

Lemma scale_ref sx sy sz : scale sx sy sz = S_ref sx sy sz.
Proof. unfold scale, scale_m, S_ref, identity. mat_crush. Qed.

(** The three axes passed to [glm::rotate] have length 1. *)
Lemma unit_axis_length :
  sqrt (0 * 0 + 0 * 0 + 1 * 1) = 1
  /\ sqrt (0 * 0 + 1 * 1 + 0 * 0) = 1 /\ sqrt (1 * 1 + 0 * 0 + 0 * 0) = 1.
Proof.
  replace (0 * 0 + 0 * 0 + 1 * 1) with 1 by ring.
  replace (0 * 0 + 1 * 1 + 0 * 0) with 1 by ring.
  replace (1 * 1 + 0 * 0 + 0 * 0) with 1 by ring.
  by rewrite sqrt_1.
Qed.

Lemma rotate_z_ref a : rotate a 0 0 1 = Rz_ref a.
Proof.
  unfold rotate, rotate_m, Rz_ref, identity.
  destruct unit_axis_length as (-> & _ & _). mat_crush; field.
Qed.

Lemma rotate_y_ref a : rotate a 0 1 0 = Ry_ref a.
Proof.
  unfold rotate, rotate_m, Ry_ref, identity.
  destruct unit_axis_length as (_ & -> & _). mat_crush; field.
Qed.

Lemma rotate_x_ref a : rotate a 1 0 0 = Rx_ref a.
Proof.
  unfold rotate, rotate_m, Rx_ref, identity.
  destruct unit_axis_length as (_ & _ & ->). mat_crush; field.
Qed.

Lemma modelView_is_ref sc X Y Z p : modelView sc X Y Z p = modelView_ref sc X Y Z p.
Proof.
  unfold modelView, modelView_ref.
  rewrite translate_ref, scale_ref, rotate_x_ref, rotate_y_ref, rotate_z_ref.
  by rewrite !mul_assoc.
Qed.

Lemma Q2R_zero : Q2R 0 = 0.
Proof. unfold Q2R; simpl; lra. Qed.

Lemma Q2R_one : Q2R 1 = 1.
Proof. unfold Q2R; simpl; lra. Qed.

Lemma Q2R_ninety : Q2R 90 = 90.
Proof. unfold Q2R; simpl; lra. Qed.

Lemma radians_0 : radians 0 = 0.
Proof. unfold radians. lra. Qed.

Lemma radians_90 : radians 90 = PI / 2.
Proof. unfold radians. lra. Qed.

Lemma radians_opp d : radians (- d) = - radians d.
Proof. unfold radians. lra. Qed.

(** C3: for every scale, rotation triple and translation the matrix of
    [SetTransformations] is T · Rz · Ry · Rx · S — a point is scaled
    first, then rotated about X, Y and Z, and translated last — and it is
    the value written to the "model" uniform; unit scale, zero rotations
    and zero translation give the identity; a +90° rotation about Z with
    unit scale sends (1,0,0) to (0,1,0) before translation. *)
Theorem model_matrix_order sc X Y Z p :
  modelView sc X Y Z p = modelView_ref sc X Y Z p
  /\ (forall v,
        mul_vec (modelView sc X Y Z p) v =
        mul_vec (T_ref (Q2R (x3 p)) (Q2R (y3 p)) (Q2R (z3 p)))
          (mul_vec (Rz_ref (radians (Q2R Z)))
            (mul_vec (Ry_ref (radians (Q2R Y)))
              (mul_vec (Rx_ref (radians (Q2R X)))
                (mul_vec (S_ref (Q2R (x3 sc)) (Q2R (y3 sc)) (Q2R (z3 sc))) v)))))
  /\ (forall s u,
        m_pShaderManager (SetTransformations sc X Y Z p (with_shader (Some u) s))
        = Some (<[g_ModelName := UMat4 (modelView sc X Y Z p)]> u))
  /\ modelView (Vec3 1 1 1) 0 0 0 (Vec3 0 0 0) = identity
  /\ mul_vec (mul (rotate (radians (Q2R 90)) 0 0 1) (scale 1 1 1)) (Vec4 1 0 0 1)
     = Vec4 0 1 0 1
  /\ mul_vec (modelView (Vec3 1 1 1) 0 0 90 p) (Vec4 1 0 0 1)
     = Vec4 (Q2R (x3 p)) (Q2R (y3 p) + 1) (Q2R (z3 p)) 1.
Proof.
  split; [apply modelView_is_ref|]. split; [|split; [|split; [|split]]].
  - intros v. rewrite modelView_is_ref. unfold modelView_ref.
    by rewrite !mul_vec_mul.
  - reflexivity.
  - rewrite modelView_is_ref. unfold modelView_ref. cbn [x3 y3 z3].
    rewrite Q2R_zero, Q2R_one, radians_0.
    unfold T_ref, Rx_ref, Ry_ref, Rz_ref, S_ref, identity.
    rewrite cos_0, sin_0. mat_crush.
  - rewrite rotate_z_ref, scale_ref, Q2R_ninety, radians_90. unfold Rz_ref, S_ref.
    rewrite cos_PI2, sin_PI2. mat_crush.
  - rewrite modelView_is_ref. unfold modelView_ref. cbn [x3 y3 z3].
    rewrite Q2R_zero, Q2R_one, Q2R_ninety, radians_0, radians_90.
    unfold T_ref, Rx_ref, Ry_ref, Rz_ref, S_ref.
    rewrite cos_0, sin_0, cos_PI2, sin_PI2. mat_crush.
Qed.

(** The tip of a segment rotated about Z only follows the rule of the
    source comment. *)
Lemma segment_tip_rule sx h sz Zd p :
  segment_tip (Vec3 sx h sz) 0 0 Zd p =
  Vec4 (tip_rule (Q2R (x3 p), Q2R (y3 p)) (Q2R h) (Q2R Zd)).1
       (tip_rule (Q2R (x3 p), Q2R (y3 p)) (Q2R h) (Q2R Zd)).2
       (Q2R (z3 p)) 1.
Proof.
  unfold segment_tip, cylinder_top, tip_rule. rewrite modelView_is_ref.
  unfold modelView_ref. cbn [x3 y3 z3 fst snd].
  rewrite Q2R_zero, radians_0. unfold T_ref, Rx_ref, Ry_ref, Rz_ref, S_ref.
  rewrite cos_0, sin_0. mat_crush.
Qed.

(** ** Enclosures of sine and cosine at the angles of the tree *)

Lemma PI_bounds : 3.14159 < PI < 3.1416.
Proof.
  destruct (PI_2_3_7_ineq 2) as [Hlo Hhi].
  unfold PI_2_3_7_tg, tg_alt, Ratan_seq in Hlo, Hhi.
  simpl in Hlo, Hhi.
  split; lra.
Qed.

Lemma INR_fact_Z n z : Z.of_nat (fact n) = z -> INR (fact n) = IZR z.
Proof. intros <-. apply INR_IZR_INZ. Qed.

Lemma sin_lb_poly a : sin_lb a = a - a^3/6 + a^5/120 - a^7/5040.
Proof.
  unfold sin_lb, sin_approx, sin_term, sum_f_R0.
  change (2*0+1)%nat with 1%nat. change (2*1+1)%nat with 3%nat.
  change (2*2+1)%nat with 5%nat. change (2*3+1)%nat with 7%nat.
  rewrite (INR_fact_Z 1 1), (INR_fact_Z 3 6), (INR_fact_Z 5 120),
    (INR_fact_Z 7 5040) by (vm_compute; reflexivity).
  field.
Qed.

Lemma sin_ub_poly a : sin_ub a = a - a^3/6 + a^5/120 - a^7/5040 + a^9/362880.
Proof.
  unfold sin_ub, sin_approx, sin_term, sum_f_R0.
  change (2*0+1)%nat with 1%nat. change (2*1+1)%nat with 3%nat.
  change (2*2+1)%nat with 5%nat. change (2*3+1)%nat with 7%nat.
  change (2*4+1)%nat with 9%nat.
  rewrite (INR_fact_Z 1 1), (INR_fact_Z 3 6), (INR_fact_Z 5 120),
    (INR_fact_Z 7 5040), (INR_fact_Z 9 362880) by (vm_compute; reflexivity).
  field.
Qed.

Lemma cos_lb_poly a : cos_lb a = 1 - a^2/2 + a^4/24 - a^6/720.
Proof.
  unfold cos_lb, cos_approx, cos_term, sum_f_R0.
  change (2*0)%nat with 0%nat. change (2*1)%nat with 2%nat.
  change (2*2)%nat with 4%nat. change (2*3)%nat with 6%nat.
  rewrite (INR_fact_Z 0 1), (INR_fact_Z 2 2), (INR_fact_Z 4 24),
    (INR_fact_Z 6 720) by (vm_compute; reflexivity).
  field.
Qed.

Lemma cos_ub_poly a : cos_ub a = 1 - a^2/2 + a^4/24 - a^6/720 + a^8/40320.
Proof.
  unfold cos_ub, cos_approx, cos_term, sum_f_R0.
  change (2*0)%nat with 0%nat. change (2*1)%nat with 2%nat.
  change (2*2)%nat with 4%nat. change (2*3)%nat with 6%nat.
  change (2*4)%nat with 8%nat.
  rewrite (INR_fact_Z 0 1), (INR_fact_Z 2 2), (INR_fact_Z 4 24),
    (INR_fact_Z 6 720), (INR_fact_Z 8 40320) by (vm_compute; reflexivity).
  field.
Qed.

(** On the first quadrant [sin] grows and [cos] falls, so the partial
    sums taken at rational end points enclose the value in between. *)
Lemma sin_enclose lo x hi :
  0 <= lo -> lo <= x -> x <= hi -> hi <= 1.57 ->
  sin_lb lo <= sin x <= sin_ub hi.
Proof.
  intros H0 H1 H2 H3.
  pose proof PI_bounds as [Hp1 Hp2].
  split.
  - apply Rle_trans with (sin lo).
    + apply SIN; lra.
    + apply sin_incr_1; lra.
  - apply Rle_trans with (sin hi).
    + apply sin_incr_1; lra.
    + apply SIN; lra.
Qed.

Lemma cos_enclose lo x hi :
  0 <= lo -> lo <= x -> x <= hi -> hi <= 1.57 ->
  cos_lb hi <= cos x <= cos_ub lo.
Proof.
  intros H0 H1 H2 H3.
  pose proof PI_bounds as [Hp1 Hp2].
  split.
  - apply Rle_trans with (cos hi).
    + apply COS; lra.
    + apply cos_decr_1; lra.
  - apply Rle_trans with (cos lo).
    + apply cos_decr_1; lra.
    + apply COS; lra.
Qed.

Ltac enclose_deg lo hi :=
  pose proof PI_bounds as [? ?];
  match goal with
  | |- _ < sin ?x < _ =>
      destruct (sin_enclose lo x hi) as [? ?]; unfold radians in *; try lra;
      rewrite sin_lb_poly in *; rewrite sin_ub_poly in *
  | |- _ < cos ?x < _ =>
      destruct (cos_enclose lo x hi) as [? ?]; unfold radians in *; try lra;
      rewrite cos_lb_poly in *; rewrite cos_ub_poly in *
  end;
  cbn [pow] in *; split; lra.

Lemma sin_8 : 0.13915 < sin (radians 8) < 0.13919.
Proof. enclose_deg 0.13962 0.13963. Qed.

Lemma cos_8 : 0.99025 < cos (radians 8) < 0.99028.
Proof. enclose_deg 0.13962 0.13963. Qed.

Lemma sin_15 : 0.25880 < sin (radians 15) < 0.25884.
Proof. enclose_deg 0.261799 0.2618. Qed.

Lemma cos_15 : 0.96590 < cos (radians 15) < 0.96594.
Proof. enclose_deg 0.261799 0.2618. Qed.

Lemma sin_20 : 0.34200 < sin (radians 20) < 0.34204.
Proof. enclose_deg 0.34906 0.34907. Qed.

Lemma cos_20 : 0.93967 < cos (radians 20) < 0.93971.
Proof. enclose_deg 0.34906 0.34907. Qed.

Lemma sin_50 : 0.76602 < sin (radians 50) < 0.76607.
Proof. enclose_deg 0.87266 0.87267. Qed.

Lemma cos_50 : 0.64276 < cos (radians 50) < 0.64281.
Proof. enclose_deg 0.87266 0.87267. Qed.

Lemma sin_55 : 0.81913 < sin (radians 55) < 0.81917.
Proof. enclose_deg 0.95992 0.95994. Qed.

Lemma cos_55 : 0.57354 < cos (radians 55) < 0.57360.
Proof. enclose_deg 0.95992 0.95994. Qed.

(** ** Trunk joints *)

(** Evaluate [Q2R] on the closed rational expressions of the scene. *)
Ltac eval_Q2R :=
  repeat match goal with
  | |- context [Q2R ?q] =>
      let v := eval vm_compute in q in
      change (Q2R q) with (Q2R v); unfold Q2R at 1; cbn [Qnum Qden]
  end.

(** Reduce a tip to sines and cosines of positive angles. *)
Ltac tip_to_trig :=
  rewrite ?segment_tip_rule; unfold near, within, tip_rule;
  cbn [vx vy vz fst snd]; eval_Q2R;
  repeat match goal with
  | |- context [radians (IZR (Z.neg ?n) * / IZR (Z.pos 1))] =>
      replace (IZR (Z.neg n) * / IZR (Z.pos 1)) with (Ropp (IZR (Z.pos n))) by lra;
      rewrite radians_opp, sin_neg, cos_neg
  | |- context [radians (IZR (Z.pos ?n) * / IZR (Z.pos 1))] =>
      replace (IZR (Z.pos n) * / IZR (Z.pos 1)) with (IZR (Z.pos n)) by lra
  end.

Lemma joint1_from_origin_bounds :
  0.15390 < joint1_from_origin.1 < 0.15392
  /\ 0.42285 < joint1_from_origin.2 < 0.42287.
Proof.
  unfold joint1_from_origin, tip_rule. cbn [fst snd].
  replace (-20) with (Ropp 20) by lra.
  rewrite radians_opp, sin_neg, cos_neg.
  pose proof sin_20. pose proof cos_20. lra.
Qed.

Lemma joint2_chained_bounds :
  0.34800 < joint2_chained.1 < 0.34805
  /\ 1.14727 < joint2_chained.2 < 1.14733.
Proof.
  pose proof joint1_from_origin_bounds.
  unfold joint2_chained, tip_rule. cbn [fst snd].
  replace (-15) with (Ropp 15) by lra.
  rewrite radians_opp, sin_neg, cos_neg.
  pose proof sin_15. pose proof cos_15. lra.
Qed.

Lemma seg1_tip_bounds :
  0.15390 < vx seg1_tip - Q2R (x3 Scene.s0) < 0.15392
  /\ 0.42285 < vy seg1_tip - Q2R (y3 Scene.s0) < 0.42287
  /\ vz seg1_tip = Q2R (z3 Scene.s0).
Proof.
  unfold seg1_tip. tip_to_trig.
  pose proof sin_20. pose proof cos_20. repeat split; lra.
Qed.

Lemma seg1_near : near 0.005 seg1_tip Scene.s1.
Proof.
  unfold seg1_tip. tip_to_trig.
  pose proof sin_20. pose proof cos_20. repeat split; lra.
Qed.

Lemma seg2_near : near 0.005 seg2_tip Scene.s2.
Proof.
  unfold seg2_tip. tip_to_trig.
  pose proof sin_15. pose proof cos_15. repeat split; lra.
Qed.

Lemma seg3_near : near 0.005 seg3_tip Scene.s3.
Proof.
  unfold seg3_tip. tip_to_trig.
  pose proof sin_8. pose proof cos_8. repeat split; lra.
Qed.

(** C1, as worded, fails: segment 2 chained from the exact first joint
    ends at x > 0.348, more than 1e-3 away from the documented 0.34, and
    none of the hardcoded joints s1, s2, s3 is within 1e-3 of the tip of
    the segment drawn below it. *)
Lemma trunk_chain_not_within_a_thousandth :
  ~ within 0.001 joint2_chained.1 0.34
  /\ ~ near 0.001 seg1_tip Scene.s1
  /\ ~ near 0.001 seg2_tip Scene.s2
  /\ ~ near 0.001 seg3_tip Scene.s3
  /\ ~ trunk_chain_as_claimed.
Proof.
  assert (H2 : ~ within 0.001 joint2_chained.1 0.34).
  { intros [_ Hx]. pose proof joint2_chained_bounds. lra. }
  split; [exact H2|]. split; [|split; [|split]].
  - unfold seg1_tip. tip_to_trig. pose proof sin_20. lra.
  - unfold seg2_tip. tip_to_trig. pose proof sin_15. lra.
  - unfold seg3_tip. tip_to_trig. pose proof sin_8. lra.
  - intros (_ & (Hx & _) & _). by apply H2.
Qed.

(** C1 (amended): segment 1 (length 0.45, -20° about Z) from the origin
    ends within 1e-3 of (0.154, 0.423); segment 2 (0.75, -15°) chained
    from there ends within 1e-2 of the documented s2, (0.34, 1.19) above
    the pot top, that is (0.34, 1.14) above the rim anchor; the tip of
    segment 1 as drawn, taken from the rim anchor, is within 1e-3 of
    (0.154, 0.423) as well; the joints
    s1, s2, s3 hardcoded in the draw sequence are two-decimal roundings:
    each lies within 5e-3 of the tip the rule gives for the segment drawn
    from the hardcoded joint below it, at the same depth. *)
Theorem trunk_joint_chain :
  (within 0.001 joint1_from_origin.1 0.154
   /\ within 0.001 joint1_from_origin.2 0.423)
  /\ (within 0.01 joint2_chained.1 0.34 /\ within 0.01 joint2_chained.2 1.14)
  /\ (within 0.001 (vx seg1_tip - Q2R (x3 Scene.s0)) 0.154
      /\ within 0.001 (vy seg1_tip - Q2R (y3 Scene.s0)) 0.423)
  /\ Scene.trunk !! 2%nat
     = Some (call_SetTransformations (Vec3 0.22 0.45 0.22) 0 0 (-20) Scene.s0)
  /\ Scene.trunk !! 4%nat
     = Some (call_SetTransformations (Vec3 0.21 0.21 0.21) 0 0 0 Scene.s1)
  /\ Scene.trunk !! 6%nat
     = Some (call_SetTransformations (Vec3 0.19 0.75 0.19) 0 0 (-15) Scene.s1)
  /\ Scene.trunk !! 8%nat
     = Some (call_SetTransformations (Vec3 0.19 0.19 0.19) 0 0 0 Scene.s2)
  /\ Scene.trunk !! 10%nat
     = Some (call_SetTransformations (Vec3 0.16 0.75 0.16) 0 0 8 Scene.s2)
  /\ Scene.trunk !! 12%nat
     = Some (call_SetTransformations (Vec3 0.16 0.16 0.16) 0 0 0 Scene.s3)
  /\ near 0.005 seg1_tip Scene.s1
  /\ near 0.005 seg2_tip Scene.s2
  /\ near 0.005 seg3_tip Scene.s3.
Proof.
  pose proof joint1_from_origin_bounds. pose proof joint2_chained_bounds.
  pose proof seg1_tip_bounds.
  split; [unfold within; lra|]. split; [unfold within; lra|].
  split; [unfold within; lra|].
  repeat (split; [reflexivity|]).
  split; [exact seg1_near|]. split; [exact seg2_near|exact seg3_near].
Qed.

(** ** Branches *)

(** C2, as worded, fails: the left branch is drawn from
    (0.15, potTopY+0.47), the first joint, not from the second one, and a
    branch leaving the second joint would end far from the left anchor. *)
Lemma branches_do_not_leave_joints_2_and_3 :
  ~ (x3 Scene.s1 == x3 Scene.s2)%Q
  /\ Scene.branches !! 0%nat
     <> Some (call_SetTransformations (Vec3 0.11 1.40 0.11) 0 0 55 Scene.s2)
  /\ ~ near 0.005 (segment_tip (Vec3 0.11 1.40 0.11) 0 0 55 Scene.s2) left_anchor
  /\ ~ branches_as_claimed.
Proof.
  assert (H0 : Scene.branches !! 0%nat
               <> Some (call_SetTransformations (Vec3 0.11 1.40 0.11) 0 0 55 Scene.s2)).
  { intros H. injection H as Hx _. vm_compute in Hx. discriminate Hx. }
  split; [by vm_compute|]. split; [exact H0|]. split.
  - unfold left_anchor. tip_to_trig. pose proof sin_55. lra.
  - intros (H & _). by apply H0.
Qed.

(** C2 (amended): the left branch leaves the first trunk joint s1 with
    +55° about Z and length 1.4, the right branch leaves the second
    trunk joint s2 with -50° and length 1.2; each tip is the origin plus
    length·(-sin, cos) in the XY plane; the anchors of the left and right
    7-sphere clusters are two-decimal literals within 5e-3 of those
    tips, at the same depth. *)
Theorem branch_placement :
  Scene.branches !! 0%nat
    = Some (call_SetTransformations (Vec3 0.11 1.40 0.11) 0 0 55 Scene.s1)
  /\ Scene.branches !! 4%nat
    = Some (call_SetTransformations (Vec3 0.10 1.20 0.10) 0 0 (-50) Scene.s2)
  /\ left_branch_tip
     = Vec4 (tip_rule (Q2R (x3 Scene.s1), Q2R (y3 Scene.s1)) (Q2R 1.40) (Q2R 55)).1
            (tip_rule (Q2R (x3 Scene.s1), Q2R (y3 Scene.s1)) (Q2R 1.40) (Q2R 55)).2
            (Q2R (z3 Scene.s1)) 1
  /\ right_branch_tip
     = Vec4 (tip_rule (Q2R (x3 Scene.s2), Q2R (y3 Scene.s2)) (Q2R 1.20) (Q2R (-50))).1
            (tip_rule (Q2R (x3 Scene.s2), Q2R (y3 Scene.s2)) (Q2R 1.20) (Q2R (-50))).2
            (Q2R (z3 Scene.s2)) 1
  /\ Scene.left_cluster !! 0%nat
     = Some (call_SetTransformations (Vec3 0.40 0.34 0.38) 0 0 0 left_anchor)
  /\ Scene.right_cluster !! 0%nat
     = Some (call_SetTransformations (Vec3 0.40 0.34 0.38) 0 0 0 right_anchor)
  /\ length Scene.left_cluster = 21%nat
  /\ length Scene.right_cluster = 21%nat
  /\ near 0.005 left_branch_tip left_anchor
  /\ near 0.005 right_branch_tip right_anchor.
Proof.
  split; [reflexivity|]. split; [reflexivity|].
  split; [apply segment_tip_rule|]. split; [apply segment_tip_rule|].
  repeat (split; [reflexivity|]).
  split.
  - unfold left_branch_tip, left_anchor. tip_to_trig.
    pose proof sin_55. pose proof cos_55. repeat split; lra.
  - unfold right_branch_tip, right_anchor. tip_to_trig.
    pose proof sin_50. pose proof cos_50. repeat split; lra.
Qed.

End ModelMatrix.

(* ===================================================================== *)
(** * Further properties of the scene manager *)
(* ===================================================================== *)

(** ** Loading the scene textures *)

Lemma CreateGLTexture_accepted image id f t s :
  accepted image = true -> registry_has_room s ->
  exists s', CreateGLTexture image id f t s = Done (true, s')
    /\ loaded_entries s' = loaded_entries s ++ [MkTextureInfo id t]
    /\ m_loadedTextures s' = (m_loadedTextures s + 1)%Z
    /\ length (m_textureIDs s') = length (m_textureIDs s)
    /\ m_pShaderManager s' = m_pShaderManager s
    /\ m_objectMaterials s' = m_objectMaterials s.
Proof.
  intros Hacc [Hlo Hhi]. destruct image as [img|]; [|done]. simpl in Hacc.
  unfold CreateGLTexture.
  destruct (Z.eqb_spec (colorChannels img) 3) as [H3|H3];
    [|destruct (Z.eqb_spec (colorChannels img) 4) as [H4|H4]; [|done]].
  all: cbn [m_loadedTextures m_textureIDs with_gl with_cout];
    rewrite (proj2 (Z.leb_le _ _) Hlo), (proj2 (Z.ltb_lt _ _) Hhi);
    cbn [andb]; eexists; split; [reflexivity|];
    cbn [m_loadedTextures m_textureIDs with_textures m_pShaderManager m_objectMaterials];
    split; [|split; [reflexivity|split; [apply length_insert|done]]];
    unfold loaded_entries; cbn [m_loadedTextures m_textureIDs with_textures];
    by apply loaded_entries_store.
Qed.

Lemma CreateGLTexture_rejected image id f t s :
  accepted image = false ->
  exists s', CreateGLTexture image id f t s = Done (false, s')
    /\ m_textureIDs s' = m_textureIDs s
    /\ m_loadedTextures s' = m_loadedTextures s
    /\ m_pShaderManager s' = m_pShaderManager s
    /\ m_objectMaterials s' = m_objectMaterials s.
Proof.
  intros Hacc. destruct image as [img|]; simpl in Hacc.
  - apply orb_false_iff in Hacc as [H3 H4]. unfold CreateGLTexture.
    rewrite H3, H4. by eexists.
  - by eexists.
Qed.

Lemma LoadSceneTextures_loop_entries stbi_load glGen files k s :
  (0 <= m_loadedTextures s)%Z ->
  (m_loadedTextures s + Z.of_nat (length files)
   <= Z.of_nat (length (m_textureIDs s)))%Z ->
  exists s', LoadSceneTextures_loop stbi_load glGen files k s = Done s'
    /\ loaded_entries s' = loaded_entries s ++ entries_of_files stbi_load glGen files k
    /\ m_pShaderManager s' = m_pShaderManager s
    /\ m_objectMaterials s' = m_objectMaterials s.
Proof.
  revert k s; induction files as [|[f t] files IH]; intros k s Hlo Hhi.
  - exists s. simpl. by rewrite app_nil_r.
  - cbn [LoadSceneTextures_loop entries_of_files]. cbn [length] in Hhi.
    destruct (accepted (stbi_load f)) eqn:Hacc.
    + destruct (CreateGLTexture_accepted (stbi_load f) (glGen k) f t s Hacc)
        as (s1 & -> & He & Hn & Hlen & Hsh & Hmat); [split; lia|].
      cbn [mbind Outcome_bind snd].
      destruct (IH (S k) s1) as (s' & -> & He' & Hsh' & Hmat');
        [lia|rewrite Hlen; lia|].
      exists s'. split; [done|]. rewrite He', He, <- app_assoc.
      split; [done|]. split; congruence.
    + destruct (CreateGLTexture_rejected (stbi_load f) (glGen k) f t s Hacc)
        as (s1 & -> & Ha & Hn & Hsh & Hmat).
      cbn [mbind Outcome_bind snd].
      destruct (IH (S k) s1) as (s' & -> & He' & Hsh' & Hmat');
        [lia|rewrite Ha; lia|].
      exists s'. split; [done|]. rewrite He'. unfold loaded_entries.
      rewrite Ha, Hn. split; [done|]. split; congruence.
Qed.

(** In the entries a run adds, the file at position [j] sits at the index
    given by the number of accepted files before it. *)
Lemma entries_of_files_lookup stbi_load glGen files k j f t :
  files !! j = Some (f, t) -> accepted (stbi_load f) = true ->
  entries_of_files stbi_load glGen files k !! accepted_before stbi_load files j
  = Some (MkTextureInfo (glGen (k + j)%nat) t).
Proof.
  revert k j; induction files as [|[f0 t0] files IH]; intros k j Hj Hacc.
  - by rewrite lookup_nil in Hj.
  - destruct j as [|j]; cbn [entries_of_files].
    + injection Hj as -> ->. rewrite Hacc. simpl. by rewrite Nat.add_0_r.
    + simpl in Hj. unfold accepted_before. cbn [take List.filter fst].
      destruct (accepted (stbi_load f0)); cbn [length app].
      * rewrite lookup_cons. cbn. 
        replace (k + S j)%nat with (S k + j)%nat by lia. by apply IH.
      * replace (k + S j)%nat with (S k + j)%nat by lia. by apply IH.
Qed.

Lemma entries_of_files_tags stbi_load glGen files k e :
  e ∈ entries_of_files stbi_load glGen files k ->
  exists j f, files !! j = Some (f, tex_tag e) /\ accepted (stbi_load f) = true.
Proof.
  revert k; induction files as [|[f0 t0] files IH]; intros k He.
  - by apply elem_of_nil in He.
  - cbn [entries_of_files] in He. apply elem_of_app in He as [He|He].
    + destruct (accepted (stbi_load f0)) eqn:Hacc.
      * apply list_elem_of_singleton in He as ->. by exists 0%nat, f0.
      * by apply elem_of_nil in He.
    + destruct (IH _ He) as (j & f & Hj & Hacc). by exists (S j), f.
Qed.

Lemma entries_of_files_earlier stbi_load glGen files k j f t i e :
  NoDup (map snd files) ->
  files !! j = Some (f, t) ->
  (i < accepted_before stbi_load files j)%nat ->
  entries_of_files stbi_load glGen files k !! i = Some e ->
  tex_tag e <> t.
Proof.
  revert k j i; induction files as [|[f0 t0] files IH]; intros k j i Hnd Hj Hi He.
  - by rewrite lookup_nil in Hj.
  - apply NoDup_cons in Hnd as [Hnot Hnd].
    destruct j as [|j].
    + unfold accepted_before in Hi. simpl in Hi. lia.
    + simpl in Hj. unfold accepted_before in Hi. cbn [take List.filter fst] in Hi.
      cbn [entries_of_files] in He.
      destruct (accepted (stbi_load f0)); cbn [length app] in *.
      * destruct i as [|i].
        -- injection He as <-. simpl. intros ->. apply Hnot.
           apply list_elem_of_fmap. exists (f, t). split; [done|].
           by apply list_elem_of_lookup_2 with j.
        -- simpl in He. apply (IH (S k) j i); [done|done|unfold accepted_before; lia|done].
      * apply (IH (S k) j i); done.
Qed.

Lemma entries_of_files_length stbi_load glGen files k :
  length (entries_of_files stbi_load glGen files k)
  = accepted_before stbi_load files (length files).
Proof.
  revert k; induction files as [|[f t] files IH]; intros k; [done|].
  cbn [entries_of_files]. unfold accepted_before in *.
  cbn [length take List.filter fst]. rewrite length_app, IH.
  by destruct (accepted (stbi_load f)).
Qed.

Lemma accepted_before_all stbi_load files j :
  (forall f t, (f, t) ∈ files -> accepted (stbi_load f) = true) ->
  (j <= length files)%nat ->
  accepted_before stbi_load files j = j.
Proof.
  revert j; induction files as [|[f t] files IH]; intros j Hall Hj.
  - simpl in Hj. by replace j with 0%nat by lia.
  - destruct j as [|j]; [done|]. unfold accepted_before in *.
    cbn [take List.filter fst]. rewrite (Hall f t) by apply list_elem_of_here.
    cbn [length]. f_equal. apply IH; [|simpl in Hj; lia].
    intros f' t' H. apply (Hall f' t'). by apply list_elem_of_further.
Qed.

Lemma scene_texture_tags_distinct : NoDup (map snd scene_texture_files).
Proof. by apply (bool_decide_unpack _); vm_compute. Qed.

Lemma loaded_entries_empty s : m_loadedTextures s = 0%Z -> loaded_entries s = [].
Proof. intros H. unfold loaded_entries. by rewrite H. Qed.

(** What a run of [LoadSceneTextures] on an empty registry with eight free
    places leaves behind. *)
Lemma LoadSceneTextures_result stbi_load glGen s :
  m_loadedTextures s = 0%Z ->
  (8 <= length (m_textureIDs s))%nat ->
  exists s', LoadSceneTextures stbi_load glGen s = Done s'
    /\ loaded_entries s' = entries_of_files stbi_load glGen scene_texture_files 0
    /\ m_pShaderManager s' = m_pShaderManager s
    /\ m_objectMaterials s' = m_objectMaterials s
    /\ (forall k e, loaded_entries s' !! k = Some e ->
          binding_2d (gl s') !! Z.of_nat k = Some (ID e)).
Proof.
  intros H0 Hcap. unfold LoadSceneTextures.
  destruct (LoadSceneTextures_loop_entries stbi_load glGen scene_texture_files 0 s)
    as (s1 & -> & He & Hsh & Hmat); [lia|simpl; lia|].
  cbn [mbind Outcome_bind]. exists (BindGLTextures s1).
  rewrite (loaded_entries_empty s H0) in He. simpl in He.
  split; [done|]. split; [exact He|]. split; [exact Hsh|]. split; [exact Hmat|].
  intros k e Hk. unfold BindGLTextures. simpl.
  apply (BindGLTextures_loop_unit (loaded_entries s1) 0 (gl s1) k e Hk).
Qed.

Lemma rejected_tag_absent stbi_load glGen files k j f t e :
  NoDup (map snd files) ->
  files !! j = Some (f, t) -> accepted (stbi_load f) = false ->
  e ∈ entries_of_files stbi_load glGen files k -> tex_tag e <> t.
Proof.
  intros Hnd Hj Hrej He Ht.
  destruct (entries_of_files_tags _ _ _ _ _ He) as (j' & f' & Hj' & Hacc).
  rewrite Ht in Hj'.
  assert (j' = j).
  { apply (NoDup_lookup _ _ _ t Hnd); rewrite list_lookup_fmap.
    - by rewrite Hj'.
    - by rewrite Hj. }
  subst j'. rewrite Hj in Hj'. injection Hj' as <-. congruence.
Qed.

(** The texture of an accepted file of the scene: its slot, its handle and
    the unit it is bound on. *)
Lemma accepted_file_slot stbi_load glGen s s' j f t :
  m_loadedTextures s = 0%Z ->
  (8 <= length (m_textureIDs s))%nat ->
  scene_texture_files !! j = Some (f, t) ->
  accepted (stbi_load f) = true ->
  LoadSceneTextures stbi_load glGen s = Done s' ->
  FindTextureSlot s' t = Z.of_nat (accepted_before stbi_load scene_texture_files j)
  /\ FindTextureID s' t = int_of_GLuint (glGen j)
  /\ binding_2d (gl s') !! FindTextureSlot s' t = Some (glGen j).
Proof.
  intros H0 Hcap Hj Hacc Hrun.
  destruct (LoadSceneTextures_result stbi_load glGen s H0 Hcap)
    as (s1 & Hrun1 & He & _ & _ & Hbind).
  rewrite Hrun in Hrun1. injection Hrun1 as <-.
  pose proof (entries_of_files_lookup stbi_load glGen _ 0 j f t Hj Hacc) as Hk.
  rewrite <- He in Hk. simpl in Hk.
  assert (Hfirst : forall i e', (i < accepted_before stbi_load scene_texture_files j)%nat ->
            loaded_entries s' !! i = Some e' -> tex_tag e' <> t).
  { intros i e' Hi Hi'. rewrite He in Hi'.
    apply (entries_of_files_earlier stbi_load glGen scene_texture_files 0 j f t i e');
      [apply scene_texture_tags_distinct|done|done|done]. }
  assert (Hs : FindTextureSlot s' t
               = Z.of_nat (accepted_before stbi_load scene_texture_files j)).
  { unfold FindTextureSlot.
    by rewrite (FindTextureSlot_loop_first (loaded_entries s') t 0 _ _ Hk eq_refl Hfirst). }
  split; [exact Hs|]. split.
  - unfold FindTextureID.
    by rewrite (FindTextureID_loop_first (loaded_entries s') t _ _ Hk eq_refl Hfirst).
  - rewrite Hs. apply (Hbind _ _ Hk).
Qed.

(** X1: [LoadSceneTextures] never stops at a file it cannot use: on an
    empty registry with eight free places it completes whatever the decoder
    returns; the texture of an accepted file gets as slot the number of
    accepted files before it (a missing file shifts the slots of all later
    ones), the handle generated for it, and is bound on that unit; the tag
    of a rejected file is not registered. *)
Theorem LoadSceneTextures_slots stbi_load glGen s j f t :
  m_loadedTextures s = 0%Z ->
  (8 <= length (m_textureIDs s))%nat ->
  scene_texture_files !! j = Some (f, t) ->
  exists s', LoadSceneTextures stbi_load glGen s = Done s'
    /\ length (loaded_entries s') = accepted_before stbi_load scene_texture_files 8
    /\ (if accepted (stbi_load f) then
          FindTextureSlot s' t
            = Z.of_nat (accepted_before stbi_load scene_texture_files j)
          /\ FindTextureID s' t = int_of_GLuint (glGen j)
          /\ binding_2d (gl s') !! FindTextureSlot s' t = Some (glGen j)
        else FindTextureSlot s' t = (-1)%Z /\ FindTextureID s' t = (-1)%Z).
Proof.
  intros H0 Hcap Hj.
  destruct (LoadSceneTextures_result stbi_load glGen s H0 Hcap)
    as (s' & Hrun & He & _).
  exists s'. split; [exact Hrun|]. split.
  { rewrite He. apply (entries_of_files_length stbi_load glGen scene_texture_files 0). }
  destruct (accepted (stbi_load f)) eqn:Hacc.
  - by apply (accepted_file_slot stbi_load glGen s s' j f t).
  - assert (Hall : Forall (fun e => tex_tag e <> t) (loaded_entries s')).
    { apply Forall_forall. intros e Hin. rewrite He in Hin.
      apply (rejected_tag_absent stbi_load glGen scene_texture_files 0 j f t e);
        [apply scene_texture_tags_distinct|done|done|done]. }
    split.
    + by apply FindTextureSlot_loop_miss.
    + by apply FindTextureID_loop_miss.
Qed.

Lemma LoadSceneTextures_slots_witness :
  exists s', LoadSceneTextures all_rgb names_from_1 (SceneManager 16 (Some ∅) gl0)
             = Done s'
    /\ FindTextureSlot s' "coaster" = 3%Z
    /\ FindTextureID s' "coaster" = 4%Z.
Proof.
  destruct (LoadSceneTextures_slots all_rgb names_from_1 (SceneManager 16 (Some ∅) gl0)
              3 "textures/coaster.jpg" "coaster")
    as (s' & Hrun & _ & Hs & Hid & _).
  - reflexivity.
  - simpl. lia.
  - reflexivity.
  - exists s'. split; [exact Hrun|]. split; [exact Hs|exact Hid].
Defined.

Lemma call_resolvesb_material t :
  existsb (String.eqb t) (map tag material_catalog) = true ->
  exists m, m ∈ material_catalog /\ tag m = t.
Proof.
  intros H. apply existsb_exists in H as (t' & Hin & Heq).
  apply String.eqb_eq in Heq. subst t'.
  apply list_elem_of_In, list_elem_of_fmap in Hin as (m & Ht & Hm).
  by exists m.
Qed.

Lemma call_resolvesb_texture t :
  existsb (String.eqb t) (map snd scene_texture_files) = true ->
  exists j f, scene_texture_files !! j = Some (f, t).
Proof.
  intros H. apply existsb_exists in H as (t' & Hin & Heq).
  apply String.eqb_eq in Heq. subst t'.
  apply list_elem_of_In, list_elem_of_fmap in Hin as ([f t'] & Ht & Hm).
  simpl in Ht. subst t'.
  apply list_elem_of_lookup_1 in Hm as [j Hj]. by exists j, f.
Qed.

Lemma DefineObjectMaterials_shader s :
  m_pShaderManager (DefineObjectMaterials s) = m_pShaderManager s.
Proof.
  unfold DefineObjectMaterials. generalize material_catalog. intros l.
  revert s; induction l as [|x l IH]; intros s; [done|].
  cbn [foldl]. by rewrite IH.
Qed.

(** After the materials are defined and the eight textures accepted,
    every call of the script finds the tag it asks for. *)
Lemma calls_resolve_after_loading stbi_load glGen s s' :
  m_loadedTextures s = 0%Z ->
  (8 <= length (m_textureIDs s))%nat ->
  (forall f t, (f, t) ∈ scene_texture_files -> accepted (stbi_load f) = true) ->
  LoadSceneTextures stbi_load glGen (DefineObjectMaterials s) = Done s' ->
  Forall (call_resolves s') Scene.script.
Proof.
  intros H0 Hcap Hall Hrun.
  assert (Hmat : m_objectMaterials s' = m_objectMaterials s ++ material_catalog).
  { destruct (LoadSceneTextures_result stbi_load glGen (DefineObjectMaterials s))
      as (s1 & Hrun1 & _ & _ & Hm & _); [done|done|].
    rewrite Hrun in Hrun1. injection Hrun1 as <-.
    by rewrite Hm, DefineObjectMaterials_materials. }
  apply (forallb_Forall call_resolvesb); [|by vm_compute].
  intros c Hc. destruct c; try done; simpl in Hc |- *.
  - destruct (call_resolvesb_texture _ Hc) as (j & f & Hj).
    assert (Hacc : accepted (stbi_load f) = true)
      by (apply (Hall f textureTag); by apply list_elem_of_lookup_2 with j).
    destruct (accepted_file_slot stbi_load glGen (DefineObjectMaterials s) s' j f
                textureTag) as (Hs & _ & _); [done|done|done|done|done|].
    assert (Hlt : (j < 8)%nat) by (apply lookup_lt_Some in Hj; simpl in Hj; lia).
    rewrite accepted_before_all in Hs by (try done; simpl; lia).
    split; [|lia].
    destruct (FindTextureSlot_loop_hit (loaded_entries s') textureTag 0)
      as (k & e & _ & Hk & Ht); [lia|unfold FindTextureSlot in Hs; lia|].
    exists e. split; [by apply list_elem_of_lookup_2 with k|done].
  - destruct (call_resolvesb_material _ Hc) as (m & Hm' & Ht).
    exists m. split; [|done]. rewrite Hmat. apply elem_of_app. by right.
Qed.

(** X2: once the materials are defined and the eight scene textures are
    all accepted, no lookup of the frame misses: loading completes, every
    material tag the script asks for is in the table (whose seventeen tags
    are distinct) and every texture tag is registered, with a slot from 0
    to 7. *)
Theorem script_tags_resolve stbi_load glGen s :
  m_loadedTextures s = 0%Z ->
  (8 <= length (m_textureIDs s))%nat ->
  (forall f t, (f, t) ∈ scene_texture_files -> accepted (stbi_load f) = true) ->
  exists s', LoadSceneTextures stbi_load glGen (DefineObjectMaterials s) = Done s'
    /\ Forall (call_resolves s') Scene.script
    /\ NoDup (map tag material_catalog).
Proof.
  intros H0 Hcap Hall.
  destruct (LoadSceneTextures_result stbi_load glGen (DefineObjectMaterials s))
    as (s' & Hrun & _); [done|done|].
  exists s'. split; [exact Hrun|].
  split; [|apply material_catalog_tags_distinct].
  by apply (calls_resolve_after_loading stbi_load glGen s s').
Qed.

Lemma script_tags_resolve_witness :
  exists s', LoadSceneTextures all_rgb names_from_1
               (DefineObjectMaterials (SceneManager 16 (Some ∅) gl0)) = Done s'
    /\ Forall (call_resolves s') Scene.script.
Proof.
  destruct (script_tags_resolve all_rgb names_from_1 (SceneManager 16 (Some ∅) gl0))
    as (s' & A & B & _).
  - reflexivity.
  - simpl. lia.
  - intros f t _. reflexivity.
  - exists s'. split; [exact A|exact B].
Defined.

(** ** Edges of the texture registry *)

(** X4: the store into the texture array is not guarded: on a registry
    without a free place an accepted image runs past the end of the array,
    while a rejected one is still reported by [false] with the registry
    untouched. *)
Theorem CreateGLTexture_no_bounds_check image textureID filename tag s :
  ~ registry_has_room s ->
  if accepted image
  then CreateGLTexture image textureID filename tag s = Crash TextureArrayOverflow
  else exists s', CreateGLTexture image textureID filename tag s = Done (false, s')
         /\ m_textureIDs s' = m_textureIDs s
         /\ m_loadedTextures s' = m_loadedTextures s.
Proof.
  intros Hfull. destruct image as [img|]; simpl.
  - unfold CreateGLTexture.
    assert (Hguard : (0 <=? m_loadedTextures s)%Z
                     && (m_loadedTextures s <? Z.of_nat (length (m_textureIDs s)))%Z
                     = false).
    { apply andb_false_iff. unfold registry_has_room in Hfull.
      destruct (Z.leb_spec 0 (m_loadedTextures s)); [right|by left].
      apply Z.ltb_ge. lia. }
    destruct (colorChannels img =? 3)%Z; [|destruct (colorChannels img =? 4)%Z].
    + cbn [orb m_loadedTextures m_textureIDs with_gl with_cout]. by rewrite Hguard.
    + cbn [orb m_loadedTextures m_textureIDs with_gl with_cout]. by rewrite Hguard.
    + cbn [orb]. by eexists.
  - by eexists.
Qed.

Lemma CreateGLTexture_no_bounds_check_witness :
  CreateGLTexture (Some (MkImage 64 64 4)) 11 "textures/wall.jpg" "wall" full_registry
  = Crash TextureArrayOverflow.
Proof.
  apply (CreateGLTexture_no_bounds_check (Some (MkImage 64 64 4)) 11
           "textures/wall.jpg" "wall" full_registry).
  unfold registry_has_room. simpl. lia.
Defined.

Lemma glBindTexture_fresh id g :
  id <> 0%Z -> textures g !! id = None ->
  glBindTexture id g
  = MkGL (cull_face g) (active_texture g) (<[active_texture g := id]> (binding_2d g))
         (<[id := empty_texture]> (textures g)).
Proof.
  intros Hid Hfresh. unfold glBindTexture.
  by rewrite (proj2 (Z.eqb_neq id 0) Hid), Hfresh.
Qed.

Lemma update_bound_at f c a b ts id t :
  b !! a = Some id -> ts !! id = Some t ->
  update_bound f (MkGL c a b ts) = MkGL c a b (<[id := f t]> ts).
Proof.
  intros Hb Ht. unfold update_bound, bound_texture. simpl. rewrite Hb. simpl.
  f_equal. apply map_eq. intros k. destruct (decide (k = id)) as [->|Hk].
  - by rewrite lookup_alter_eq, lookup_insert_eq, Ht.
  - by rewrite lookup_alter_ne, lookup_insert_ne.
Qed.

(** A fresh name bound and given the four sampling parameters. *)
Lemma configure_fresh_texture id g :
  id <> 0%Z -> textures g !! id = None ->
  glTexParameteri GL_TEXTURE_MAG_FILTER GL_LINEAR
    (glTexParameteri GL_TEXTURE_MIN_FILTER GL_LINEAR
      (glTexParameteri GL_TEXTURE_WRAP_T GL_REPEAT
        (glTexParameteri GL_TEXTURE_WRAP_S GL_REPEAT
          (glBindTexture id g))))
  = MkGL (cull_face g) (active_texture g) (<[active_texture g := id]> (binding_2d g))
         (<[id := MkTexObject scene_sampling None false]> (textures g)).
Proof.
  intros Hid Hfresh. rewrite (glBindTexture_fresh id g Hid Hfresh).
  unfold glTexParameteri.
  repeat (erewrite update_bound_at;
          [|apply lookup_insert_eq|apply lookup_insert_eq]; rewrite insert_insert_eq).
  reflexivity.
Qed.

Lemma glTexImage2D_at fmt w h c a b ts id t :
  b !! a = Some id -> ts !! id = Some t ->
  glTexImage2D fmt w h (MkGL c a b ts)
  = MkGL c a b (<[id := MkTexObject (tex_params t) (Some (fmt, w, h)) (tex_mipmaps t)]> ts).
Proof. intros. unfold glTexImage2D. by erewrite update_bound_at. Qed.

Lemma glGenerateMipmap_at c a b ts id t :
  b !! a = Some id -> ts !! id = Some t ->
  glGenerateMipmap (MkGL c a b ts)
  = MkGL c a b (<[id := MkTexObject (tex_params t) (tex_image t) true]> ts).
Proof. intros. unfold glGenerateMipmap. by erewrite update_bound_at. Qed.

(** X3: an accepted image uploaded under a fresh non-zero name leaves a
    texture object with repeat wrapping, linear filtering, the image in
    RGB8 (3 channels) or RGBA8 (4 channels) at its size and mipmaps; no
    other texture object changes, and the active unit is unbound again. *)
Theorem CreateGLTexture_upload img textureID filename tag s :
  accepted (Some img) = true ->
  registry_has_room s ->
  textureID <> 0%Z ->
  textures (gl s) !! textureID = None ->
  exists s',
    CreateGLTexture (Some img) textureID filename tag s = Done (true, s')
    /\ textures (gl s') !! textureID
       = Some (MkTexObject scene_sampling
                 (Some (if (colorChannels img =? 3)%Z then GL_RGB8 else GL_RGBA8,
                        width img, height img)) true)
    /\ (forall n, n <> textureID -> textures (gl s') !! n = textures (gl s) !! n)
    /\ bound_texture (gl s') = 0%Z
    /\ active_texture (gl s') = active_texture (gl s)
    /\ cull_face (gl s') = cull_face (gl s)
    /\ (forall unit, unit <> active_texture (gl s) ->
          binding_2d (gl s') !! unit = binding_2d (gl s) !! unit).
Proof.
  intros Hacc [Hlo Hhi] Hid Hfresh. simpl in Hacc.
  unfold CreateGLTexture. cbn [gl with_cout].
  rewrite (configure_fresh_texture textureID (gl s) Hid Hfresh).
  destruct (colorChannels img =? 3)%Z eqn:H3;
    [|destruct (colorChannels img =? 4)%Z eqn:H4; [|done]].
  all: erewrite glTexImage2D_at; [|apply lookup_insert_eq|apply lookup_insert_eq];
    rewrite insert_insert_eq;
    erewrite glGenerateMipmap_at; [|apply lookup_insert_eq|apply lookup_insert_eq];
    rewrite insert_insert_eq;
    cbn [m_loadedTextures m_textureIDs with_gl with_cout tex_params tex_image];
    rewrite (proj2 (Z.leb_le _ _) Hlo), (proj2 (Z.ltb_lt _ _) Hhi);
    cbn [andb]; eexists; split; [reflexivity|];
    cbn [gl with_textures with_gl]; unfold glBindTexture;
    cbn [textures binding_2d active_texture cull_face Z.eqb];
    split; [apply lookup_insert_eq|];
    split; [intros n Hn; by apply lookup_insert_ne|];
    split; [unfold bound_texture; simpl; by rewrite lookup_insert_eq|];
    split; [done|]; split; [done|];
    intros unit Hu; rewrite !lookup_insert_ne by done; done.
Qed.

Lemma CreateGLTexture_upload_witness :
  exists s', CreateGLTexture (Some (MkImage 64 32 4)) 11 "textures/wall.jpg" "wall"
               two_textures = Done (true, s')
    /\ textures (gl s') !! 11%Z
       = Some (MkTexObject scene_sampling (Some (GL_RGBA8, 64%Z, 32%Z)) true)
    /\ bound_texture (gl s') = 0%Z.
Proof.
  destruct (CreateGLTexture_upload (MkImage 64 32 4) 11 "textures/wall.jpg" "wall"
              two_textures) as (s' & A & B & _ & C & _).
  - reflexivity.
  - unfold registry_has_room. simpl. lia.
  - lia.
  - reflexivity.
  - exists s'. split; [exact A|]. split; [exact B|exact C].
Defined.

(** ** Tear-down *)

Lemma DestroyGLTextures_textures entries g n :
  textures (foldl (fun g e => glDeleteTextures (ID e) g) g entries) !! n
  = if bool_decide (n ∈ map ID entries) then None else textures g !! n.
Proof.
  revert g; induction entries as [|e entries IH]; intros g.
  - cbn [foldl map]. case_bool_decide as H; [|done]. by apply elem_of_nil in H.
  - cbn [foldl map]. rewrite IH. cbn [glDeleteTextures textures].
    destruct (decide (n = ID e)) as [->|Hne].
    + rewrite lookup_delete_eq.
      rewrite (bool_decide_eq_true_2 (ID e ∈ ID e :: map ID entries))
        by apply list_elem_of_here.
      by destruct (bool_decide _).
    + rewrite lookup_delete_ne by done.
      destruct (bool_decide (n ∈ map ID entries)) eqn:Hin.
      * apply bool_decide_eq_true in Hin.
        rewrite bool_decide_eq_true_2; [done|]. by apply list_elem_of_further.
      * apply bool_decide_eq_false in Hin.
        rewrite bool_decide_eq_false_2; [done|].
        intros H. apply elem_of_cons in H as [?|?]; done.
Qed.

Lemma DestroyGLTextures_bindings entries g unit :
  binding_2d (foldl (fun g e => glDeleteTextures (ID e) g) g entries) !! unit
  = (fun b => if bool_decide (b ∈ map ID entries) then 0%Z else b)
      <$> binding_2d g !! unit.
Proof.
  revert g; induction entries as [|e entries IH]; intros g.
  - cbn [foldl map]. by destruct (binding_2d g !! unit) as [b|].
  - cbn [foldl map]. rewrite IH. cbn [glDeleteTextures binding_2d].
    rewrite lookup_fmap.
    destruct (binding_2d g !! unit) as [b|]; simpl; [|done]. f_equal.
    destruct (Z.eqb_spec b (ID e)) as [->|Hne].
    + rewrite (bool_decide_eq_true_2 (ID e ∈ ID e :: map ID entries))
        by apply list_elem_of_here.
      by destruct (bool_decide _).
    + destruct (bool_decide (b ∈ map ID entries)) eqn:Hin.
      * apply bool_decide_eq_true in Hin.
        rewrite bool_decide_eq_true_2; [done|]. by apply list_elem_of_further.
      * apply bool_decide_eq_false in Hin.
        rewrite bool_decide_eq_false_2; [done|].
        intros H. apply elem_of_cons in H as [?|?]; done.
Qed.

(** X7: [DestroyGLTextures] deletes the texture object of every loaded entry
    and no other, and no unit stays bound to a deleted name; but it leaves
    the array and the counter as they are, so both lookups keep answering
    with the slots and handles of textures that no longer exist. *)
Theorem DestroyGLTextures_keeps_registry s e :
  e ∈ loaded_entries s ->
  textures (gl (DestroyGLTextures s)) !! ID e = None
  /\ (forall n, n ∉ map ID (loaded_entries s) ->
        textures (gl (DestroyGLTextures s)) !! n = textures (gl s) !! n)
  /\ (forall unit, binding_2d (gl (DestroyGLTextures s)) !! unit <> Some (ID e)
                   \/ ID e = 0%Z)
  /\ loaded_entries (DestroyGLTextures s) = loaded_entries s
  /\ (forall t, FindTextureSlot (DestroyGLTextures s) t = FindTextureSlot s t
                /\ FindTextureID (DestroyGLTextures s) t = FindTextureID s t).
Proof.
  intros He.
  assert (Hin : ID e ∈ map ID (loaded_entries s)).
  { apply list_elem_of_fmap. by exists e. }
  unfold DestroyGLTextures. cbn [gl with_gl].
  split; [|split; [|split; [|split; [done|done]]]].
  - rewrite DestroyGLTextures_textures. by rewrite bool_decide_eq_true_2.
  - intros n Hn. rewrite DestroyGLTextures_textures. by rewrite bool_decide_eq_false_2.
  - intros unit. rewrite DestroyGLTextures_bindings.
    destruct (binding_2d (gl s) !! unit) as [b|]; simpl; [|by left].
    destruct (bool_decide (b ∈ map ID (loaded_entries s))) eqn:Hb.
    + destruct (decide (ID e = 0%Z)) as [?|Hne]; [by right|left]. congruence.
    + left. apply bool_decide_eq_false in Hb. intros [= ->]. done.
Qed.

Lemma DestroyGLTextures_keeps_registry_witness :
  FindTextureID (DestroyGLTextures two_textures) "wood" = 9%Z
  /\ textures (gl (DestroyGLTextures two_textures)) !! 9%Z = None.
Proof.
  assert (He : MkTextureInfo 9 "wood" ∈ loaded_entries two_textures).
  { apply (list_elem_of_lookup_2 _ 1). reflexivity. }
  destruct (DestroyGLTextures_keeps_registry two_textures _ He) as (A & _ & _ & _ & B).
  split; [|exact A]. destruct (B "wood") as [_ ->]. reflexivity.
Defined.

(** X5: an image with an unsupported channel count is reported by [false]
    only after a texture object was created for it: the object stays
    bound to the active unit, it is not registered, and tear-down does not
    delete it. *)
Theorem CreateGLTexture_unsupported_leaks img textureID filename tag s :
  accepted (Some img) = false ->
  textureID <> 0%Z ->
  textures (gl s) !! textureID = None ->
  textureID ∉ map ID (loaded_entries s) ->
  exists s',
    CreateGLTexture (Some img) textureID filename tag s = Done (false, s')
    /\ textures (gl s') !! textureID = Some (MkTexObject scene_sampling None false)
    /\ bound_texture (gl s') = textureID
    /\ loaded_entries s' = loaded_entries s
    /\ textures (gl (DestroyGLTextures s')) !! textureID
       = Some (MkTexObject scene_sampling None false).
Proof.
  intros Hacc Hid Hfresh Hnot. simpl in Hacc.
  apply orb_false_iff in Hacc as [H3 H4].
  unfold CreateGLTexture. cbn [gl with_cout].
  rewrite (configure_fresh_texture textureID (gl s) Hid Hfresh), H3, H4.
  eexists. split; [reflexivity|].
  assert (Hobj : forall x, <[textureID := x]> (textures (gl s)) !! textureID = Some x)
    by (intros; apply lookup_insert_eq).
  split; [apply Hobj|]. split; [|split; [done|]].
  - unfold bound_texture. simpl. by rewrite lookup_insert_eq.
  - unfold DestroyGLTextures. cbn [gl with_gl with_cout].
    rewrite DestroyGLTextures_textures.
    rewrite bool_decide_eq_false_2; [apply Hobj|exact Hnot].
Qed.

Lemma CreateGLTexture_unsupported_leaks_witness :
  exists s', CreateGLTexture (Some (MkImage 64 64 1)) 11 "textures/gray.png" "gray"
               two_textures = Done (false, s')
    /\ bound_texture (gl s') = 11%Z
    /\ is_Some (textures (gl (DestroyGLTextures s')) !! 11%Z).
Proof.
  destruct (CreateGLTexture_unsupported_leaks (MkImage 64 64 1) 11 "textures/gray.png"
              "gray" two_textures) as (s' & A & _ & B & _ & C).
  - reflexivity.
  - lia.
  - reflexivity.
  - unfold loaded_entries. simpl. rewrite !not_elem_of_cons. 
    split; [lia|]. split; [lia|]. apply not_elem_of_nil.
  - exists s'. split; [exact A|]. split; [exact B|]. rewrite C. by eexists.
Defined.

(** ** Creating a texture after the textures were bound *)

Lemma BindGLTextures_loop_active entries i0 g :
  entries <> [] ->
  active_texture (BindGLTextures_loop entries i0 g)
  = (i0 + Z.of_nat (length entries) - 1)%Z.
Proof.
  revert i0 g; induction entries as [|e entries IH]; intros i0 g Hne; [done|].
  cbn [BindGLTextures_loop length]. destruct entries as [|e' entries].
  - simpl. lia.
  - rewrite IH by done. cbn [length]. lia.
Qed.

(** The units of a state after an accepted image was created: the active
    unit is the same and is bound to 0, the others are as before. *)
Lemma CreateGLTexture_units image id f t s s' :
  CreateGLTexture image id f t s = Done (true, s') ->
  active_texture (gl s') = active_texture (gl s)
  /\ binding_2d (gl s')
     = <[active_texture (gl s) := 0%Z]> (<[active_texture (gl s) := id]> (binding_2d (gl s))).
Proof.
  unfold CreateGLTexture. destruct image as [img|]; [|done].
  destruct (colorChannels img =? 3)%Z; [|destruct (colorChannels img =? 4)%Z; [|done]].
  all: match goal with |- context [if ?b then _ else _] => destruct b end; [|done].
  all: intros H; injection H as <-; split; reflexivity.
Qed.

(** X6: [CreateGLTexture] works on whichever texture unit is active and
    leaves it unbound, and [BindGLTextures] leaves the unit of the last
    entry active: a texture created after the textures were bound takes
    the texture of the last slot off its unit, until [BindGLTextures] runs
    again, which binds the old entries as before and the new one on the
    next unit. *)
Theorem texture_created_after_binding img textureID filename tag s i e :
  accepted (Some img) = true ->
  registry_has_room s ->
  loaded_entries s !! i = Some e ->
  length (loaded_entries s) = S i ->
  exists s',
    CreateGLTexture (Some img) textureID filename tag (BindGLTextures s) = Done (true, s')
    /\ active_texture (gl (BindGLTextures s)) = Z.of_nat i
    /\ binding_2d (gl (BindGLTextures s)) !! Z.of_nat i = Some (ID e)
    /\ binding_2d (gl s') !! Z.of_nat i = Some 0%Z
    /\ binding_2d (gl (BindGLTextures s')) !! Z.of_nat i = Some (ID e)
    /\ binding_2d (gl (BindGLTextures s')) !! Z.of_nat (S i) = Some textureID.
Proof.
  intros Hacc Hroom Hi Hlen.
  destruct (CreateGLTexture_accepted (Some img) textureID filename tag (BindGLTextures s)
              Hacc Hroom) as (s' & Hrun & He & _).
  change (loaded_entries (BindGLTextures s)) with (loaded_entries s) in He.
  destruct (CreateGLTexture_units _ _ _ _ _ _ Hrun) as [Hact Hb].
  assert (Ha : active_texture (gl (BindGLTextures s)) = Z.of_nat i).
  { unfold BindGLTextures. cbn [gl with_gl].
    rewrite BindGLTextures_loop_active by (intros H; by rewrite H in Hlen).
    rewrite Hlen. lia. }
  exists s'. split; [exact Hrun|]. split; [exact Ha|]. split; [|split; [|split]].
  - unfold BindGLTextures. cbn [gl with_gl].
    apply (BindGLTextures_loop_unit (loaded_entries s) 0 (gl s) i e Hi).
  - rewrite Hb, Ha. apply lookup_insert_eq.
  - unfold BindGLTextures at 1. cbn [gl with_gl].
    apply (BindGLTextures_loop_unit (loaded_entries s') 0 (gl s') i e).
    rewrite He. by apply lookup_app_l_Some.
  - unfold BindGLTextures at 1. cbn [gl with_gl].
    apply (BindGLTextures_loop_unit (loaded_entries s') 0 (gl s') (S i)
             (MkTextureInfo textureID tag)).
    rewrite He, <- Hlen. by rewrite list_lookup_middle.
Qed.

Lemma texture_created_after_binding_witness :
  exists s', CreateGLTexture (Some (MkImage 64 64 3)) 11 "textures/wall.jpg" "wall"
               (BindGLTextures two_textures) = Done (true, s')
    /\ binding_2d (gl (BindGLTextures two_textures)) !! 1%Z = Some 9%Z
    /\ binding_2d (gl s') !! 1%Z = Some 0%Z
    /\ binding_2d (gl (BindGLTextures s')) !! 2%Z = Some 11%Z.
Proof.
  destruct (texture_created_after_binding (MkImage 64 64 3) 11 "textures/wall.jpg" "wall"
              two_textures 1 (MkTextureInfo 9 "wood")) as (s' & A & _ & B & C & _ & D).
  - reflexivity.
  - unfold registry_has_room. simpl. lia.
  - reflexivity.
  - reflexivity.
  - exists s'. split; [exact A|]. split; [exact B|]. split; [exact C|exact D].
Defined.

(** ** The not-found value of the two texture lookups *)

Lemma FindTextureSlot_sentinel s t :
  FindTextureSlot s t = (-1)%Z <-> ~ texture_registered s t.
Proof.
  split.
  - intros H (e & He & Ht).
    by apply (FindTextureSlot_loop_found (loaded_entries s) t 0 e).
  - apply FindTextureSlot_miss.
Qed.

(** X8: the -1 of [FindTextureSlot] means exactly that the tag is not
    registered, the -1 of [FindTextureID] does not: for a registered tag
    it returns the 32-bit handle converted to [int], which is the handle
    itself below 2^31, a negative number from 2^31 on, and -1 for the
    handle 4294967295. *)
Theorem not_found_value s i e :
  loaded_entries s !! i = Some e ->
  (forall j e', (j < i)%nat -> loaded_entries s !! j = Some e' ->
                tex_tag e' <> tex_tag e) ->
  (0 <= ID e < 4294967296)%Z ->
  (forall t, FindTextureSlot s t = (-1)%Z <-> ~ texture_registered s t)
  /\ (forall t, ~ texture_registered s t -> FindTextureID s t = (-1)%Z)
  /\ (FindTextureID s (tex_tag e) = (-1)%Z <-> ID e = 4294967295%Z)
  /\ (FindTextureID s (tex_tag e) = ID e <-> (ID e < 2147483648)%Z)
  /\ ((FindTextureID s (tex_tag e) < 0)%Z <-> (2147483648 <= ID e)%Z).
Proof.
  intros Hi Hfirst Hrange.
  split; [apply FindTextureSlot_sentinel|]. split.
  { intros t Hmiss. apply FindTextureID_loop_miss. by apply not_registered_Forall. }
  unfold FindTextureID.
  rewrite (FindTextureID_loop_first _ _ i e Hi eq_refl Hfirst).
  unfold int_of_GLuint. destruct (Z.ltb_spec (ID e) 2147483648); lia.
Qed.

Lemma not_found_value_witness :
  texture_registered sentinel_registry "pot"
  /\ FindTextureID sentinel_registry "pot" = (-1)%Z
  /\ FindTextureSlot sentinel_registry "pot" = 0%Z.
Proof.
  assert (Hi : loaded_entries sentinel_registry !! 0%nat
               = Some (MkTextureInfo 4294967295 "pot")) by reflexivity.
  destruct (not_found_value sentinel_registry 0 _ Hi) as (_ & _ & A & _).
  - intros j e' Hj. lia.
  - simpl. lia.
  - split; [|split; [by apply A|reflexivity]].
    eexists. split; [by apply (list_elem_of_lookup_2 _ 0)|reflexivity].
Defined.

(** ** Defining the materials again *)

Lemma FindMaterial_loop_app a b t out :
  FindMaterial_loop (a ++ b) t out
  = if (FindMaterial_loop a t out).1 then FindMaterial_loop a t out
    else FindMaterial_loop b t out.
Proof.
  induction a as [|x xs IH]; simpl; [done|].
  by destruct (String.eqb (tag x) t).
Qed.

Lemma FindMaterial_loop_false mats t out :
  (FindMaterial_loop mats t out).1 = false ->
  FindMaterial_loop mats t out = (false, out).
Proof.
  induction mats as [|x xs IH]; simpl; [done|].
  by destruct (String.eqb (tag x) t).
Qed.

(** Presets appended under tags that the table scanned so far could
    already answer change no lookup. *)
Lemma FindMaterial_loop_redefine mats extra t out :
  (forall out', (FindMaterial_loop mats t out').1 = false ->
                (FindMaterial_loop extra t out').1 = false) ->
  FindMaterial_loop (mats ++ extra) t out = FindMaterial_loop mats t out.
Proof.
  intros H. rewrite FindMaterial_loop_app.
  destruct (FindMaterial_loop mats t out).1 eqn:Hm; [done|].
  rewrite (FindMaterial_loop_false mats t out Hm).
  apply FindMaterial_loop_false. by apply H.
Qed.

(** X9: defining the materials a second time appends the seventeen presets
    again but changes the answer of no lookup: the table has grown by
    thirty-four presets, and [FindMaterial] returns for every tag what it
    returned after the first definition. *)
Theorem DefineObjectMaterials_twice s t out :
  FindMaterial (DefineObjectMaterials (DefineObjectMaterials s)) t out
  = FindMaterial (DefineObjectMaterials s) t out
  /\ length (m_objectMaterials (DefineObjectMaterials (DefineObjectMaterials s)))
     = (length (m_objectMaterials s) + 34)%nat.
Proof.
  unfold FindMaterial. rewrite !DefineObjectMaterials_materials. split.
  - apply FindMaterial_loop_redefine. intros out'.
    rewrite FindMaterial_loop_app.
    destruct (FindMaterial_loop (m_objectMaterials s) t out').1 eqn:Hm; [|done].
    intros H. congruence.
  - rewrite !length_app. simpl. lia.
Qed.

(** ** What a frame touches *)

(** A call of the script changes nothing but the uniforms and the frame. *)
Lemma exec_frame_condition c s s' :
  exec c s = Done s' ->
  gl s' = gl s /\ m_textureIDs s' = m_textureIDs s
  /\ m_loadedTextures s' = m_loadedTextures s
  /\ m_objectMaterials s' = m_objectMaterials s /\ cout s' = cout s.
Proof.
  destruct c; simpl; intros H.
  - injection H as <-. unfold SetTransformations. by destruct (m_pShaderManager s).
  - injection H as <-. unfold SetShaderColor. by destruct (m_pShaderManager s).
  - injection H as <-. unfold SetShaderTexture. by destruct (m_pShaderManager s).
  - injection H as <-. unfold SetTextureUVScale. by destruct (m_pShaderManager s).
  - unfold SetShaderMaterial in H.
    destruct (FindMaterial s materialTag unassigned_material) as [[] m];
      [destruct (m_pShaderManager s); [|done]|]; by injection H as <-.
  - by injection H as <-.
Qed.

Lemma run_frame_condition script s s' :
  run script s = Done s' ->
  gl s' = gl s /\ m_textureIDs s' = m_textureIDs s
  /\ m_loadedTextures s' = m_loadedTextures s
  /\ m_objectMaterials s' = m_objectMaterials s /\ cout s' = cout s.
Proof.
  revert s; induction script as [|c rest IH]; intros s H; simpl in H.
  - by injection H as <-.
  - destruct (exec c s) as [s1|f] eqn:Hc; [|done]. simpl in H.
    destruct (exec_frame_condition c s s1 Hc) as (A1 & A2 & A3 & A4 & A5).
    destruct (IH s1 H) as (B1 & B2 & B3 & B4 & B5).
    repeat split; congruence.
Qed.

Lemma glEnable_after_glDisable g :
  cull_face g = true -> glEnable_CULL_FACE (glDisable_CULL_FACE g) = g.
Proof. destruct g. simpl. by intros ->. Qed.

Lemma glDisable_when_disabled g :
  cull_face g = false -> glDisable_CULL_FACE g = g.
Proof. destruct g. simpl. by intros ->. Qed.

(** The shape of a completed pass: the lights, the script on the state with
    culling disabled, the culling capability put back. *)
Lemma RenderScene_Some s u :
  m_pShaderManager s = Some u ->
  let s0 := with_shader (Some (foldl (fun u w => set w.1 w.2 u) u light_writes)) s in
  exists s1,
    run Scene.script (with_gl (glDisable_CULL_FACE (gl s)) s0) = Done s1
    /\ RenderScene s
       = Done (if cull_face (gl s) then with_gl (glEnable_CULL_FACE (gl s1)) s1 else s1).
Proof.
  intros Hu s0. unfold RenderScene, SetupSceneLights. rewrite Hu.
  cbn [mbind Outcome_bind]. fold s0.
  change (gl s0) with (gl s).
  destruct (run_Some Scene.script (with_gl (glDisable_CULL_FACE (gl s)) s0)
              (foldl (fun u w => set w.1 w.2 u) u light_writes) eq_refl)
    as (s1 & _ & _ & Hr & _).
  exists s1. split; [exact Hr|]. by rewrite Hr.
Qed.

(** X10: a frame leaves everything but the uniforms and the list of draw
    requests as it found it: the whole OpenGL state (capabilities, active
    unit, bindings, texture objects), the texture registry, the material
    table and the log. *)
Theorem RenderScene_frame_condition s :
  is_Some (m_pShaderManager s) ->
  exists s', RenderScene s = Done s'
    /\ gl s' = gl s
    /\ m_textureIDs s' = m_textureIDs s
    /\ m_loadedTextures s' = m_loadedTextures s
    /\ m_objectMaterials s' = m_objectMaterials s
    /\ cout s' = cout s.
Proof.
  intros [u Hu]. destruct (RenderScene_Some s u Hu) as (s1 & Hr & ->).
  destruct (run_frame_condition _ _ _ Hr) as (A1 & A2 & A3 & A4 & A5).
  cbn [gl with_gl with_shader m_textureIDs m_loadedTextures m_objectMaterials cout]
    in A1, A2, A3, A4, A5.
  eexists. split; [reflexivity|].
  destruct (cull_face (gl s)) eqn:Hc;
    cbn [gl with_gl m_textureIDs m_loadedTextures m_objectMaterials cout].
  - rewrite A1. by rewrite glEnable_after_glDisable.
  - rewrite A1. by rewrite glDisable_when_disabled.
Qed.

Lemma RenderScene_frame_condition_witness :
  exists s', RenderScene two_textures = Done s'
    /\ gl s' = gl0 /\ m_loadedTextures s' = 2%Z.
Proof.
  destruct (RenderScene_frame_condition two_textures) as (s' & A & B & _ & C & _).
  - by eexists.
  - exists s'. split; [exact A|]. split; [exact B|exact C].
Defined.

(** ** The uniforms the draws see *)

Lemma not_setter_uniform name :
  name ∉ setter_uniforms ->
  name <> g_ModelName /\ name <> g_UseTextureName /\ name <> g_ColorValueName
  /\ name <> g_TextureValueName /\ name <> "UVscale"
  /\ name <> "material.diffuseColor" /\ name <> "material.specularColor"
  /\ name <> "material.shininess".
Proof.
  unfold setter_uniforms. rewrite !not_elem_of_cons. tauto.
Qed.

(** A call adds at most the draw request that sees the current uniforms,
    and writes no uniform outside [setter_uniforms]. *)
Lemma exec_uniforms c s s' :
  exec c s = Done s' ->
  (exists ds, frame s' = frame s ++ ds
     /\ Forall (fun d => dr_uniforms d = m_pShaderManager s) ds)
  /\ (forall name, name ∉ setter_uniforms -> uniform_of s' name = uniform_of s name).
Proof.
  unfold uniform_of.
  destruct c; simpl; intros H.
  - injection H as <-. unfold SetTransformations.
    destruct (m_pShaderManager s) as [u|] eqn:Hu; (split; [exists []; split; [by rewrite app_nil_r|done]|]);
      [|by rewrite Hu].
    intros name Hn. apply not_setter_uniform in Hn. simpl. unfold set.
    rewrite lookup_insert_ne; [done|]. intros Heq; symmetry in Heq; tauto.
  - injection H as <-. unfold SetShaderColor.
    destruct (m_pShaderManager s) as [u|] eqn:Hu; (split; [exists []; split; [by rewrite app_nil_r|done]|]);
      [|by rewrite Hu].
    intros name Hn. apply not_setter_uniform in Hn. simpl. unfold set.
    rewrite !lookup_insert_ne; [done| |]; intros Heq; symmetry in Heq; tauto.
  - injection H as <-. unfold SetShaderTexture.
    destruct (m_pShaderManager s) as [u|] eqn:Hu; (split; [exists []; split; [by rewrite app_nil_r|done]|]);
      [|by rewrite Hu].
    intros name Hn. apply not_setter_uniform in Hn. simpl. unfold set.
    rewrite !lookup_insert_ne; [done| |]; intros Heq; symmetry in Heq; tauto.
  - injection H as <-. unfold SetTextureUVScale.
    destruct (m_pShaderManager s) as [un|] eqn:Hu; (split; [exists []; split; [by rewrite app_nil_r|done]|]);
      [|by rewrite Hu].
    intros name Hn. apply not_setter_uniform in Hn. simpl. unfold set.
    rewrite !lookup_insert_ne; [done|]; intros Heq; symmetry in Heq; tauto.
  - unfold SetShaderMaterial in H.
    destruct (FindMaterial s materialTag unassigned_material) as [[] m].
    + destruct (m_pShaderManager s) as [u|] eqn:Hu; [|done]. injection H as <-.
      split; [exists []; split; [by rewrite app_nil_r|done]|].
      intros name Hn. apply not_setter_uniform in Hn. simpl. unfold set.
      rewrite !lookup_insert_ne; [done| | |]; intros Heq; symmetry in Heq; tauto.
    + injection H as <-. split; [exists []; split; [by rewrite app_nil_r|done]|done].
  - injection H as <-. split; [|done].
    eexists [_]. split; [reflexivity|]. by constructor.
Qed.

Lemma run_uniforms script s s' name :
  name ∉ setter_uniforms ->
  run script s = Done s' ->
  uniform_of s' name = uniform_of s name
  /\ exists ds, frame s' = frame s ++ ds
       /\ Forall (fun d => seen_by d name = uniform_of s name) ds.
Proof.
  intros Hn. revert s; induction script as [|c rest IH]; intros s H; simpl in H.
  - injection H as <-. split; [done|]. exists []. by rewrite app_nil_r.
  - destruct (exec c s) as [s1|f] eqn:Hc; [|done]. simpl in H.
    destruct (exec_uniforms c s s1 Hc) as ((ds1 & Hf1 & Hd1) & Hu1).
    destruct (IH s1 H) as (Hu & ds & Hf & Hd).
    rewrite Hu1 in Hu, Hd by done.
    split; [exact Hu|]. exists (ds1 ++ ds). split.
    + by rewrite Hf, Hf1, <- app_assoc.
    + apply Forall_app. split; [|exact Hd].
      eapply Forall_impl; [exact Hd1|]. intros d Hd'. unfold seen_by, uniform_of.
      by rewrite Hd'.
Qed.

Lemma foldl_set_other writes u name :
  name ∉ map fst writes ->
  foldl (fun u w => set w.1 w.2 u) u writes !! name = u !! name.
Proof.
  revert u; induction writes as [|[n v] ws IH]; intros u Hn; [done|].
  cbn [map fst] in Hn. apply not_elem_of_cons in Hn as [Hne Hn].
  cbn [foldl]. rewrite IH by done. unfold set. simpl. by rewrite lookup_insert_ne.
Qed.

Lemma foldl_set_lookup writes u name v :
  NoDup (map fst writes) -> (name, v) ∈ writes ->
  foldl (fun u w => set w.1 w.2 u) u writes !! name = Some v.
Proof.
  revert u; induction writes as [|[n x] ws IH]; intros u Hnd Hin.
  - by apply elem_of_nil in Hin.
  - cbn [map fst] in Hnd. apply NoDup_cons in Hnd as [Hnot Hnd]. cbn [foldl].
    apply elem_of_cons in Hin as [Heq|Hin].
    + injection Heq as <- <-. rewrite foldl_set_other by done.
      unfold set. simpl. apply lookup_insert_eq.
    + by apply IH.
Qed.

Lemma light_names_distinct : NoDup (map fst light_writes).
Proof. by apply (bool_decide_unpack _); vm_compute. Qed.

Lemma light_names_not_setters :
  Forall (fun name => name ∉ setter_uniforms) (map fst light_writes).
Proof. by apply (bool_decide_unpack _); vm_compute. Qed.

(** The uniforms of a completed pass, for a name no setter writes. *)
Lemma RenderScene_uniforms s u name :
  m_pShaderManager s = Some u ->
  name ∉ setter_uniforms ->
  exists s' ds, RenderScene s = Done s'
    /\ frame s' = frame s ++ ds
    /\ uniform_of s' name
       = foldl (fun u w => set w.1 w.2 u) u light_writes !! name
    /\ Forall (fun d => seen_by d name
                        = foldl (fun u w => set w.1 w.2 u) u light_writes !! name) ds.
Proof.
  intros Hu Hn. destruct (RenderScene_Some s u Hu) as (s1 & Hr & ->).
  destruct (run_uniforms _ _ _ name Hn Hr) as (Hu1 & ds & Hf & Hd).
  eexists _, ds. split; [reflexivity|].
  split; [by destruct (cull_face (gl s))|].
  split; [by destruct (cull_face (gl s))|exact Hd].
Qed.

(** X12: the light rig set at the start of a pass is what every draw of the
    pass is lit by: each uniform [SetupSceneLights] writes has, at every
    draw request and at the end of the pass, the value written for it. *)
Theorem lights_reach_every_draw s name v :
  is_Some (m_pShaderManager s) ->
  (name, v) ∈ light_writes ->
  exists s' ds, RenderScene s = Done s'
    /\ frame s' = frame s ++ ds
    /\ uniform_of s' name = Some v
    /\ Forall (fun d => seen_by d name = Some v) ds.
Proof.
  intros [u Hu] Hin.
  assert (Hn : name ∉ setter_uniforms).
  { pose proof light_names_not_setters as H. rewrite Forall_forall in H.
    apply H. apply list_elem_of_fmap. by exists (name, v). }
  destruct (RenderScene_uniforms s u name Hu Hn) as (s' & ds & A & B & C & D).
  rewrite (foldl_set_lookup _ _ _ v light_names_distinct Hin) in C, D.
  by exists s', ds.
Qed.

Lemma lights_reach_every_draw_witness :
  exists s' ds, RenderScene two_textures = Done s'
    /\ frame s' = ds
    /\ Forall (fun d => seen_by d "pointLights[4].bActive" = Some (UBool false)) ds.
Proof.
  destruct (lights_reach_every_draw two_textures "pointLights[4].bActive" (UBool false))
    as (s' & ds & A & B & _ & D).
  - by eexists.
  - apply (list_elem_of_lookup_2 _ 26). reflexivity.
  - exists s', ds. split; [exact A|]. split; [exact B|exact D].
Defined.

(** X13: a frame writes no uniform outside the names of its setters and of
    the light rig: any other uniform (the view, the projection and the view
    position among them) has at every draw request and at the end of the
    pass the value it had before the pass. *)
Theorem frame_uniform_footprint s name :
  is_Some (m_pShaderManager s) ->
  name ∉ frame_uniforms ->
  exists s' ds, RenderScene s = Done s'
    /\ frame s' = frame s ++ ds
    /\ uniform_of s' name = uniform_of s name
    /\ Forall (fun d => seen_by d name = uniform_of s name) ds.
Proof.
  intros [u Hu] Hn. unfold frame_uniforms in Hn.
  apply not_elem_of_app in Hn as [Hn1 Hn2].
  destruct (RenderScene_uniforms s u name Hu Hn1) as (s' & ds & A & B & C & D).
  rewrite (foldl_set_other _ _ _ Hn2) in C, D.
  exists s', ds. unfold uniform_of at 2 3. rewrite Hu. by simpl.
Qed.

Lemma frame_uniform_footprint_witness :
  exists s' ds,
    RenderScene (with_shader (Some (set "view" (UMat4 identity) ∅)) two_textures)
    = Done s'
    /\ frame s' = ds
    /\ Forall (fun d => seen_by d "view" = Some (UMat4 identity)) ds.
Proof.
  destruct (frame_uniform_footprint
              (with_shader (Some (set "view" (UMat4 identity) ∅)) two_textures) "view")
    as (s' & ds & A & B & _ & D).
  - by eexists.
  - apply (bool_decide_unpack _). vm_compute. reflexivity.
  - exists s', ds. split; [exact A|]. split; [exact B|exact D].
Defined.

(** ** One transform per draw *)

Lemma run_transforms script pending s u s' :
  m_pShaderManager s = Some u ->
  one_transform_per_draw pending script = true ->
  run script s = Done s' ->
  exists ds, frame s' = frame s ++ ds
    /\ map model_of ds
       = (if pending then [u !! g_ModelName] else [])
         ++ map (fun m => Some (UMat4 m)) (transforms_of script).
Proof.
  revert pending s u; induction script as [|c rest IH]; intros pending s u Hu Hp Hr.
  - simpl in *. injection Hr as <-. destruct pending; [done|].
    exists []. by rewrite app_nil_r.
  - cbn [run] in Hr. destruct (exec c s) as [s1|f] eqn:Hc; [|done].
    cbn [mbind Outcome_bind] in Hr.
    destruct c; cbn [one_transform_per_draw transforms_of] in Hp |- *; simpl in Hc.
    + apply andb_true_iff in Hp as [Hp1 Hp]. destruct pending; [done|].
      injection Hc as <-. unfold SetTransformations in Hr. rewrite Hu in Hr.
      edestruct (IH true) as (ds & Hf & Hm); [|exact Hp|exact Hr|]; [reflexivity|].
      exists ds. split; [exact Hf|]. rewrite Hm. unfold set. simpl.
      by rewrite lookup_insert_eq.
    + injection Hc as <-. unfold SetShaderColor in Hr. rewrite Hu in Hr.
      edestruct (IH pending) as (ds & Hf & Hm); [|exact Hp|exact Hr|]; [reflexivity|].
      exists ds. split; [exact Hf|]. rewrite Hm. unfold set.
      by rewrite !lookup_insert_ne.
    + injection Hc as <-. unfold SetShaderTexture in Hr. rewrite Hu in Hr.
      edestruct (IH pending) as (ds & Hf & Hm); [|exact Hp|exact Hr|]; [reflexivity|].
      exists ds. split; [exact Hf|]. rewrite Hm. unfold set.
      by rewrite !lookup_insert_ne.
    + injection Hc as <-. unfold SetTextureUVScale in Hr. rewrite Hu in Hr.
      edestruct (IH pending) as (ds & Hf & Hm); [|exact Hp|exact Hr|]; [reflexivity|].
      exists ds. split; [exact Hf|]. rewrite Hm. unfold set.
      by rewrite !lookup_insert_ne.
    + unfold SetShaderMaterial in Hc. rewrite Hu in Hc.
      destruct (FindMaterial s materialTag unassigned_material) as [[] m];
        injection Hc as <-.
      * edestruct (IH pending) as (ds & Hf & Hm); [|exact Hp|exact Hr|]; [reflexivity|].
        exists ds. split; [exact Hf|]. rewrite Hm. unfold set.
        by rewrite !lookup_insert_ne.
      * by apply (IH pending _ _ Hu Hp Hr).
    + apply andb_true_iff in Hp as [Hp1 Hp]. destruct pending; [|done].
      injection Hc as <-.
      destruct (IH false (DrawMesh m s) u Hu Hp Hr) as (ds & Hf & Hm).
      eexists (_ :: ds). split.
      * rewrite Hf. unfold DrawMesh. cbn [frame with_draw]. by rewrite <- app_assoc.
      * cbn [map]. rewrite Hm. unfold model_of. cbn [dr_uniforms]. by rewrite Hu.
Qed.

Lemma script_one_transform_per_draw :
  one_transform_per_draw false Scene.script = true.
Proof. by vm_compute. Qed.

(** X11: in a pass every draw request is issued under the transform set for
    it: the model matrices the draws see are, in order and one for one,
    the matrices of the [SetTransformations] calls of the script; no draw
    reuses the transform of the draw before it and no transform is set
    without being drawn. *)
Theorem every_draw_has_its_transform s :
  is_Some (m_pShaderManager s) ->
  exists s' ds, RenderScene s = Done s'
    /\ frame s' = frame s ++ ds
    /\ map model_of ds = map (fun m => Some (UMat4 m)) (transforms_of Scene.script).
Proof.
  intros [u Hu]. destruct (RenderScene_Some s u Hu) as (s1 & Hr & ->).
  edestruct (run_transforms Scene.script false) as (ds & Hf & Hm);
    [|exact script_one_transform_per_draw|exact Hr|]; [reflexivity|].
  eexists _, ds. split; [reflexivity|]. split; [by destruct (cull_face (gl s))|exact Hm].
Qed.

Lemma every_draw_has_its_transform_witness :
  exists s' ds, RenderScene two_textures = Done s'
    /\ frame s' = ds
    /\ map model_of ds = map (fun m => Some (UMat4 m)) (transforms_of Scene.script).
Proof.
  destruct (every_draw_has_its_transform two_textures) as (s' & ds & A & B & C).
  - by eexists.
  - exists s', ds. split; [exact A|]. split; [exact B|exact C].
Defined.

(** ** Every draw is shaded *)

Lemma FindMaterial_loop_found mats t out m :
  FindMaterial_loop mats t out = (true, m) -> m ∈ mats.
Proof.
  induction mats as [|x xs IH]; simpl; [done|].
  destruct (String.eqb (tag x) t).
  - intros [= <-]. apply list_elem_of_here.
  - intros H. apply list_elem_of_further. by apply IH.
Qed.

Lemma painted_other s u name v :
  name <> g_UseTextureName -> name <> g_TextureValueName ->
  painted s u -> painted s (set name v u).
Proof.
  intros H1 H2 [H|(H & k & e & Hk & He)]; unfold set; [left|right].
  - by rewrite lookup_insert_ne.
  - split; [by rewrite lookup_insert_ne|]. exists k, e.
    split; [by rewrite lookup_insert_ne|done].
Qed.

Lemma has_material_other s u name v :
  name <> "material.diffuseColor" -> name <> "material.specularColor" ->
  name <> "material.shininess" ->
  has_material s u -> has_material s (set name v u).
Proof.
  intros H1 H2 H3 (m & Hm & A & B & C). exists m. unfold set.
  split; [done|]. by rewrite !lookup_insert_ne.
Qed.

Lemma run_shaded script p m s0 s u s' :
  (forall k e, loaded_entries s0 !! k = Some e ->
               binding_2d (gl s0) !! Z.of_nat k = Some (ID e)) ->
  loaded_entries s = loaded_entries s0 ->
  m_objectMaterials s = m_objectMaterials s0 ->
  m_pShaderManager s = Some u ->
  Forall (call_resolves s0) script ->
  shaded_before_draw p m script = true ->
  (p = true -> painted s0 u) -> (m = true -> has_material s0 u) ->
  run script s = Done s' ->
  exists ds, frame s' = frame s ++ ds /\ Forall (draw_ready s0) ds.
Proof.
  intros Hbind. revert p m s u.
  induction script as [|c rest IH]; intros p m s u He Hm Hu Hres Hsh Hp Hmat Hr.
  - simpl in Hr. injection Hr as <-. exists []. by rewrite app_nil_r.
  - apply Forall_cons in Hres as [Hc Hres].
    cbn [run] in Hr. destruct (exec c s) as [s1|f] eqn:Hx; [|done].
    cbn [mbind Outcome_bind] in Hr.
    destruct c; cbn [shaded_before_draw] in Hsh; simpl in Hx.
    + injection Hx as <-. unfold SetTransformations in Hr. rewrite Hu in Hr.
      edestruct (IH p m) as (ds & Hfr & Hd); [| | |exact Hres|exact Hsh| | |exact Hr|];
        [done|done|reflexivity| | |by exists ds].
      * intros Hp'. by apply painted_other; [done|done|apply Hp].
      * intros Hm'. by apply has_material_other; [done|done|done|apply Hmat].
    + injection Hx as <-. unfold SetShaderColor in Hr. rewrite Hu in Hr.
      edestruct (IH true m) as (ds & Hfr & Hd); [| | |exact Hres|exact Hsh| | |exact Hr|];
        [done|done|reflexivity| | |by exists ds].
      * intros _. left. unfold set. by rewrite lookup_insert_ne, lookup_insert_eq.
      * intros Hm'. apply has_material_other; [done|done|done|].
        by apply has_material_other; [done|done|done|apply Hmat].
    + injection Hx as <-. unfold SetShaderTexture in Hr. rewrite Hu in Hr.
      edestruct (IH true m) as (ds & Hfr & Hd); [| | |exact Hres|exact Hsh| | |exact Hr|];
        [done|done|reflexivity| | |by exists ds].
      * intros _. right. unfold set.
        split; [by rewrite lookup_insert_ne, lookup_insert_eq|].
        destruct Hc as [Hreg _].
        destruct (registered_slot s0 textureTag Hreg) as (k & e & Hk & _ & Hslot).
        exists k, e. split; [|split; [exact Hk|by apply Hbind]].
        rewrite lookup_insert_eq. unfold FindTextureSlot in *. by rewrite He, Hslot.
      * intros Hm'. apply has_material_other; [done|done|done|].
        by apply has_material_other; [done|done|done|apply Hmat].
    + injection Hx as <-. unfold SetTextureUVScale in Hr. rewrite Hu in Hr.
      edestruct (IH p m) as (ds & Hfr & Hd); [| | |exact Hres|exact Hsh| | |exact Hr|];
        [done|done|reflexivity| | |by exists ds].
      * intros Hp'. by apply painted_other; [done|done|apply Hp].
      * intros Hm'. by apply has_material_other; [done|done|done|apply Hmat].
    + destruct (FindMaterial_hit s0 materialTag unassigned_material Hc) as [mat Hf].
      unfold SetShaderMaterial, FindMaterial in Hx. rewrite Hm in Hx.
      unfold FindMaterial in Hf. rewrite Hf, Hu in Hx. injection Hx as <-.
      edestruct (IH p true) as (ds & Hfr & Hd); [| | |exact Hres|exact Hsh| | |exact Hr|];
        [done|done|reflexivity| | |by exists ds].
      * intros Hp'. apply painted_other; [done|done|].
        apply painted_other; [done|done|].
        by apply painted_other; [done|done|apply Hp].
      * intros _. exists mat. split; [by apply FindMaterial_loop_found in Hf|].
        unfold set. split; [|split].
        -- by rewrite !lookup_insert_ne, lookup_insert_eq by done.
        -- by rewrite lookup_insert_ne, lookup_insert_eq by done.
        -- by rewrite lookup_insert_eq.
    + injection Hx as <-.
      apply andb_true_iff in Hsh as [Hpm Hsh]. apply andb_true_iff in Hpm as [-> ->].
      destruct (IH true true (DrawMesh m0 s) u) as (ds & Hf & Hd); try done.
      eexists (_ :: ds). split.
      * rewrite Hf. unfold DrawMesh. cbn [frame with_draw]. by rewrite <- app_assoc.
      * constructor; [|exact Hd]. exists u. cbn [dr_uniforms].
        split; [exact Hu|]. split; [by apply Hp|by apply Hmat].
Qed.

Lemma script_shaded_before_draw :
  shaded_before_draw false false Scene.script = true.
Proof. by vm_compute. Qed.

(** X22: set-up and frame fit together: once the materials are defined and
    the eight textures loaded, every draw request of a pass is fully
    shaded: it sees either the flat-colour switch or a sampler whose unit
    holds the texture of a registered entry (never the slot -1), and its
    three material uniforms are those of one preset of the table. *)
Theorem every_draw_is_shaded stbi_load glGen s :
  m_loadedTextures s = 0%Z ->
  (8 <= length (m_textureIDs s))%nat ->
  (forall f t, (f, t) ∈ scene_texture_files -> accepted (stbi_load f) = true) ->
  is_Some (m_pShaderManager s) ->
  exists s1 s2 ds,
    LoadSceneTextures stbi_load glGen (DefineObjectMaterials s) = Done s1
    /\ RenderScene s1 = Done s2
    /\ frame s2 = frame s1 ++ ds
    /\ Forall (draw_ready s1) ds.
Proof.
  intros H0 Hcap Hall [u Hu].
  destruct (LoadSceneTextures_result stbi_load glGen (DefineObjectMaterials s))
    as (s1 & Hrun & _ & Hsh & _ & Hbind); [done|done|].
  rewrite DefineObjectMaterials_shader, Hu in Hsh.
  pose proof (calls_resolve_after_loading stbi_load glGen s s1 H0 Hcap Hall Hrun) as Hres.
  destruct (RenderScene_Some s1 u Hsh) as (s1' & Hr & Heq).
  edestruct (run_shaded Scene.script false false s1) as (ds & Hf & Hd);
    [exact Hbind| | | |exact Hres|exact script_shaded_before_draw| | |exact Hr|];
    [reflexivity|reflexivity|reflexivity|done|done|].
  exists s1, (if cull_face (gl s1) then with_gl (glEnable_CULL_FACE (gl s1')) s1' else s1'), ds.
  split; [exact Hrun|]. split; [exact Heq|].
  split; [by destruct (cull_face (gl s1))|exact Hd].
Qed.

Lemma every_draw_is_shaded_witness :
  exists s1 s2 ds,
    LoadSceneTextures all_rgb names_from_1
      (DefineObjectMaterials (SceneManager 16 (Some ∅) gl0)) = Done s1
    /\ RenderScene s1 = Done s2
    /\ frame s2 = frame s1 ++ ds
    /\ Forall (draw_ready s1) ds.
Proof.
  apply (every_draw_is_shaded all_rgb names_from_1 (SceneManager 16 (Some ∅) gl0)).
  - reflexivity.
  - simpl. lia.
  - intros f t _. reflexivity.
  - eexists. reflexivity.
Defined.

(* ===================================================================== *)
(** * Properties of the view manager *)
(* ===================================================================== *)

Section ViewProperties.

Import View.

Variable CameraRest : Type.
Variable camera_h : CameraClass CameraRest.
Variable float_of_double : Q -> Q.

Implicit Types st : ViewState CameraRest.

(** What [ProcessKeyboardEvents] does when there are a window and a
    camera and the two mode flags agree. *)
Lemma ProcessKeyboardEvents_fields pressed st w cam :
  m_pWindow st = Some w -> g_pCamera st = Some cam ->
  bOrthographicProjection st = g_bOrthographic st ->
  let st' := ProcessKeyboardEvents camera_h pressed st in
  let mode := bOrthographicProjection st in
  bOrthographicProjection st' = (mode || pressed GLFW_KEY_O) && negb (pressed GLFW_KEY_P)
  /\ g_bOrthographic st' = bOrthographicProjection st'
  /\ gFirstMouse st'
     = gFirstMouse st || (pressed GLFW_KEY_O && negb mode)
       || (pressed GLFW_KEY_P && (mode || pressed GLFW_KEY_O))
  /\ g_pCamera st' = Some (keys_move camera_h pressed (gDeltaTime st) cam)
  /\ m_pWindow st'
     = Some (MkWindow (shouldClose w || pressed GLFW_KEY_ESCAPE)
                      (cursorPosCallback w) (cursorDisabled w))
  /\ m_pShaderManager st' = m_pShaderManager st
  /\ gLastX st' = gLastX st /\ gLastY st' = gLastY st
  /\ gDeltaTime st' = gDeltaTime st /\ gLastFrame st' = gLastFrame st
  /\ cerr st' = cerr st /\ glfwTerminated st' = glfwTerminated st.
Proof.
  intros Hw Hc Hm. unfold ProcessKeyboardEvents. rewrite Hw, Hc.
  destruct st as [sh ? mode ? lx ly fm dt lf gm tm cc be ce]. simpl in *. subst.
  destruct w as [sc cb cd].
  destruct (pressed GLFW_KEY_ESCAPE), (pressed GLFW_KEY_O), (pressed GLFW_KEY_P), gm, fm, sc;
    simpl; repeat split; reflexivity.
Qed.


(** A frame on a window, with a camera and agreeing mode flags. *)
Lemma PrepareSceneView_fields t pressed st w cam :
  m_pWindow st = Some w -> g_pCamera st = Some cam ->
  bOrthographicProjection st = g_bOrthographic st ->
  let mode := bOrthographicProjection st in
  let mode' := (mode || pressed GLFW_KEY_O) && negb (pressed GLFW_KEY_P) in
  let currentFrame := float_of_double t in
  let cam' := keys_move camera_h pressed (currentFrame - gLastFrame st)%Q cam in
  exists st', PrepareSceneView camera_h float_of_double t pressed st = Some st'
    /\ bOrthographicProjection st' = mode'
    /\ g_bOrthographic st' = mode'
    /\ gFirstMouse st'
       = gFirstMouse st || (pressed GLFW_KEY_O && negb mode)
         || (pressed GLFW_KEY_P && (mode || pressed GLFW_KEY_O))
    /\ g_pCamera st' = Some cam'
    /\ m_pWindow st'
       = Some (MkWindow (shouldClose w || pressed GLFW_KEY_ESCAPE)
                        (cursorPosCallback w) (cursorDisabled w))
    /\ m_pShaderManager st'
       = (fun u => set "viewPosition" (UVec3 (Position cam'))
                     (set "projection" (UMat4 (projection_of mode' cam'))
                        (set "view" (UMat4 (GetViewMatrix camera_h cam')) u)))
           <$> m_pShaderManager st
    /\ gLastX st' = gLastX st /\ gLastY st' = gLastY st
    /\ gDeltaTime st' = (currentFrame - gLastFrame st)%Q
    /\ gLastFrame st' = currentFrame
    /\ cerr st' = cerr st /\ glfwTerminated st' = glfwTerminated st.
Proof.
  intros Hw Hc Hm. unfold PrepareSceneView, ProcessKeyboardEvents.
  destruct st as [sh ? mode ? lx ly fm dt lf gm tm cc be ce]. simpl in *. subst.
  destruct w as [sc cb cd].
  destruct (pressed GLFW_KEY_ESCAPE), (pressed GLFW_KEY_O), (pressed GLFW_KEY_P), gm, fm, sc, sh;
    simpl; eexists; (split; [reflexivity|]); repeat split; reflexivity.
Qed.


(** The callback in perspective mode, with a camera. *)
Lemma Mouse_Position_Callback_fields x y st cam :
  g_pCamera st = Some cam -> g_bOrthographic st = false ->
  let lastX := if gFirstMouse st then float_of_double x else gLastX st in
  let lastY := if gFirstMouse st then float_of_double y else gLastY st in
  Mouse_Position_Callback camera_h float_of_double x y st
  = Some (with_camera
            (Some (ProcessMouseMovement camera_h
                     (float_of_double (x - lastX)) (float_of_double (lastY - y)) cam))
            (with_mouse (float_of_double x) (float_of_double y) false st)).
Proof.
  intros Hc Hg. unfold Mouse_Position_Callback. rewrite Hg.
  destruct st as [sh ? mode ? lx ly fm dt lf gm tm cc be ce]. simpl in *. subst.
  by destruct fm.
Qed.

(** One event keeps the invariant, the presence of the window and
    everything about the window but its close flag, which is raised by a
    frame with Escape down and never lowered. *)
Lemma handle_invariant e st :
  view_ok st ->
  exists st', handle camera_h float_of_double e st = Some st'
    /\ view_ok st'
    /\ m_pWindow st'
       = (fun w => MkWindow (shouldClose w || escape_pressed e)
                            (cursorPosCallback w) (cursorDisabled w))
           <$> m_pWindow st.
Proof.
  intros [Hm [cam Hc]]. destruct e as [t pressed|x y]; cbn [handle escape_pressed].
  - destruct (m_pWindow st) as [w|] eqn:Hw.
    + destruct (PrepareSceneView_fields t pressed st w cam Hw Hc Hm)
        as (st' & -> & A & B & _ & C & D & _).
      exists st'. split; [done|]. split; [|done].
      split; [congruence|by rewrite C].
    + exists st. unfold PrepareSceneView. rewrite Hw. split; [done|].
      split; [by split; [|exists cam]|done].
  - destruct (g_bOrthographic st) eqn:Hg.
    + exists st. unfold Mouse_Position_Callback. rewrite Hg.
      split; [done|]. split; [by split; [congruence|exists cam]|].
      destruct (m_pWindow st) as [[]|]; simpl; by rewrite ?orb_false_r.
    + rewrite (Mouse_Position_Callback_fields x y st cam Hc Hg).
      eexists. split; [done|]. split.
      * split; [simpl; congruence|by eexists].
      * cbn [m_pWindow with_camera with_mouse].
        destruct (m_pWindow st) as [[]|]; simpl; by rewrite ?orb_false_r.
Qed.

Lemma handle_all_invariant es st :
  view_ok st ->
  exists st', handle_all camera_h float_of_double es st = Some st'
    /\ view_ok st'
    /\ m_pWindow st'
       = (fun w => MkWindow (shouldClose w || existsb escape_pressed es)
                            (cursorPosCallback w) (cursorDisabled w))
           <$> m_pWindow st.
Proof.
  revert st; induction es as [|e es IH]; intros st Hok.
  - exists st. split; [done|]. split; [done|].
    destruct (m_pWindow st) as [[]|]; simpl; by rewrite ?orb_false_r.
  - destruct (handle_invariant e st Hok) as (st1 & He & Hok1 & Hw1).
    destruct (IH st1 Hok1) as (st' & Hes & Hok' & Hw').
    exists st'. cbn [handle_all]. rewrite He. split; [exact Hes|]. split; [exact Hok'|].
    rewrite Hw', Hw1. destruct (m_pWindow st) as [[]|]; simpl; [|done].
    by rewrite orb_assoc.
Qed.

(** X14: no sequence of frames and mouse events takes the view manager out
    of the states in which the member and the global that record the
    projection mode agree and the camera exists; from such a state every
    event is handled without a call through a null camera. *)
Theorem event_loop_invariant es st :
  view_ok st ->
  exists st', handle_all camera_h float_of_double es st = Some st' /\ view_ok st'.
Proof.
  intros Hok. destruct (handle_all_invariant es st Hok) as (st' & A & B & _).
  by exists st'.
Qed.

(** X15: the close request is sticky: after any sequence of events the
    window is asked to close exactly when it was before or Escape was down
    during one of the frames; nothing lowers the flag, and the cursor
    settings of the window are never touched. *)
Theorem close_request_is_sticky es st w :
  view_ok st ->
  m_pWindow st = Some w ->
  exists st', handle_all camera_h float_of_double es st = Some st'
    /\ m_pWindow st'
       = Some (MkWindow (shouldClose w || existsb escape_pressed es)
                        (cursorPosCallback w) (cursorDisabled w)).
Proof.
  intros Hok Hw. destruct (handle_all_invariant es st Hok) as (st' & A & _ & B).
  exists st'. split; [exact A|]. by rewrite B, Hw.
Qed.

(** X16: the projection mode after a frame is
    [(mode || O) && negb P]: O switches to orthographic, P to perspective,
    and P wins when both are down; member and global flag change
    together; the first-mouse flag is raised whenever one of the two
    switches fires; and the projection uploaded in that frame is already the
    one of the new mode. *)
Theorem projection_switch t pressed st w :
  view_ok st ->
  m_pWindow st = Some w ->
  let mode := bOrthographicProjection st in
  let mode' := (mode || pressed GLFW_KEY_O) && negb (pressed GLFW_KEY_P) in
  exists st' cam',
    PrepareSceneView camera_h float_of_double t pressed st = Some st'
    /\ g_pCamera st' = Some cam'
    /\ bOrthographicProjection st' = mode'
    /\ g_bOrthographic st' = mode'
    /\ gFirstMouse st'
       = gFirstMouse st || (pressed GLFW_KEY_O && negb mode)
         || (pressed GLFW_KEY_P && (mode || pressed GLFW_KEY_O))
    /\ (forall u, m_pShaderManager st = Some u ->
          exists u', m_pShaderManager st' = Some u'
            /\ u' !! "projection" = Some (UMat4 (projection_of mode' cam'))).
Proof.
  intros [Hm [cam Hc]] Hw mode mode'.
  destruct (PrepareSceneView_fields t pressed st w cam Hw Hc Hm)
    as (st' & A & B & C & D & E & _ & F & _).
  eexists st', _. split; [exact A|]. split; [exact E|]. split; [exact B|].
  split; [exact C|]. split; [exact D|].
  intros u Hu. rewrite Hu in F. simpl in F. eexists. split; [exact F|].
  unfold set. rewrite lookup_insert_ne by done. apply lookup_insert_eq.
Qed.

(** X17: what a frame uploads: the time read from GLFW is converted to
    float; the view matrix and the view position are those of the camera
    after the keys of this frame moved it, by the difference between that
    float and the one of the frame before; apart from "view", "projection"
    and "viewPosition" no uniform is written, and none of the three is a
    uniform the scene's frame writes. *)
Theorem view_uniforms_of_a_frame t pressed st w cam u :
  m_pWindow st = Some w ->
  g_pCamera st = Some cam ->
  bOrthographicProjection st = g_bOrthographic st ->
  m_pShaderManager st = Some u ->
  let currentFrame := float_of_double t in
  let cam' := keys_move camera_h pressed (currentFrame - gLastFrame st)%Q cam in
  exists st' u',
    PrepareSceneView camera_h float_of_double t pressed st = Some st'
    /\ g_pCamera st' = Some cam'
    /\ gDeltaTime st' = (currentFrame - gLastFrame st)%Q
    /\ gLastFrame st' = currentFrame
    /\ m_pShaderManager st' = Some u'
    /\ u' !! "view" = Some (UMat4 (GetViewMatrix camera_h cam'))
    /\ u' !! "viewPosition" = Some (UVec3 (Position cam'))
    /\ (forall name, name ∉ view_uniforms -> u' !! name = u !! name)
    /\ Forall (fun name => name ∉ frame_uniforms) view_uniforms.
Proof.
  intros Hw Hc Hm Hu currentFrame cam'.
  destruct (PrepareSceneView_fields t pressed st w cam Hw Hc Hm)
    as (st' & A & _ & _ & _ & E & _ & F & _ & _ & G & H & _).
  rewrite Hu in F. simpl in F.
  eexists st', _. split; [exact A|]. split; [exact E|]. split; [exact G|].
  split; [exact H|]. split; [exact F|]. unfold set.
  split; [by rewrite !lookup_insert_ne, lookup_insert_eq by done|].
  split; [by rewrite lookup_insert_eq|]. split.
  - intros name Hn. unfold view_uniforms in Hn. rewrite !not_elem_of_cons in Hn.
    destruct Hn as (H1 & H2 & H3 & _). by rewrite !lookup_insert_ne.
  - by apply (bool_decide_unpack _); vm_compute.
Qed.

(** X18: mouse look: in orthographic mode the callback returns at once and
    changes nothing, the last position included; in perspective mode it
    turns the camera by the offset of the position from the last one (Y
    reversed), converted to float; when the first-mouse flag is set the
    last position is first replaced by the position converted to float, so
    that the offset is what that conversion lost; then the position
    converted to float is remembered and the flag cleared. *)
Theorem mouse_look x y st cam :
  g_pCamera st = Some cam ->
  if g_bOrthographic st
  then Mouse_Position_Callback camera_h float_of_double x y st = Some st
  else
    let lastX := if gFirstMouse st then float_of_double x else gLastX st in
    let lastY := if gFirstMouse st then float_of_double y else gLastY st in
    Mouse_Position_Callback camera_h float_of_double x y st
    = Some (with_camera
              (Some (ProcessMouseMovement camera_h
                       (float_of_double (x - lastX)) (float_of_double (lastY - y)) cam))
              (with_mouse (float_of_double x) (float_of_double y) false st)).
Proof.
  intros Hc. destruct (g_bOrthographic st) eqn:Hg.
  - unfold Mouse_Position_Callback. by rewrite Hg.
  - by apply Mouse_Position_Callback_fields.
Qed.

(** X19: the camera does not jump when mouse look comes back: after the
    frame that switches from orthographic to perspective, the first mouse
    event turns the camera by what the conversion of the pointer position
    to float lost, and by nothing else: the offsets do not depend on the
    position remembered before, wherever the pointer has moved in the
    meantime; the position converted to float is recorded. *)
Theorem no_jump_on_return_to_perspective t pressed x y st w :
  view_ok st ->
  m_pWindow st = Some w ->
  bOrthographicProjection st = true ->
  pressed GLFW_KEY_P = true ->
  exists st1 st2 cam,
    PrepareSceneView camera_h float_of_double t pressed st = Some st1
    /\ g_pCamera st1 = Some cam
    /\ Mouse_Position_Callback camera_h float_of_double x y st1 = Some st2
    /\ g_pCamera st2
       = Some (ProcessMouseMovement camera_h
                 (float_of_double (x - float_of_double x))
                 (float_of_double (float_of_double y - y)) cam)
    /\ gLastX st2 = float_of_double x /\ gLastY st2 = float_of_double y
    /\ gFirstMouse st2 = false.
Proof.
  intros [Hm [cam Hc]] Hw Hmode HP.
  destruct (PrepareSceneView_fields t pressed st w cam Hw Hc Hm)
    as (st1 & A & B & C & D & E & _).
  rewrite Hmode, HP in B, C, D. simpl in C, D.
  rewrite orb_true_r in D.
  pose proof (Mouse_Position_Callback_fields x y st1 _ E C) as F.
  rewrite D in F. cbv zeta in F.
  eexists st1, _, _. split; [exact A|]. split; [exact E|].
  split; [exact F|]. by repeat split.
Qed.

(** X20: which entry points test the camera pointer: with no camera
    [ProcessKeyboardEvents] returns without doing anything, while
    [PrepareSceneView] on a window and the mouse callback in perspective
    mode call through the null pointer; the callback in orthographic mode
    and [PrepareSceneView] without a window return before they reach it.
    The destructor leaves the manager in such a state. *)
Theorem null_camera_guards t pressed x y st :
  g_pCamera st = None ->
  ProcessKeyboardEvents camera_h pressed st = st
  /\ PrepareSceneView camera_h float_of_double t pressed st
     = match m_pWindow st with Some _ => None | None => Some st end
  /\ Mouse_Position_Callback camera_h float_of_double x y st
     = (if g_bOrthographic st then Some st else None)
  /\ g_pCamera (destroy_ViewManager st) = None
  /\ m_pWindow (destroy_ViewManager st) = None.
Proof.
  intros Hc. split; [|split; [|split; [|done]]].
  - unfold ProcessKeyboardEvents. rewrite Hc. by destruct (m_pWindow st).
  - unfold PrepareSceneView, ProcessKeyboardEvents.
    destruct st as [sh [w|] mode ? lx ly fm dt lf gm tm cc be ce]; simpl in *; by subst.
  - unfold Mouse_Position_Callback.
    destruct st as [sh ? mode ? lx ly fm dt lf gm tm cc be ce]; simpl in *; subst.
    by destruct gm, fm.
Qed.

End ViewProperties.

Section ViewExamples.

Import View.

Lemma event_loop_invariant_witness :
  exists st',
    handle_all recording_camera nearest_float
      [ev_Frame 1 (only GLFW_KEY_O); ev_Mouse 3 4; ev_Frame 2 (only GLFW_KEY_P);
       ev_Mouse 5 6] ready = Some st'
    /\ view_ok st'.
Proof.
  apply (event_loop_invariant unit recording_camera nearest_float).
  split; [reflexivity|by eexists].
Defined.

Lemma close_request_is_sticky_witness :
  exists st',
    handle_all recording_camera nearest_float
      [ev_Frame 1 (only GLFW_KEY_ESCAPE); ev_Mouse 3 4; ev_Frame 2 no_key] ready
    = Some st'
    /\ m_pWindow st' = Some (MkWindow true true true).
Proof.
  apply (close_request_is_sticky unit recording_camera nearest_float
           [ev_Frame 1 (only GLFW_KEY_ESCAPE); ev_Mouse 3 4; ev_Frame 2 no_key]
           ready (MkWindow false true true)).
  - split; [reflexivity|by eexists].
  - reflexivity.
Defined.

Lemma projection_switch_witness :
  exists st' cam',
    PrepareSceneView recording_camera nearest_float 1 (only GLFW_KEY_O) ready = Some st'
    /\ g_pCamera st' = Some cam'
    /\ bOrthographicProjection st' = true
    /\ g_bOrthographic st' = true
    /\ gFirstMouse st' = true.
Proof.
  destruct (projection_switch unit recording_camera nearest_float 1 (only GLFW_KEY_O) ready
              (MkWindow false true true)) as (st' & cam' & A & B & C & D & E & _).
  - split; [reflexivity|by eexists].
  - reflexivity.
  - exists st', cam'. split; [exact A|]. split; [exact B|].
    split; [exact C|]. split; [exact D|exact E].
Defined.

Lemma view_uniforms_of_a_frame_witness :
  exists st' u',
    PrepareSceneView recording_camera nearest_float 5000.0168
      (only GLFW_KEY_W) long_running = Some st'
    /\ (gDeltaTime st' == 17 # 1024)%Q
    /\ m_pShaderManager st' = Some u'
    /\ u' !! "viewPosition"
       = Some (UVec3 (Position (keys_move recording_camera (only GLFW_KEY_W)
                                          (nearest_float 5000.0168
                                           - gLastFrame long_running)%Q
                                          (MkCamera (Vec3 0.5 5.5 10.0)
                                             (Vec3 0.0 (-0.5) (-2.0))
                                             (Vec3 0.0 1.0 0.0) 80 10 tt)))).
Proof.
  destruct (view_uniforms_of_a_frame unit recording_camera nearest_float
              5000.0168 (only GLFW_KEY_W) long_running
              (MkWindow false true true)
              (MkCamera (Vec3 0.5 5.5 10.0) (Vec3 0.0 (-0.5) (-2.0))
                        (Vec3 0.0 1.0 0.0) 80 10 tt) ∅)
    as (st' & u' & A & _ & D & _ & B & _ & C & _).
  - reflexivity.
  - reflexivity.
  - reflexivity.
  - reflexivity.
  - exists st', u'. split; [exact A|]. split; [|split; [exact B|exact C]].
    rewrite D. reflexivity.
Defined.

Lemma mouse_look_witness :
  Mouse_Position_Callback recording_camera nearest_float 640.3 75.7
    orthographic_view
  = Some orthographic_view.
Proof.
  apply (mouse_look unit recording_camera nearest_float 640.3 75.7
           orthographic_view
           (MkCamera (Vec3 0.5 5.5 10.0) (Vec3 0.0 (-0.5) (-2.0))
                     (Vec3 0.0 1.0 0.0) 80 10 tt)).
  reflexivity.
Defined.

Lemma no_jump_on_return_to_perspective_witness :
  exists st1 st2 cam,
    PrepareSceneView recording_camera nearest_float 1 (only GLFW_KEY_P)
      orthographic_view = Some st1
    /\ g_pCamera st1 = Some cam
    /\ Mouse_Position_Callback recording_camera nearest_float 640.3 75.7
         st1 = Some st2
    /\ g_pCamera st2
       = Some (ProcessMouseMovement recording_camera
                 (nearest_float (640.3 - nearest_float 640.3))
                 (nearest_float (nearest_float 75.7 - 75.7)) cam)
    /\ (nearest_float (640.3 - nearest_float 640.3) == 13421773 # 1099511627776)%Q
    /\ (nearest_float (nearest_float 75.7 - 75.7) == - (13421773 # 4398046511104))%Q.
Proof.
  destruct (no_jump_on_return_to_perspective unit recording_camera nearest_float 1
              (only GLFW_KEY_P) 640.3 75.7 orthographic_view
              (MkWindow false true true))
    as (st1 & st2 & cam & A & B & C & D & _).
  - split; [reflexivity|by eexists].
  - reflexivity.
  - reflexivity.
  - reflexivity.
  - exists st1, st2, cam. split; [exact A|]. split; [exact B|]. split; [exact C|].
    split; [exact D|]. split; reflexivity.
Defined.

Lemma null_camera_guards_witness :
  Mouse_Position_Callback recording_camera nearest_float 3 4 program_start = None
  /\ PrepareSceneView recording_camera nearest_float 1 no_key program_start = Some program_start.
Proof.
  destruct (null_camera_guards unit recording_camera nearest_float 1 no_key 3 4 program_start)
    as (_ & A & B & _).
  - reflexivity.
  - split; [exact B|exact A].
Defined.

End ViewExamples.

Section Projection.

Import View.
Local Open Scope R_scope.

(** X21: in orthographic mode the projection does not depend on the camera
    and maps the box of view space with X and Y from -10 to 10 and depth
    from 0.1 to 100 onto the cube from -1 to 1. *)
Theorem orthographic_volume {CameraRest} (cam : Camera CameraRest) (px py pz : R) :
  exists nx ny nz,
    mul_vec (projection_of true cam) (Vec4 px py pz 1) = Vec4 nx ny nz 1
    /\ nx = px / 10 /\ ny = py / 10
    /\ (-1 <= nx <= 1 <-> -10 <= px <= 10)
    /\ (-1 <= ny <= 1 <-> -10 <= py <= 10)
    /\ (-1 <= nz <= 1 <-> 0.1 <= - pz <= 100).
Proof.
  exists (px / 10), (py / 10), (- (2 * pz + 100.1) / 99.9).
  split; [|split; [done|split; [done|split; [lra|split; lra]]]].
  cbv [projection_of ortho mul_vec vadd vscale col0 col1 col2 col3 vx vy vz vw].
  f_equal; lra.
Qed.

End Projection.

Section ViewStartup.

Import View.

Variable CameraRest : Type.
Variable camera_h : CameraClass CameraRest.
Variable float_of_double : Q -> Q.

Implicit Types st : ViewState CameraRest.

(** X23: start-up: a view manager constructed while the global mode flag is
    clear satisfies the invariant of the event loop, with or without a
    window. If the window cannot be created the failure is logged, GLFW is
    terminated, a null window is returned and every later frame does
    nothing; otherwise the window gets the mouse callback and a disabled
    cursor, blending is enabled, and the first frame without keys uploads
    the view position (0.5, 5.5, 10) and the perspective projection of 80
    degrees with aspect 1000 / 800 between 0.1 and 100. *)
Theorem startup sh st0 window title :
  g_bOrthographic st0 = false ->
  let r := CreateDisplayWindow window title (ViewManager camera_h sh st0) in
  view_ok r.2
  /\ match window with
     | None =>
         r.1 = None /\ m_pWindow r.2 = None /\ glfwTerminated r.2 = true
         /\ cerr r.2 = cerr st0 ++ ["Failed to create GLFW window"]
         /\ (forall t pressed, PrepareSceneView camera_h float_of_double t pressed r.2 = Some r.2)
     | Some w =>
         r.1 = Some (MkWindow (shouldClose w) true true)
         /\ m_pWindow r.2 = r.1
         /\ contextCurrent r.2 = true /\ blendEnabled r.2 = true
         /\ cerr r.2 = cerr st0
         /\ (forall t u, sh = Some u ->
               exists st' u',
                 PrepareSceneView camera_h float_of_double t no_key r.2 = Some st'
                 /\ m_pShaderManager st' = Some u'
                 /\ u' !! "viewPosition" = Some (UVec3 (Vec3 0.5 5.5 10.0))
                 /\ u' !! "projection"
                    = Some (UMat4 (perspective (radians (Q2R 80))
                                     (IZR WINDOW_WIDTH / IZR WINDOW_HEIGHT) 0.1 100)))
     end.
Proof.
  intros Hg. destruct st0 as [sh0 w0 m0 c0 lx ly fm dt lf gm tm cc be ce].
  simpl in Hg. subst gm. destruct window as [w|]; cbn.
  - split; [split; [done|by eexists]|]. repeat (split; [done|]).
    intros t u ->. eexists _, _. split; [reflexivity|]. cbn.
    split; [reflexivity|]. unfold set. split; [by rewrite lookup_insert_eq|].
    by rewrite lookup_insert_ne, lookup_insert_eq by done.
  - split; [split; [done|by eexists]|]. by repeat (split; [done|]).
Qed.

(** X24: neither the constructor nor the destructor resets the global mode
    flag: a view manager constructed while it is still set starts with the
    member saying perspective and the global saying orthographic; it
    renders in perspective but ignores the mouse, P changes nothing, and
    only a frame with O down brings member and global together again. *)
Theorem stale_mode_flag sh st0 w title t x y :
  g_bOrthographic st0 = true ->
  let st := (CreateDisplayWindow (Some w) title (ViewManager camera_h sh st0)).2 in
  g_bOrthographic (destroy_ViewManager st0) = true
  /\ ~ view_ok st
  /\ bOrthographicProjection st = false
  /\ Mouse_Position_Callback camera_h float_of_double x y st = Some st
  /\ (exists st', PrepareSceneView camera_h float_of_double t (only GLFW_KEY_P) st = Some st'
        /\ bOrthographicProjection st' = false /\ g_bOrthographic st' = true)
  /\ (exists st', PrepareSceneView camera_h float_of_double t (only GLFW_KEY_O) st = Some st'
        /\ view_ok st').
Proof.
  intros Hg. destruct st0 as [sh0 w0 m0 c0 lx ly fm dt lf gm tm cc be ce].
  simpl in Hg. subst gm. cbn. split; [done|]. split; [by intros [? _]|].
  split; [done|]. split; [done|]. split.
  - destruct sh; eexists; (split; [reflexivity|done]).
  - destruct sh; eexists; (split; [reflexivity|]); (split; [done|by eexists]).
Qed.

End ViewStartup.

Section ViewStartupExamples.

Import View.

Lemma startup_witness :
  view_ok ready /\ m_pWindow ready = Some (MkWindow false true true).
Proof.
  destruct (startup unit recording_camera nearest_float (Some ∅) program_start
              (Some (MkWindow false false false)) "scene") as (A & _ & B & _).
  - reflexivity.
  - split; [exact A|exact B].
Defined.

Lemma stale_mode_flag_witness :
  ~ view_ok (CreateDisplayWindow (Some (MkWindow false false false)) "scene"
               (ViewManager recording_camera (Some ∅)
                  (destroy_ViewManager orthographic_view))).2.
Proof.
  destruct (stale_mode_flag unit recording_camera nearest_float (Some ∅)
              (destroy_ViewManager orthographic_view) (MkWindow false false false)
              "scene" 1 3 4) as (_ & A & _).
  - reflexivity.
  - exact A.
Defined.

End ViewStartupExamples.
